(** * Command-buffer lifecycle of the Vulkan backend

    A shallow embedding of [Source/Engine/GraphicsDevice/Vulkan/CmdBufferVulkan.cpp]:
    the command buffer ([CmdBufferVulkan]), its pool ([CmdBufferPoolVulkan]) and
    the manager that rotates buffers ([CmdBufferManagerVulkan]).

    Objects reached through pointers are kept in explicit stores: the pool's
    [CmdBuffers] array is a list, a [CmdBufferVulkan*] is an index into it, and
    every call that leaves this translation unit (the Vulkan entry points, the
    fence manager, the descriptor pools manager, the queue and the timer
    queries) is appended to a log kept in the device, so that "X is called on
    Y" is a statement about that log. *)

From Stdlib Require Import ZArith List Bool Lia.
From stdpp Require Import base option list.
Import ListNotations.

Local Open Scope Z_scope.

(** ** Handles and identities *)

Definition VkCommandBuffer := nat.
Definition VkFence := nat.
Definition VkPipelineStageFlags := Z.
Definition SemaphoreVulkan := nat.          (* identity of a [SemaphoreVulkan*] *)
Definition GPUTimerQueryVulkan := nat.      (* identity of a [GPUTimerQueryVulkan*] *)
Definition DescriptorPoolSetContainerVulkan := nat.
Definition RenderPassVulkan := nat.
Definition FramebufferVulkan := nat.
Definition CmdBufferPtr := nat.             (* index into [Pool.CmdBuffers] *)

(** [CmdBufferVulkan::State] *)
Inductive State : Type :=
| State_ReadyForBegin
| State_IsInsideBegin
| State_IsInsideRenderPass
| State_HasEnded
| State_Submitted.

Definition State_eqb (a b : State) : bool :=
  match a, b with
  | State_ReadyForBegin, State_ReadyForBegin
  | State_IsInsideBegin, State_IsInsideBegin
  | State_IsInsideRenderPass, State_IsInsideRenderPass
  | State_HasEnded, State_HasEnded
  | State_Submitted, State_Submitted => true
  | _, _ => false
  end.

(** Every call that crosses the boundary of the translation unit. *)
Inductive Call : Type :=
| vkAllocateCommandBuffers (h : VkCommandBuffer)
| vkFreeCommandBuffers (h : VkCommandBuffer)
| vkBeginCommandBuffer (h : VkCommandBuffer)
| vkEndCommandBuffer (h : VkCommandBuffer)
| vkResetCommandBuffer (h : VkCommandBuffer)
| vkCmdBeginRenderPass (h : VkCommandBuffer) (rp : RenderPassVulkan) (fb : FramebufferVulkan)
| vkCmdEndRenderPass (h : VkCommandBuffer)
| vkCmdBeginDebugUtilsLabelEXT (h : VkCommandBuffer) (label : list Z)
| vkCmdEndDebugUtilsLabelEXT (h : VkCommandBuffer)
| FenceManager_AllocateFence (f : VkFence)
| FenceManager_ResetFence (f : VkFence)
| DescriptorPoolsManager_AcquirePoolSetContainer (c : DescriptorPoolSetContainerVulkan)
| DescriptorPoolsManager_ReleasePoolSet (c : DescriptorPoolSetContainerVulkan)
| Query_Interrupt (q : GPUTimerQueryVulkan) (cmdBuffer : CmdBufferPtr)
| Query_Resume (q : GPUTimerQueryVulkan) (cmdBuffer : CmdBufferPtr)
| Queue_Submit (cmdBuffer : CmdBufferPtr) (signalSemaphore : option SemaphoreVulkan).

(** The error taxonomy of the specification (section 7), plus the ways the
    C++ can crash outright. *)
Inductive Error : Type :=
| InvalidStateError
| DuplicateResourceError
| TimeoutError
| ResourceExhaustedError
| ConsistencyViolation
| VulkanResultError          (* VALIDATE_VULKAN_RESULT on a result other than VK_SUCCESS *)
| NullFunctionCall           (* call through an extension pointer that was never loaded *)
| DanglingPointer.           (* a [CmdBufferVulkan*] that is not in the pool *)

(** ** What the translation unit is compiled and run against

    The preprocessor switches, the declaration of [_eventsBegin] and the
    macros live in headers that are not part of the sources at hand, so they
    are parameters of the model. *)
Record Platform : Type := {
  GPU_ALLOW_PROFILE_EVENTS : bool;
  VULKAN_USE_DESCRIPTOR_POOL_MANAGER : bool;
  (* [true]: [_eventsBegin] is the engine's [int32]; [false]: it is [uint32] *)
  eventsBegin_signed : bool;
  (* whether the extension entry points were loaded (non-null pointers) *)
  has_vkCmdBeginDebugUtilsLabelEXT : bool;
  has_vkCmdEndDebugUtilsLabelEXT : bool;
  (* [true] when the driver answers VK_SUCCESS to the call *)
  vkResult : Call -> bool;
  (* the container [DescriptorPoolsManager->AcquirePoolSetContainer()] hands
     out, given the containers currently on lease *)
  AcquirePoolSetContainer_result :
    list nat -> nat
}.

(** ** Records *)

(** Modelled from the spec: [FenceVulkan] and the fence manager are declared
    elsewhere.  A fence is a handle plus the completion status an observer
    reads from it ([IsSignaled], [IsFenceSignaled]); [ResetFence] makes it
    unsignaled again "for reuse". *)
Record FenceVulkan : Type := {
  fenceHandle : VkFence;
  IsSignaled : bool
}.

Record CmdBufferVulkan : Type := {
  CommandBufferHandle : VkCommandBuffer;
  _state : State;
  WaitFlags : list VkPipelineStageFlags;
  WaitSemaphores : list SemaphoreVulkan;
  SubmittedWaitSemaphores : list SemaphoreVulkan;
  _fence : FenceVulkan;
  FenceSignaledCounter : Z;
  SubmittedFenceCounter : Z;
  CurrentDescriptorPoolSetContainer : option DescriptorPoolSetContainerVulkan;
  _eventsBegin : Z
}.

(** The part of [GPUDeviceVulkan] this file talks to. *)
Record GPUDeviceVulkan : Type := {
  calls : list Call;                 (* log of outgoing calls, oldest first *)
  nativeObjects : nat;               (* native handles handed out so far *)
  leasedPoolSets : list DescriptorPoolSetContainerVulkan
}.

Record CmdBufferManagerVulkan : Type := {
  Device : GPUDeviceVulkan;
  CmdBuffers : list CmdBufferVulkan;           (* [Pool.CmdBuffers] *)
  ActiveCmdBuffer : option CmdBufferPtr;
  QueriesInProgress : list GPUTimerQueryVulkan
}.

(** Field updates. *)
Definition set_state (s : State) (b : CmdBufferVulkan) : CmdBufferVulkan :=
  {| CommandBufferHandle := CommandBufferHandle b; _state := s;
     WaitFlags := WaitFlags b; WaitSemaphores := WaitSemaphores b;
     SubmittedWaitSemaphores := SubmittedWaitSemaphores b; _fence := _fence b;
     FenceSignaledCounter := FenceSignaledCounter b;
     SubmittedFenceCounter := SubmittedFenceCounter b;
     CurrentDescriptorPoolSetContainer := CurrentDescriptorPoolSetContainer b;
     _eventsBegin := _eventsBegin b |}.

Definition set_WaitFlags (l : list VkPipelineStageFlags) (b : CmdBufferVulkan) : CmdBufferVulkan :=
  {| CommandBufferHandle := CommandBufferHandle b; _state := _state b;
     WaitFlags := l; WaitSemaphores := WaitSemaphores b;
     SubmittedWaitSemaphores := SubmittedWaitSemaphores b; _fence := _fence b;
     FenceSignaledCounter := FenceSignaledCounter b;
     SubmittedFenceCounter := SubmittedFenceCounter b;
     CurrentDescriptorPoolSetContainer := CurrentDescriptorPoolSetContainer b;
     _eventsBegin := _eventsBegin b |}.

Definition set_WaitSemaphores (l : list SemaphoreVulkan) (b : CmdBufferVulkan) : CmdBufferVulkan :=
  {| CommandBufferHandle := CommandBufferHandle b; _state := _state b;
     WaitFlags := WaitFlags b; WaitSemaphores := l;
     SubmittedWaitSemaphores := SubmittedWaitSemaphores b; _fence := _fence b;
     FenceSignaledCounter := FenceSignaledCounter b;
     SubmittedFenceCounter := SubmittedFenceCounter b;
     CurrentDescriptorPoolSetContainer := CurrentDescriptorPoolSetContainer b;
     _eventsBegin := _eventsBegin b |}.

Definition set_SubmittedWaitSemaphores (l : list SemaphoreVulkan) (b : CmdBufferVulkan) : CmdBufferVulkan :=
  {| CommandBufferHandle := CommandBufferHandle b; _state := _state b;
     WaitFlags := WaitFlags b; WaitSemaphores := WaitSemaphores b;
     SubmittedWaitSemaphores := l; _fence := _fence b;
     FenceSignaledCounter := FenceSignaledCounter b;
     SubmittedFenceCounter := SubmittedFenceCounter b;
     CurrentDescriptorPoolSetContainer := CurrentDescriptorPoolSetContainer b;
     _eventsBegin := _eventsBegin b |}.

Definition set_fence (f : FenceVulkan) (b : CmdBufferVulkan) : CmdBufferVulkan :=
  {| CommandBufferHandle := CommandBufferHandle b; _state := _state b;
     WaitFlags := WaitFlags b; WaitSemaphores := WaitSemaphores b;
     SubmittedWaitSemaphores := SubmittedWaitSemaphores b; _fence := f;
     FenceSignaledCounter := FenceSignaledCounter b;
     SubmittedFenceCounter := SubmittedFenceCounter b;
     CurrentDescriptorPoolSetContainer := CurrentDescriptorPoolSetContainer b;
     _eventsBegin := _eventsBegin b |}.

Definition set_FenceSignaledCounter (c : Z) (b : CmdBufferVulkan) : CmdBufferVulkan :=
  {| CommandBufferHandle := CommandBufferHandle b; _state := _state b;
     WaitFlags := WaitFlags b; WaitSemaphores := WaitSemaphores b;
     SubmittedWaitSemaphores := SubmittedWaitSemaphores b; _fence := _fence b;
     FenceSignaledCounter := c;
     SubmittedFenceCounter := SubmittedFenceCounter b;
     CurrentDescriptorPoolSetContainer := CurrentDescriptorPoolSetContainer b;
     _eventsBegin := _eventsBegin b |}.

Definition set_CurrentDescriptorPoolSetContainer
    (c : option DescriptorPoolSetContainerVulkan) (b : CmdBufferVulkan) : CmdBufferVulkan :=
  {| CommandBufferHandle := CommandBufferHandle b; _state := _state b;
     WaitFlags := WaitFlags b; WaitSemaphores := WaitSemaphores b;
     SubmittedWaitSemaphores := SubmittedWaitSemaphores b; _fence := _fence b;
     FenceSignaledCounter := FenceSignaledCounter b;
     SubmittedFenceCounter := SubmittedFenceCounter b;
     CurrentDescriptorPoolSetContainer := c;
     _eventsBegin := _eventsBegin b |}.

Definition set_eventsBegin (n : Z) (b : CmdBufferVulkan) : CmdBufferVulkan :=
  {| CommandBufferHandle := CommandBufferHandle b; _state := _state b;
     WaitFlags := WaitFlags b; WaitSemaphores := WaitSemaphores b;
     SubmittedWaitSemaphores := SubmittedWaitSemaphores b; _fence := _fence b;
     FenceSignaledCounter := FenceSignaledCounter b;
     SubmittedFenceCounter := SubmittedFenceCounter b;
     CurrentDescriptorPoolSetContainer := CurrentDescriptorPoolSetContainer b;
     _eventsBegin := n |}.

Definition log_call (c : Call) (d : GPUDeviceVulkan) : GPUDeviceVulkan :=
  {| calls := calls d ++ [c]; nativeObjects := nativeObjects d;
     leasedPoolSets := leasedPoolSets d |}.

Definition set_nativeObjects (n : nat) (d : GPUDeviceVulkan) : GPUDeviceVulkan :=
  {| calls := calls d; nativeObjects := n; leasedPoolSets := leasedPoolSets d |}.

Definition set_leasedPoolSets (l : list DescriptorPoolSetContainerVulkan)
    (d : GPUDeviceVulkan) : GPUDeviceVulkan :=
  {| calls := calls d; nativeObjects := nativeObjects d; leasedPoolSets := l |}.

Definition set_Device (d : GPUDeviceVulkan) (m : CmdBufferManagerVulkan) : CmdBufferManagerVulkan :=
  {| Device := d; CmdBuffers := CmdBuffers m;
     ActiveCmdBuffer := ActiveCmdBuffer m; QueriesInProgress := QueriesInProgress m |}.

Definition set_CmdBuffers (l : list CmdBufferVulkan) (m : CmdBufferManagerVulkan) : CmdBufferManagerVulkan :=
  {| Device := Device m; CmdBuffers := l;
     ActiveCmdBuffer := ActiveCmdBuffer m; QueriesInProgress := QueriesInProgress m |}.

Definition set_ActiveCmdBuffer (a : option CmdBufferPtr) (m : CmdBufferManagerVulkan) : CmdBufferManagerVulkan :=
  {| Device := Device m; CmdBuffers := CmdBuffers m;
     ActiveCmdBuffer := a; QueriesInProgress := QueriesInProgress m |}.

Definition set_QueriesInProgress (q : list GPUTimerQueryVulkan) (m : CmdBufferManagerVulkan) : CmdBufferManagerVulkan :=
  {| Device := Device m; CmdBuffers := CmdBuffers m;
     ActiveCmdBuffer := ActiveCmdBuffer m; QueriesInProgress := q |}.

(** ** A state-and-failure monad

    A failing run keeps the state reached at the point of failure, so that
    what an operation did before it failed can still be examined. *)
Inductive Result (S A : Type) : Type :=
| Ok (a : A) (s : S)
| Err (e : Error) (s : S).
Arguments Ok {S A} a s.
Arguments Err {S A} e s.

Definition M (S A : Type) : Type := S -> Result S A.

Definition ret {S A} (a : A) : M S A := fun s => Ok a s.

Definition bind {S A B} (c : M S A) (k : A -> M S B) : M S B :=
  fun s => match c s with
           | Ok a s' => k a s'
           | Err e s' => Err e s'
           end.

Definition get {S} : M S S := fun s => Ok s s.
Definition modify {S} (f : S -> S) : M S unit := fun s => Ok tt (f s).
Definition throw {S A} (e : Error) : M S A := fun s => Err e s.

Declare Scope cmd_scope.
Delimit Scope cmd_scope with cmd.
Notation "x <- c ;; k" := (bind c (fun x => k))
  (at level 100, c at next level, k at level 200, right associativity) : cmd_scope.
Notation "c ;; k" := (bind c (fun _ => k))
  (at level 100, k at level 200, right associativity) : cmd_scope.
Local Open Scope cmd_scope.

(** Modelled from the spec: the ASSERT macro is declared elsewhere.  Section 7
    makes a failed contract check a fatal, immediately surfaced error; the
    error kind is the one the specification gives for that check. *)
Definition ASSERT {S} (e : Error) (cond : bool) : M S unit :=
  if cond then ret tt else throw e.

(** ** CmdBufferVulkan

    A member function runs on the buffer it is called on ([this]) and on the
    device. *)
Definition Frame : Type := (CmdBufferVulkan * GPUDeviceVulkan)%type.

Definition this : M Frame CmdBufferVulkan := fun s => Ok (fst s) s.
Definition update_this (f : CmdBufferVulkan -> CmdBufferVulkan) : M Frame unit :=
  modify (fun s => (f (fst s), snd s)).
Definition call (c : Call) : M Frame unit :=
  modify (fun s => (fst s, log_call c (snd s))).

Definition Contains (x : nat) (l : list nat) : bool := existsb (Nat.eqb x) l.

(** Modelled from the spec: the state predicates are inline members of the
    class declaration.  "Inside a render pass" is the state InsideRenderPass,
    "has begun recording" is one of the two recording states
    {InsideBegin, InsideRenderPass}, "submitted" and "ended" are the states of
    those names. *)
Definition IsInsideRenderPass (b : CmdBufferVulkan) : bool :=
  State_eqb (_state b) State_IsInsideRenderPass.
Definition IsOutsideRenderPass (b : CmdBufferVulkan) : bool :=
  negb (State_eqb (_state b) State_IsInsideRenderPass).
Definition HasBegun (b : CmdBufferVulkan) : bool :=
  State_eqb (_state b) State_IsInsideBegin || State_eqb (_state b) State_IsInsideRenderPass.
Definition HasEnded (b : CmdBufferVulkan) : bool :=
  State_eqb (_state b) State_HasEnded.
Definition IsSubmitted (b : CmdBufferVulkan) : bool :=
  State_eqb (_state b) State_Submitted.
Definition GetState (b : CmdBufferVulkan) : State := _state b.

(** Modelled from the spec: the two fence counters are declared in the class
    declaration; they are "monotonic counters", taken as unsigned 64-bit. *)
Definition wrap_uint64 (z : Z) : Z := z mod 2 ^ 64.

Section CmdBuffer.

Variable env : Platform.

(** Modelled from the spec: VALIDATE_VULKAN_RESULT is a macro defined
    elsewhere; a native failure is unrecoverable at this layer and is
    surfaced as a fatal error. *)
Definition VALIDATE_VULKAN_RESULT (c : Call) : M Frame unit :=
  call c ;;
  if vkResult env c then ret tt else throw VulkanResultError.

(** Arithmetic on [_eventsBegin], with the wrap-around of its 32 bits. *)
Definition wrap_eventsBegin (z : Z) : Z :=
  if eventsBegin_signed env
  then (z + 2 ^ 31) mod 2 ^ 32 - 2 ^ 31
  else z mod 2 ^ 32.

Definition AddWaitSemaphore (waitFlags : VkPipelineStageFlags)
    (waitSemaphore : SemaphoreVulkan) : M Frame unit :=
  update_this (fun b => set_WaitFlags (WaitFlags b ++ [waitFlags]) b) ;;
  b <- this ;;
  ASSERT DuplicateResourceError (negb (Contains waitSemaphore (WaitSemaphores b))) ;;
  update_this (fun b => set_WaitSemaphores (WaitSemaphores b ++ [waitSemaphore]) b).

(** Modelled from the spec: the descriptor pools manager is an external
    collaborator; acquiring puts the container it hands out on lease,
    releasing takes it off. *)
Definition AcquirePoolSetContainer : M Frame DescriptorPoolSetContainerVulkan :=
  s <- get ;;
  let c := AcquirePoolSetContainer_result env (leasedPoolSets (snd s)) in
  call (DescriptorPoolsManager_AcquirePoolSetContainer c) ;;
  modify (fun s => (fst s, set_leasedPoolSets (c :: leasedPoolSets (snd s)) (snd s))) ;;
  ret c.

Definition ReleasePoolSet (c : DescriptorPoolSetContainerVulkan) : M Frame unit :=
  call (DescriptorPoolsManager_ReleasePoolSet c) ;;
  modify (fun s => (fst s,
    set_leasedPoolSets (List.filter (fun x => negb (Nat.eqb x c)) (leasedPoolSets (snd s))) (snd s))).

Definition AcquirePoolSet : M Frame unit :=
  b <- this ;;
  ASSERT InvalidStateError
    (match CurrentDescriptorPoolSetContainer b with None => true | Some _ => false end) ;;
  c <- AcquirePoolSetContainer ;;
  update_this (set_CurrentDescriptorPoolSetContainer (Some c)).

Definition Begin : M Frame unit :=
  b <- this ;;
  ASSERT InvalidStateError (State_eqb (_state b) State_ReadyForBegin) ;;
  VALIDATE_VULKAN_RESULT (vkBeginCommandBuffer (CommandBufferHandle b)) ;;
  (if VULKAN_USE_DESCRIPTOR_POOL_MANAGER env then
     match CurrentDescriptorPoolSetContainer b with
     | None => AcquirePoolSet
     | Some _ => ret tt
     end
   else ret tt) ;;
  update_this (set_state State_IsInsideBegin) ;;
  (if GPU_ALLOW_PROFILE_EVENTS env then update_this (set_eventsBegin 0) else ret tt).

(** [while (_eventsBegin--) vkCmdEndDebugUtilsLabelEXT(GetHandle());]
    The test reads the counter and the post-decrement is applied whether or
    not the test succeeds. *)
Fixpoint End_events (fuel : nat) : M Frame unit :=
  match fuel with
  | O => throw InvalidStateError   (* not reached with [End_events_fuel] *)
  | S fuel' =>
      b <- this ;;
      update_this (set_eventsBegin (wrap_eventsBegin (_eventsBegin b - 1))) ;;
      if _eventsBegin b =? 0 then ret tt
      else
        (if has_vkCmdEndDebugUtilsLabelEXT env
         then call (vkCmdEndDebugUtilsLabelEXT (CommandBufferHandle b))
         else throw NullFunctionCall) ;;
        End_events fuel'
  end.

(** The loop body runs once per value the counter passes on its way down to
    zero, that is [_eventsBegin mod 2^32] times; one more test ends it. *)
Definition End_events_fuel (b : CmdBufferVulkan) : nat :=
  S (Z.to_nat (_eventsBegin b mod 2 ^ 32)).

Definition End : M Frame unit :=
  b <- this ;;
  ASSERT InvalidStateError (IsOutsideRenderPass b) ;;
  (if GPU_ALLOW_PROFILE_EVENTS env then End_events (End_events_fuel b) else ret tt) ;;
  VALIDATE_VULKAN_RESULT (vkEndCommandBuffer (CommandBufferHandle b)) ;;
  update_this (set_state State_HasEnded).

Definition BeginRenderPass (renderPass : RenderPassVulkan)
    (framebuffer : FramebufferVulkan) : M Frame unit :=
  b <- this ;;
  ASSERT InvalidStateError (IsOutsideRenderPass b) ;;
  call (vkCmdBeginRenderPass (CommandBufferHandle b) renderPass framebuffer) ;;
  update_this (set_state State_IsInsideRenderPass).

Definition EndRenderPass : M Frame unit :=
  b <- this ;;
  ASSERT InvalidStateError (IsInsideRenderPass b) ;;
  call (vkCmdEndRenderPass (CommandBufferHandle b)) ;;
  update_this (set_state State_IsInsideBegin).

(** The conversion loop of [BeginEvent]: at most 100 characters, up to the
    terminating zero, each narrowed to a [char]. *)
Fixpoint to_ansi (room : nat) (name : list Z) : list Z :=
  match room, name with
  | S room', c :: rest => if c =? 0 then [] else c mod 256 :: to_ansi room' rest
  | _, _ => []
  end.

Definition BeginEvent (name : list Z) : M Frame unit :=
  if negb (has_vkCmdBeginDebugUtilsLabelEXT env) then ret tt
  else
    update_this (fun b => set_eventsBegin (wrap_eventsBegin (_eventsBegin b + 1)) b) ;;
    b <- this ;;
    call (vkCmdBeginDebugUtilsLabelEXT (CommandBufferHandle b) (to_ansi 100 name)).

Definition EndEvent : M Frame unit :=
  b <- this ;;
  if (_eventsBegin b =? 0) || negb (has_vkCmdEndDebugUtilsLabelEXT env) then ret tt
  else
    update_this (set_eventsBegin (wrap_eventsBegin (_eventsBegin b - 1))) ;;
    call (vkCmdEndDebugUtilsLabelEXT (CommandBufferHandle b)).

(** Modelled from the spec: [FenceManagerVulkan] is an external collaborator.
    [IsFenceSignaled] reports the fence's completion status and [ResetFence]
    makes the fence unsignaled for reuse. *)
Definition IsFenceSignaled (f : FenceVulkan) : bool := IsSignaled f.

Definition ResetFence : M Frame unit :=
  b <- this ;;
  call (FenceManager_ResetFence (fenceHandle (_fence b))) ;;
  update_this (set_fence {| fenceHandle := fenceHandle (_fence b); IsSignaled := false |}).

Definition RefreshFenceStatus : M Frame unit :=
  b <- this ;;
  if State_eqb (_state b) State_Submitted then
    if IsFenceSignaled (_fence b) then
      update_this (set_state State_ReadyForBegin) ;;
      update_this (set_SubmittedWaitSemaphores []) ;;
      call (vkResetCommandBuffer (CommandBufferHandle b)) ;;
      ResetFence ;;
      update_this (set_FenceSignaledCounter (wrap_uint64 (FenceSignaledCounter b + 1))) ;;
      if VULKAN_USE_DESCRIPTOR_POOL_MANAGER env then
        match CurrentDescriptorPoolSetContainer b with
        | Some c =>
            ReleasePoolSet c ;;
            update_this (set_CurrentDescriptorPoolSetContainer None)
        | None => ret tt
        end
      else ret tt
    else ret tt
  else
    ASSERT ConsistencyViolation (negb (IsSignaled (_fence b))).

End CmdBuffer.

(** ** CmdBufferPoolVulkan and CmdBufferManagerVulkan

    The manager holds the pool by value, so one record carries both; a
    [CmdBufferVulkan*] is the position of the buffer in [CmdBuffers]. *)

(** Runs a member function of the buffer [p] points to, writing the buffer
    and the device back whether or not the call fails. *)
Definition on_cmdBuffer {A} (p : CmdBufferPtr) (op : M Frame A) : M CmdBufferManagerVulkan A :=
  fun m =>
    match CmdBuffers m !! p with
    | None => Err DanglingPointer m
    | Some b =>
        match op (b, Device m) with
        | Ok a (b', d') =>
            Ok a (set_Device d' (set_CmdBuffers (<[p := b']> (CmdBuffers m)) m))
        | Err e (b', d') =>
            Err e (set_Device d' (set_CmdBuffers (<[p := b']> (CmdBuffers m)) m))
        end
    end.

Definition mcall (c : Call) : M CmdBufferManagerVulkan unit :=
  modify (fun m => set_Device (log_call c (Device m)) m).

(** A native object handle nobody holds yet. *)
Definition new_handle : M CmdBufferManagerVulkan nat :=
  m <- get ;;
  modify (fun m => set_Device (set_nativeObjects (S (nativeObjects (Device m))) (Device m)) m) ;;
  ret (nativeObjects (Device m)).

Section Manager.

Variable env : Platform.

(** [CmdBufferVulkan::CmdBufferVulkan(device, pool)].
    Modelled from the spec: [AllocateFence] hands out a fence that has not
    been signaled; [_eventsBegin] and [CurrentDescriptorPoolSetContainer]
    are not in the initialiser list and start at their in-class defaults. *)
Definition CmdBufferVulkan_new : M CmdBufferManagerVulkan CmdBufferVulkan :=
  h <- new_handle ;;
  mcall (vkAllocateCommandBuffers h) ;;
  (if vkResult env (vkAllocateCommandBuffers h) then ret tt else throw VulkanResultError) ;;
  f <- new_handle ;;
  mcall (FenceManager_AllocateFence f) ;;
  ret {| CommandBufferHandle := h;
         _state := State_ReadyForBegin;
         WaitFlags := []; WaitSemaphores := []; SubmittedWaitSemaphores := [];
         _fence := {| fenceHandle := f; IsSignaled := false |};
         FenceSignaledCounter := 0;
         SubmittedFenceCounter := 0;
         CurrentDescriptorPoolSetContainer := None;
         _eventsBegin := 0 |}.

(** [CmdBufferPoolVulkan::Create()] *)
Definition Pool_Create : M CmdBufferManagerVulkan CmdBufferPtr :=
  cmdBuffer <- CmdBufferVulkan_new ;;
  m <- get ;;
  modify (set_CmdBuffers (CmdBuffers m ++ [cmdBuffer])) ;;
  ret (length (CmdBuffers m)).

(** [CmdBufferPoolVulkan::RefreshFenceStatus(skipCmdBuffer)] *)
Fixpoint Pool_RefreshFenceStatus_from (remaining : nat) (i : nat)
    (skipCmdBuffer : option CmdBufferPtr) : M CmdBufferManagerVulkan unit :=
  match remaining with
  | O => ret tt
  | S remaining' =>
      (if match skipCmdBuffer with Some s => Nat.eqb i s | None => false end
       then ret tt
       else on_cmdBuffer i (RefreshFenceStatus env)) ;;
      Pool_RefreshFenceStatus_from remaining' (S i) skipCmdBuffer
  end.

Definition Pool_RefreshFenceStatus (skipCmdBuffer : option CmdBufferPtr)
    : M CmdBufferManagerVulkan unit :=
  m <- get ;;
  Pool_RefreshFenceStatus_from (length (CmdBuffers m)) 0 skipCmdBuffer.

(** Modelled from the spec: [QueueVulkan::Submit] is an external
    collaborator.  It takes a buffer from Ended to Submitted, handing the
    registered waits to the hardware queue: they become the submitted
    snapshot and the two registration lists are cleared. *)
Definition QueueVulkan_Submit (cmdBuffer : CmdBufferPtr)
    (signalSemaphore : option SemaphoreVulkan) : M CmdBufferManagerVulkan unit :=
  on_cmdBuffer cmdBuffer
    (b <- this ;; ASSERT InvalidStateError (HasEnded b)) ;;
  mcall (Queue_Submit cmdBuffer signalSemaphore) ;;
  on_cmdBuffer cmdBuffer
    (update_this (fun b =>
       set_state State_Submitted
         (set_SubmittedWaitSemaphores (WaitSemaphores b)
            (set_WaitSemaphores [] (set_WaitFlags [] b))))).

(** [for (i...) QueriesInProgress[i]->Interrupt(ActiveCmdBuffer);] *)
Fixpoint Interrupt_each (queries : list GPUTimerQueryVulkan) (cmdBuffer : CmdBufferPtr)
    : M CmdBufferManagerVulkan unit :=
  match queries with
  | [] => ret tt
  | q :: rest => mcall (Query_Interrupt q cmdBuffer) ;; Interrupt_each rest cmdBuffer
  end.

(** [for (i...) QueriesInProgress[i]->Resume(ActiveCmdBuffer);] *)
Fixpoint Resume_each (queries : list GPUTimerQueryVulkan) (cmdBuffer : CmdBufferPtr)
    : M CmdBufferManagerVulkan unit :=
  match queries with
  | [] => ret tt
  | q :: rest => mcall (Query_Resume q cmdBuffer) ;; Resume_each rest cmdBuffer
  end.

Definition SubmitActiveCmdBuffer (signalSemaphore : option SemaphoreVulkan)
    : M CmdBufferManagerVulkan unit :=
  m <- get ;;
  match ActiveCmdBuffer m with
  | None => throw InvalidStateError
  | Some active =>
      b <- on_cmdBuffer active this ;;
      (if negb (IsSubmitted b) && HasBegun b then
         (if IsInsideRenderPass b then on_cmdBuffer active EndRenderPass else ret tt) ;;
         (* Pause all active queries *)
         m1 <- get ;;
         Interrupt_each (QueriesInProgress m1) active ;;
         on_cmdBuffer active (End env) ;;
         QueueVulkan_Submit active signalSemaphore
       else ret tt) ;;
      modify (set_ActiveCmdBuffer None)
  end.

(** The scan of [PrepareForNewActiveCommandBuffer]; [remaining] is
    [Pool.CmdBuffers.Count() - i].  The result tells whether the function
    returned from inside the loop. *)
Fixpoint Prepare_scan (remaining : nat) (i : nat) : M CmdBufferManagerVulkan bool :=
  match remaining with
  | O => ret false
  | S remaining' =>
      on_cmdBuffer i (RefreshFenceStatus env) ;;
      cmdBuffer <- on_cmdBuffer i this ;;
      if State_eqb (GetState cmdBuffer) State_ReadyForBegin then
        modify (set_ActiveCmdBuffer (Some i)) ;;
        on_cmdBuffer i (Begin env) ;;
        ret true
      else
        ASSERT InvalidStateError (State_eqb (GetState cmdBuffer) State_Submitted) ;;
        Prepare_scan remaining' (S i)
  end.

Definition PrepareForNewActiveCommandBuffer : M CmdBufferManagerVulkan unit :=
  m <- get ;;
  returned <- Prepare_scan (length (CmdBuffers m)) 0 ;;
  if (returned : bool) then ret tt
  else
    (* All cmd buffers are being executed still *)
    created <- Pool_Create ;;
    modify (set_ActiveCmdBuffer (Some created)) ;;
    on_cmdBuffer created (Begin env) ;;
    (* Resume any paused queries with the new command buffer *)
    m1 <- get ;;
    Resume_each (QueriesInProgress m1) created.

Definition OnQueryBegin (query : GPUTimerQueryVulkan) : M CmdBufferManagerVulkan unit :=
  modify (fun m => set_QueriesInProgress (QueriesInProgress m ++ [query]) m).

End Manager.

(** The GPU finishing the work of a submitted buffer: its fence becomes
    signaled.  This is the environment's move, not a function of the file. *)
Definition fence_signaled (p : CmdBufferPtr) (m : CmdBufferManagerVulkan)
    : CmdBufferManagerVulkan :=
  match CmdBuffers m !! p with
  | Some b =>
      set_CmdBuffers
        (<[p := set_fence {| fenceHandle := fenceHandle (_fence b); IsSignaled := true |} b]>
           (CmdBuffers m)) m
  | None => m
  end.

(** A manager as its constructor leaves it: empty pool, no active buffer, no
    query in progress. *)
Definition new_manager : CmdBufferManagerVulkan :=
  {| Device := {| calls := []; nativeObjects := 0; leasedPoolSets := [] |};
     CmdBuffers := [];
     ActiveCmdBuffer := None;
     QueriesInProgress := [] |}.

(** Running a command and keeping the state, for writing scenarios. *)
Definition state_of {S A} (r : Result S A) : S :=
  match r with Ok _ s => s | Err _ s => s end.

(** ** Vocabulary of the statements *)

(** Appending several calls to the log at once. *)
Definition log_calls (cs : list Call) (d : GPUDeviceVulkan) : GPUDeviceVulkan :=
  {| calls := calls d ++ cs; nativeObjects := nativeObjects d;
     leasedPoolSets := leasedPoolSets d |}.

(** A submitted buffer the GPU has not finished: the scan passes over it. *)
Definition busy (b : CmdBufferVulkan) : bool :=
  State_eqb (_state b) State_Submitted && negb (IsSignaled (_fence b)).

(** A buffer the scan stops at: ready already, or submitted and finished. *)
Definition reusable (b : CmdBufferVulkan) : bool :=
  (State_eqb (_state b) State_ReadyForBegin && negb (IsSignaled (_fence b)))
  || (State_eqb (_state b) State_Submitted && IsSignaled (_fence b)).

(** A build without the descriptor pool manager has no lease member. *)
Definition lease_wf (env : Platform) (b : CmdBufferVulkan) : Prop :=
  VULKAN_USE_DESCRIPTOR_POOL_MANAGER env = false ->
  CurrentDescriptorPoolSetContainer b = None.

(** The open debug spans of a buffer that is being recorded: a count that
    fits the counter, and spans can only have been opened if the extension
    that closes them is there. *)
Definition events_wf (env : Platform) (b : CmdBufferVulkan) : Prop :=
  0 <= _eventsBegin b < 2 ^ 31 /\
  (_eventsBegin b = 0 \/ has_vkCmdEndDebugUtilsLabelEXT env = true).

(** The calls [End] makes on a buffer. *)
Definition End_calls (env : Platform) (b : CmdBufferVulkan) : list Call :=
  (if GPU_ALLOW_PROFILE_EVENTS env
   then repeat (vkCmdEndDebugUtilsLabelEXT (CommandBufferHandle b)) (Z.to_nat (_eventsBegin b))
   else [])
  ++ [vkEndCommandBuffer (CommandBufferHandle b)].

(** The calls [SubmitActiveCmdBuffer] makes when it does submit. *)
Definition Submit_calls (env : Platform) (m : CmdBufferManagerVulkan)
    (active : CmdBufferPtr) (b : CmdBufferVulkan)
    (signalSemaphore : option SemaphoreVulkan) : list Call :=
  (if IsInsideRenderPass b then [vkCmdEndRenderPass (CommandBufferHandle b)] else [])
  ++ map (fun q => Query_Interrupt q active) (QueriesInProgress m)
  ++ End_calls env b
  ++ [Queue_Submit active signalSemaphore].

Definition is_Query_Resume (c : Call) : bool :=
  match c with Query_Resume _ _ => true | _ => false end.

Definition is_vkAllocateCommandBuffers (c : Call) : bool :=
  match c with vkAllocateCommandBuffers _ => true | _ => false end.

(** The operations that touch [_eventsBegin], as a script run on one buffer. *)
Inductive Op : Type :=
| OpBegin
| OpEnd
| OpBeginEvent (name : list Z)
| OpEndEvent.

Definition run_op (env : Platform) (o : Op) : M Frame unit :=
  match o with
  | OpBegin => Begin env
  | OpEnd => End env
  | OpBeginEvent name => BeginEvent env name
  | OpEndEvent => EndEvent env
  end.

Fixpoint run_ops (env : Platform) (os : list Op) : M Frame unit :=
  match os with
  | [] => ret tt
  | o :: rest => run_op env o ;; run_ops env rest
  end.

(** ** Concrete states used as examples *)

(** Both optional features compiled in, the label extension loaded, a driver
    that never fails, and the signedness of [_eventsBegin] left open. *)
Definition platform_with_counter (signed : bool) : Platform :=
  {| GPU_ALLOW_PROFILE_EVENTS := true;
     VULKAN_USE_DESCRIPTOR_POOL_MANAGER := true;
     eventsBegin_signed := signed;
     has_vkCmdBeginDebugUtilsLabelEXT := true;
     has_vkCmdEndDebugUtilsLabelEXT := true;
     vkResult := fun _ => true;
     AcquirePoolSetContainer_result := fun leased => S (list_max leased) |}.

(** The same with [_eventsBegin] declared [int32]. *)
Definition full_platform : Platform := platform_with_counter true.

Definition new_device : GPUDeviceVulkan :=
  {| calls := []; nativeObjects := 0; leasedPoolSets := [] |}.

(** A buffer as the constructor leaves it. *)
Definition new_cmdBuffer : CmdBufferVulkan :=
  {| CommandBufferHandle := 0%nat;
     _state := State_ReadyForBegin;
     WaitFlags := []; WaitSemaphores := []; SubmittedWaitSemaphores := [];
     _fence := {| fenceHandle := 1%nat; IsSignaled := false |};
     FenceSignaledCounter := 0;
     SubmittedFenceCounter := 0;
     CurrentDescriptorPoolSetContainer := None;
     _eventsBegin := 0 |}.

(** A buffer that already waits on semaphore 7 at stage flags 1. *)
Definition waiting_cmdBuffer : CmdBufferVulkan :=
  set_WaitSemaphores [7%nat] (set_WaitFlags [1] new_cmdBuffer).

(** A submitted buffer holding lease 4, with one submitted wait, whose fence
    has [signaled] as status. *)
Definition submitted_cmdBuffer (signaled : bool) : CmdBufferVulkan :=
  {| CommandBufferHandle := 0%nat;
     _state := State_Submitted;
     WaitFlags := []; WaitSemaphores := []; SubmittedWaitSemaphores := [7%nat];
     _fence := {| fenceHandle := 1%nat; IsSignaled := signaled |};
     FenceSignaledCounter := 5;
     SubmittedFenceCounter := 5;
     CurrentDescriptorPoolSetContainer := Some 4%nat;
     _eventsBegin := -1 |}.

Definition leasing_device : GPUDeviceVulkan :=
  {| calls := []; nativeObjects := 2; leasedPoolSets := [4%nat] |}.

(** Query 7 starts; the first buffer is created and recorded into. *)
Definition recording_manager (env : Platform) : CmdBufferManagerVulkan :=
  state_of ((OnQueryBegin 7%nat ;; PrepareForNewActiveCommandBuffer env) new_manager).

(** ... and it is submitted while query 7 is still in progress. *)
Definition submitted_manager (env : Platform) : CmdBufferManagerVulkan :=
  state_of (SubmitActiveCmdBuffer env None (recording_manager env)).

(** ... and the GPU completes it. *)
Definition completed_manager (env : Platform) : CmdBufferManagerVulkan :=
  fence_signaled 0%nat (submitted_manager env).

(** ** The rest of the file *)

Section Waiting.

Variable env : Platform.

(** [CmdBufferManagerVulkan::WaitForCmdBuffer(cmdBuffer, timeInSecondsToWait)].
    Modelled from the spec: [FenceManager.WaitForFence] blocks on the fence
    for at most the time given and answers whether the fence is signaled by
    then.  Whether the GPU finishes in time is the environment's, given here
    as [inTime] in place of the time to wait; a fence that is signaled
    already is reported signaled whatever the time. *)
Definition WaitForCmdBuffer (cmdBuffer : CmdBufferPtr) (inTime : bool)
    : M CmdBufferManagerVulkan unit :=
  b <- on_cmdBuffer cmdBuffer this ;;
  ASSERT InvalidStateError (IsSubmitted b) ;;
  let success := IsSignaled (_fence b) || inTime in
  (if success then modify (fence_signaled cmdBuffer) else ret tt) ;;
  ASSERT TimeoutError success ;;
  on_cmdBuffer cmdBuffer (RefreshFenceStatus env).

End Waiting.

(** The calls of the two destructors, which reach the fence manager and the
    driver only. *)
Inductive TeardownCall : Type :=
| FenceManager_WaitAndReleaseFence (f : VkFence) (nanoseconds : Z)
| FenceManager_ReleaseFence (f : VkFence)
| Teardown_vkFreeCommandBuffers (h : VkCommandBuffer)
| Teardown_vkDestroyCommandPool.

(** [CmdBufferVulkan::~CmdBufferVulkan()] *)
Definition CmdBufferVulkan_delete (b : CmdBufferVulkan) : list TeardownCall :=
  (if State_eqb (_state b) State_Submitted
   then
     (* Wait 60ms *)
     let waitForCmdBufferInNanoSeconds := 60 * 1000 * 1000 in
     [FenceManager_WaitAndReleaseFence (fenceHandle (_fence b)) waitForCmdBufferInNanoSeconds]
   else
     (* Just free the fence, command buffer was not submitted *)
     [FenceManager_ReleaseFence (fenceHandle (_fence b))])
  ++ [Teardown_vkFreeCommandBuffers (CommandBufferHandle b)].

(** [CmdBufferPoolVulkan::~CmdBufferPoolVulkan()]: the loop over
    [CmdBuffers], then the native pool. *)
Fixpoint Pool_delete_each (cmdBuffers : list CmdBufferVulkan) : list TeardownCall :=
  match cmdBuffers with
  | [] => []
  | b :: rest => CmdBufferVulkan_delete b ++ Pool_delete_each rest
  end.

Definition Pool_delete (m : CmdBufferManagerVulkan) : list TeardownCall :=
  Pool_delete_each (CmdBuffers m) ++ [Teardown_vkDestroyCommandPool].

Definition is_free (c : TeardownCall) : bool :=
  match c with Teardown_vkFreeCommandBuffers _ => true | _ => false end.

Definition is_wait (c : TeardownCall) : bool :=
  match c with FenceManager_WaitAndReleaseFence _ _ => true | _ => false end.

Definition is_release (c : TeardownCall) : bool :=
  match c with FenceManager_ReleaseFence _ => true | _ => false end.

(** ** Recording into the active buffer, and the states a manager can reach *)

(** What a renderer does to the buffer it records into. *)
Inductive RecordOp : Type :=
| RecBeginRenderPass (renderPass : RenderPassVulkan) (framebuffer : FramebufferVulkan)
| RecEndRenderPass
| RecBeginEvent (name : list Z)
| RecEndEvent
| RecAddWaitSemaphore (waitFlags : VkPipelineStageFlags) (waitSemaphore : SemaphoreVulkan).

Definition record_op (env : Platform) (o : RecordOp) : M Frame unit :=
  match o with
  | RecBeginRenderPass renderPass framebuffer => BeginRenderPass renderPass framebuffer
  | RecEndRenderPass => EndRenderPass
  | RecBeginEvent name => BeginEvent env name
  | RecEndEvent => EndEvent env
  | RecAddWaitSemaphore waitFlags waitSemaphore => AddWaitSemaphore waitFlags waitSemaphore
  end.

(** A buffer nobody records into: ready with a quiet fence, or submitted. *)
Definition idle (b : CmdBufferVulkan) : bool := busy b || reusable b.

(** The shape of a manager between calls: the active buffer, if any, is in
    the pool and is being recorded; every other buffer is idle. *)
Record consistent (m : CmdBufferManagerVulkan) : Prop := {
  consistent_idle : forall i b,
    CmdBuffers m !! i = Some b -> ActiveCmdBuffer m <> Some i -> idle b = true;
  consistent_active : forall a,
    ActiveCmdBuffer m = Some a ->
    exists b, CmdBuffers m !! a = Some b /\ HasBegun b = true
}.

(** One move of the manager's life: a call of this file that returns, made
    the way the render thread makes it (a new active buffer is asked for only
    when there is none), or the GPU completing a submitted buffer. *)
Inductive step (env : Platform) : CmdBufferManagerVulkan -> CmdBufferManagerVulkan -> Prop :=
| step_Prepare m m' :
    ActiveCmdBuffer m = None ->
    PrepareForNewActiveCommandBuffer env m = Ok tt m' ->
    step env m m'
| step_Submit signalSemaphore m m' :
    SubmitActiveCmdBuffer env signalSemaphore m = Ok tt m' ->
    step env m m'
| step_record a o m m' :
    ActiveCmdBuffer m = Some a ->
    on_cmdBuffer a (record_op env o) m = Ok tt m' ->
    step env m m'
| step_fence p b m :
    CmdBuffers m !! p = Some b ->
    _state b = State_Submitted ->
    step env m (fence_signaled p m)
| step_Wait p inTime m m' :
    WaitForCmdBuffer env p inTime m = Ok tt m' ->
    step env m m'
| step_PoolRefresh skip m m' :
    Pool_RefreshFenceStatus env skip m = Ok tt m' ->
    step env m m'
| step_OnQueryBegin q m m' :
    OnQueryBegin q m = Ok tt m' ->
    step env m m'.

Inductive reachable (env : Platform) : CmdBufferManagerVulkan -> Prop :=
| reachable_new : reachable env new_manager
| reachable_step m m' : reachable env m -> step env m m' -> reachable env m'.

(** [m'] differs from [m] in the device and in the buffer at [a] at most. *)
Definition touches_only (a : CmdBufferPtr) (m m' : CmdBufferManagerVulkan) : Prop :=
  ActiveCmdBuffer m' = ActiveCmdBuffer m /\
  QueriesInProgress m' = QueriesInProgress m /\
  exists b', CmdBuffers m' = <[a := b']> (CmdBuffers m).


(** The two debug-label calls, and the scripts made of label operations. *)
Definition is_begin_label (c : Call) : bool :=
  match c with vkCmdBeginDebugUtilsLabelEXT _ _ => true | _ => false end.

Definition is_end_label (c : Call) : bool :=
  match c with vkCmdEndDebugUtilsLabelEXT _ => true | _ => false end.

Definition is_event_op (o : Op) : bool :=
  match o with OpBeginEvent _ | OpEndEvent => true | _ => false end.

(** * Properties *)

(** ** The monad *)

Lemma bind_Ok_inv {S A B} (c : M S A) (k : A -> M S B) s b s' :
  bind c k s = Ok b s' ->
  exists a s1, c s = Ok a s1 /\ k a s1 = Ok b s'.
Proof.
  unfold bind. destruct (c s) as [a s1|e s1]; intros H.
  - exists a, s1. split; [reflexivity | exact H].
  - discriminate H.
Qed.

Lemma bind_Ok {S A B} (c : M S A) (k : A -> M S B) s a s1 :
  c s = Ok a s1 -> bind c k s = k a s1.
Proof. unfold bind. intros ->. reflexivity. Qed.

Lemma State_eqb_eq a b : State_eqb a b = true <-> a = b.
Proof. destruct a, b; simpl; split; intros H; congruence. Qed.

Lemma State_eqb_neq a b : State_eqb a b = false <-> a <> b.
Proof. destruct a, b; simpl; split; intros H; congruence. Qed.

Lemma log_call_log_calls c d : log_call c d = log_calls [c] d.
Proof. reflexivity. Qed.

Lemma log_calls_nil d : log_calls [] d = d.
Proof. destruct d. unfold log_calls. simpl. rewrite app_nil_r. reflexivity. Qed.

Lemma log_calls_app a b d : log_calls b (log_calls a d) = log_calls (a ++ b) d.
Proof. unfold log_calls. simpl. rewrite app_assoc. reflexivity. Qed.

(** ** AddWaitSemaphore *)

(** A semaphore that is not registered yet is appended together with its
    stage flags, one element to each list. *)
Lemma AddWaitSemaphore_fresh flags sem b d :
  Contains sem (WaitSemaphores b) = false ->
  AddWaitSemaphore flags sem (b, d)
  = Ok tt (set_WaitSemaphores (WaitSemaphores b ++ [sem])
             (set_WaitFlags (WaitFlags b ++ [flags]) b), d).
Proof.
  intros H. unfold AddWaitSemaphore, bind, update_this, this, modify, ASSERT.
  simpl. rewrite H. reflexivity.
Qed.

Lemma AddWaitSemaphore_fresh_lengths flags sem b d b' d' :
  Contains sem (WaitSemaphores b) = false ->
  length (WaitSemaphores b) = length (WaitFlags b) ->
  AddWaitSemaphore flags sem (b, d) = Ok tt (b', d') ->
  length (WaitSemaphores b') = S (length (WaitSemaphores b)) /\
  length (WaitFlags b') = S (length (WaitFlags b)) /\
  length (WaitSemaphores b') = length (WaitFlags b').
Proof.
  intros H Hlen. rewrite (AddWaitSemaphore_fresh _ _ _ _ H).
  intros E. injection E as <- <-. simpl.
  rewrite !length_app. simpl. lia.
Qed.

(** A semaphore that is registered already makes the call fail, but only
    after the stage flags have been appended. *)
Lemma AddWaitSemaphore_duplicate flags sem b d :
  Contains sem (WaitSemaphores b) = true ->
  AddWaitSemaphore flags sem (b, d)
  = Err DuplicateResourceError (set_WaitFlags (WaitFlags b ++ [flags]) b, d).
Proof.
  intros H. unfold AddWaitSemaphore, bind, update_this, this, modify, ASSERT.
  simpl. rewrite H. reflexivity.
Qed.

(** C6, at the failing input: the buffer waits on semaphore 7 with flags 1 and
    semaphore 7 is added again with flags 2.  The call fails with
    DuplicateResourceError, yet [WaitFlags] has grown to two elements while
    [WaitSemaphores] still has one: the flags list was mutated and the two
    lists no longer have the same length. *)
Theorem AddWaitSemaphore_duplicate_grows_WaitFlags :
  exists b',
    AddWaitSemaphore 2 7%nat (waiting_cmdBuffer, new_device)
      = Err DuplicateResourceError (b', new_device) /\
    WaitSemaphores b' = WaitSemaphores waiting_cmdBuffer /\
    WaitFlags waiting_cmdBuffer = [1] /\
    WaitFlags b' = [1; 2] /\
    length (WaitSemaphores b') <> length (WaitFlags b').
Proof.
  eexists. split.
  - apply AddWaitSemaphore_duplicate. reflexivity.
  - simpl. repeat split; try reflexivity. discriminate.
Qed.

(** ** RefreshFenceStatus *)

Lemma RefreshFenceStatus_busy env b d :
  busy b = true -> RefreshFenceStatus env (b, d) = Ok tt (b, d).
Proof.
  unfold busy. intros H. apply andb_prop in H as [Hs Hf].
  apply negb_true_iff in Hf.
  unfold RefreshFenceStatus, bind, this, IsFenceSignaled. simpl.
  rewrite Hs, Hf. reflexivity.
Qed.

Lemma RefreshFenceStatus_unsignaled env b d :
  IsSignaled (_fence b) = false -> RefreshFenceStatus env (b, d) = Ok tt (b, d).
Proof.
  intros Hf. unfold RefreshFenceStatus, bind, this, IsFenceSignaled, ASSERT. simpl.
  rewrite Hf. destruct (State_eqb (_state b) State_Submitted); reflexivity.
Qed.

(** C4: on a submitted buffer whose fence is signaled the refresh succeeds;
    the buffer becomes ReadyForBegin, its submitted waits are cleared, the
    native buffer and then the fence are reset (the fence reads unsignaled
    afterwards), [FenceSignaledCounter] goes up by one (as a 64-bit unsigned
    value, so by exactly one below its maximum), and a lease, if there is one,
    is handed back to the descriptor pools manager and cleared.  Nothing else
    in the buffer changes. *)
Theorem RefreshFenceStatus_signaled env b d :
  _state b = State_Submitted ->
  IsSignaled (_fence b) = true ->
  lease_wf env b ->
  exists b' d',
    RefreshFenceStatus env (b, d) = Ok tt (b', d') /\
    _state b' = State_ReadyForBegin /\
    SubmittedWaitSemaphores b' = [] /\
    _fence b' = {| fenceHandle := fenceHandle (_fence b); IsSignaled := false |} /\
    FenceSignaledCounter b' = wrap_uint64 (FenceSignaledCounter b + 1) /\
    (0 <= FenceSignaledCounter b < 2 ^ 64 - 1 ->
       FenceSignaledCounter b' = FenceSignaledCounter b + 1) /\
    CurrentDescriptorPoolSetContainer b' = None /\
    calls d' = calls d
               ++ [vkResetCommandBuffer (CommandBufferHandle b);
                   FenceManager_ResetFence (fenceHandle (_fence b))]
               ++ match CurrentDescriptorPoolSetContainer b with
                  | Some c => [DescriptorPoolsManager_ReleasePoolSet c]
                  | None => []
                  end /\
    (forall c, CurrentDescriptorPoolSetContainer b = Some c ->
               ~ In c (leasedPoolSets d')) /\
    CommandBufferHandle b' = CommandBufferHandle b /\
    WaitFlags b' = WaitFlags b /\
    WaitSemaphores b' = WaitSemaphores b /\
    SubmittedFenceCounter b' = SubmittedFenceCounter b /\
    _eventsBegin b' = _eventsBegin b.
Proof.
  intros Hs Hf Hwf.
  assert (Hwrap : 0 <= FenceSignaledCounter b < 2 ^ 64 - 1 ->
                  wrap_uint64 (FenceSignaledCounter b + 1) = FenceSignaledCounter b + 1).
  { intros Hr. unfold wrap_uint64. apply Z.mod_small. lia. }
  unfold RefreshFenceStatus, bind, this, IsFenceSignaled. simpl.
  rewrite Hs, Hf. simpl.
  destruct (VULKAN_USE_DESCRIPTOR_POOL_MANAGER env) eqn:Hflag.
  - destruct (CurrentDescriptorPoolSetContainer b) as [c|] eqn:Hlease.
    + eexists _, _. split; [reflexivity|]. simpl.
      repeat split; try reflexivity; try assumption.
      * repeat rewrite <- app_assoc. reflexivity.
      * intros c' Hc' Hin. injection Hc' as <-.
        apply filter_In in Hin as [_ Hne].
        rewrite Nat.eqb_refl in Hne. discriminate Hne.
    + eexists _, _. split; [reflexivity|]. simpl.
      repeat split; try reflexivity; try assumption.
      * repeat rewrite <- app_assoc. reflexivity.
      * intros c' Hc'. discriminate Hc'.
  - rewrite (Hwf Hflag).
    eexists _, _. split; [reflexivity|]. simpl.
    repeat split; try reflexivity; try assumption.
    + apply Hwf. exact Hflag.
    + repeat rewrite <- app_assoc. reflexivity.
    + intros c' Hc'. discriminate Hc'.
Qed.

Lemma RefreshFenceStatus_signaled_witness :
  exists b' d',
    RefreshFenceStatus full_platform (submitted_cmdBuffer true, leasing_device)
      = Ok tt (b', d') /\
    _state b' = State_ReadyForBegin /\
    SubmittedWaitSemaphores b' = [] /\
    IsSignaled (_fence b') = false /\
    FenceSignaledCounter b' = 6 /\
    CurrentDescriptorPoolSetContainer b' = None /\
    calls d' = [vkResetCommandBuffer 0%nat; FenceManager_ResetFence 1%nat;
                DescriptorPoolsManager_ReleasePoolSet 4%nat] /\
    leasedPoolSets d' = [].
Proof.
  destruct (RefreshFenceStatus_signaled full_platform
              (submitted_cmdBuffer true) leasing_device)
    as (b' & d' & Hrun & Hst & Hsub & Hfence & _ & Hcnt & Hlease & Hcalls & _).
  - reflexivity.
  - reflexivity.
  - intros H. discriminate H.
  - exists b', d'.
    assert (E : (b', d') = state_of (RefreshFenceStatus full_platform
                                      (submitted_cmdBuffer true, leasing_device))).
    { rewrite Hrun. reflexivity. }
    vm_compute in E. injection E as -> ->.
    repeat split; reflexivity.
Defined.

(** C8: on a buffer that is not submitted the refresh fails exactly when the
    fence reads signaled, and the failure is the consistency violation; with
    an unsignaled fence it succeeds and changes nothing. *)
Theorem RefreshFenceStatus_not_submitted env b d :
  _state b <> State_Submitted ->
  ((exists e s, RefreshFenceStatus env (b, d) = Err e s)
     <-> IsSignaled (_fence b) = true) /\
  (IsSignaled (_fence b) = true ->
     RefreshFenceStatus env (b, d) = Err ConsistencyViolation (b, d)) /\
  (IsSignaled (_fence b) = false ->
     RefreshFenceStatus env (b, d) = Ok tt (b, d)).
Proof.
  intros Hne.
  assert (Hs : State_eqb (_state b) State_Submitted = false).
  { apply State_eqb_neq. exact Hne. }
  assert (Hrun : RefreshFenceStatus env (b, d)
                 = if IsSignaled (_fence b)
                   then Err ConsistencyViolation (b, d) else Ok tt (b, d)).
  { unfold RefreshFenceStatus, bind, this, ASSERT. simpl. rewrite Hs.
    destruct (IsSignaled (_fence b)); reflexivity. }
  rewrite Hrun. destruct (IsSignaled (_fence b)).
  - split; [split|split].
    + intros _. reflexivity.
    + intros _. eexists _, _. reflexivity.
    + intros _. reflexivity.
    + intros H. discriminate H.
  - split; [split|split].
    + intros (e & s & H). discriminate H.
    + intros H. discriminate H.
    + intros H. discriminate H.
    + intros _. reflexivity.
Qed.

Lemma RefreshFenceStatus_not_submitted_witness :
  RefreshFenceStatus full_platform (set_fence {| fenceHandle := 1%nat; IsSignaled := true |} new_cmdBuffer, new_device)
    = Err ConsistencyViolation (set_fence {| fenceHandle := 1%nat; IsSignaled := true |} new_cmdBuffer, new_device)
  /\ RefreshFenceStatus full_platform (new_cmdBuffer, new_device) = Ok tt (new_cmdBuffer, new_device).
Proof.
  split.
  - apply (RefreshFenceStatus_not_submitted full_platform
             (set_fence {| fenceHandle := 1%nat; IsSignaled := true |} new_cmdBuffer) new_device).
    + simpl. discriminate.
    + reflexivity.
  - apply (RefreshFenceStatus_not_submitted full_platform new_cmdBuffer new_device).
    + simpl. discriminate.
    + reflexivity.
Defined.

(** C10: refreshing twice in a row gives the result of refreshing once: the
    same buffer (state, submitted waits, counters, lease, fence), the same
    device, and the same error if the first call fails. *)
Theorem RefreshFenceStatus_idempotent env s :
  (RefreshFenceStatus env ;; RefreshFenceStatus env) s = RefreshFenceStatus env s.
Proof.
  destruct s as [b d].
  destruct (State_eqb (_state b) State_Submitted) eqn:Hs;
    destruct (IsSignaled (_fence b)) eqn:Hf.
  - unfold bind at 1.
    unfold RefreshFenceStatus at 1 3.
    unfold bind, this, IsFenceSignaled, update_this, modify, call, ResetFence, ReleasePoolSet.
    simpl. rewrite Hs, Hf. simpl.
    destruct (VULKAN_USE_DESCRIPTOR_POOL_MANAGER env);
      [destruct (CurrentDescriptorPoolSetContainer b)|]; reflexivity.
  - unfold bind at 1.
    rewrite (RefreshFenceStatus_unsignaled env b d Hf).
    apply RefreshFenceStatus_unsignaled. exact Hf.
  - unfold bind at 1.
    unfold RefreshFenceStatus, bind, this, ASSERT. simpl. rewrite Hs, Hf. reflexivity.
  - unfold bind at 1.
    rewrite (RefreshFenceStatus_unsignaled env b d Hf).
    apply RefreshFenceStatus_unsignaled. exact Hf.
Qed.

(** ** Debug event spans *)

Lemma wrap_eventsBegin_small env z :
  0 <= z < 2 ^ 31 -> wrap_eventsBegin env z = z.
Proof.
  intros Hz. unfold wrap_eventsBegin.
  destruct (eventsBegin_signed env).
  - rewrite Z.mod_small; lia.
  - apply Z.mod_small. lia.
Qed.

Lemma wrap_eventsBegin_minus_one env :
  wrap_eventsBegin env (-1) = if eventsBegin_signed env then -1 else 2 ^ 32 - 1.
Proof. unfold wrap_eventsBegin. destruct (eventsBegin_signed env); reflexivity. Qed.

Lemma wrap_eventsBegin_minus_one_nonzero env : wrap_eventsBegin env (-1) <> 0.
Proof.
  rewrite wrap_eventsBegin_minus_one.
  destruct (eventsBegin_signed env); discriminate.
Qed.

(** One round of the loop of [End]. *)
Lemma End_events_S env fuel b d :
  End_events env (S fuel) (b, d)
  = if _eventsBegin b =? 0
    then Ok tt (set_eventsBegin (wrap_eventsBegin env (_eventsBegin b - 1)) b, d)
    else if has_vkCmdEndDebugUtilsLabelEXT env
         then End_events env fuel
                (set_eventsBegin (wrap_eventsBegin env (_eventsBegin b - 1)) b,
                 log_call (vkCmdEndDebugUtilsLabelEXT (CommandBufferHandle b)) d)
         else Err NullFunctionCall
                (set_eventsBegin (wrap_eventsBegin env (_eventsBegin b - 1)) b, d).
Proof.
  cbn [End_events]. unfold bind, this, update_this, modify, call, ret, throw.
  cbn [fst snd].
  destruct (_eventsBegin b =? 0); [reflexivity|].
  destruct (has_vkCmdEndDebugUtilsLabelEXT env); reflexivity.
Qed.

(** The loop closes one span per unit of the counter and leaves the counter
    one below zero. *)
Lemma End_events_run env n : forall fuel b d,
  _eventsBegin b = Z.of_nat n ->
  Z.of_nat n < 2 ^ 31 ->
  (n < fuel)%nat ->
  (n = 0%nat \/ has_vkCmdEndDebugUtilsLabelEXT env = true) ->
  End_events env fuel (b, d)
  = Ok tt (set_eventsBegin (wrap_eventsBegin env (-1)) b,
           log_calls (repeat (vkCmdEndDebugUtilsLabelEXT (CommandBufferHandle b)) n) d).
Proof.
  induction n as [|n IH]; intros fuel b d Hn Hlt Hfuel Hext.
  - destruct fuel as [|fuel]; [lia|].
    rewrite End_events_S, Hn. cbn [Z.of_nat Z.eqb repeat].
    rewrite log_calls_nil. reflexivity.
  - destruct fuel as [|fuel]; [lia|].
    destruct Hext as [Hext|Hext]; [discriminate Hext|].
    rewrite End_events_S, Hext.
    assert (Hnz : (_eventsBegin b =? 0) = false) by (apply Z.eqb_neq; lia).
    rewrite Hnz.
    assert (Hdec : wrap_eventsBegin env (_eventsBegin b - 1) = Z.of_nat n).
    { rewrite wrap_eventsBegin_small; lia. }
    rewrite Hdec.
    rewrite (IH fuel); try (cbn; lia); [|right; exact Hext].
    rewrite log_call_log_calls, log_calls_app. reflexivity.
Qed.

Lemma End_run env b d :
  IsOutsideRenderPass b = true ->
  events_wf env b ->
  vkResult env (vkEndCommandBuffer (CommandBufferHandle b)) = true ->
  End env (b, d)
  = Ok tt (set_state State_HasEnded
             (if GPU_ALLOW_PROFILE_EVENTS env
              then set_eventsBegin (wrap_eventsBegin env (-1)) b else b),
           log_calls (End_calls env b) d).
Proof.
  intros Hout [Hrange Hext] Hvk.
  unfold End, End_calls, VALIDATE_VULKAN_RESULT.
  unfold bind at 1. unfold this at 1. cbn [fst].
  unfold bind at 1. unfold ASSERT at 1. rewrite Hout. unfold ret at 1.
  destruct (GPU_ALLOW_PROFILE_EVENTS env).
  - unfold bind at 1.
    rewrite (End_events_run env (Z.to_nat (_eventsBegin b))).
    + unfold bind, call, modify, update_this, ret. cbn [fst snd CommandBufferHandle set_eventsBegin].
      rewrite Hvk. rewrite log_call_log_calls, log_calls_app. reflexivity.
    + lia.
    + lia.
    + unfold End_events_fuel. rewrite Z.mod_small; lia.
    + destruct Hext as [Hext|Hext]; [left; rewrite Hext; reflexivity | right; exact Hext].
  - unfold bind, call, modify, update_this, ret. cbn [fst snd].
    rewrite Hvk. rewrite log_call_log_calls. reflexivity.
Qed.

(** [EndEvent] does nothing at depth zero. *)
Lemma EndEvent_at_zero env b d :
  _eventsBegin b = 0 -> EndEvent env (b, d) = Ok tt (b, d).
Proof.
  intros H. unfold EndEvent, bind, this. cbn [fst]. rewrite H. reflexivity.
Qed.

(** [EndEvent] never takes a counter that is not negative below zero. *)
Lemma EndEvent_nonneg env b d :
  0 <= _eventsBegin b < 2 ^ 31 ->
  exists b' d', EndEvent env (b, d) = Ok tt (b', d') /\ 0 <= _eventsBegin b' < 2 ^ 31.
Proof.
  intros H. unfold EndEvent, bind, this, update_this, call, modify, ret. cbn [fst snd].
  destruct (_eventsBegin b =? 0) eqn:Hz.
  - eexists _, _. split; [reflexivity | exact H].
  - destruct (has_vkCmdEndDebugUtilsLabelEXT env); cbn [orb negb].
    + eexists _, _. split; [reflexivity|]. cbn [_eventsBegin set_eventsBegin].
      apply Z.eqb_neq in Hz. rewrite wrap_eventsBegin_small; lia.
    + eexists _, _. split; [reflexivity | exact H].
Qed.

(** C2, at the failing script: a new buffer is begun and ended.  The counter
    is zero before, and [End] leaves it at -1: the post-decrement of the loop
    test is applied once more than there are open spans.  (The part of the
    claim about [EndEvent] holds: see [EndEvent_at_zero].) *)
Theorem End_leaves_eventsBegin_negative :
  exists b' d',
    run_ops full_platform [OpBegin; OpEnd] (new_cmdBuffer, new_device) = Ok tt (b', d') /\
    _eventsBegin new_cmdBuffer = 0 /\
    _state b' = State_HasEnded /\
    _eventsBegin b' = -1 /\
    _eventsBegin b' < 0.
Proof.
  eexists _, _. split; [vm_compute; reflexivity|].
  cbn. repeat split; reflexivity.
Qed.

(** ** Calls through a buffer pointer *)

Lemma on_cmdBuffer_Ok {A} p (op : M Frame A) m b a b' d' :
  CmdBuffers m !! p = Some b ->
  op (b, Device m) = Ok a (b', d') ->
  on_cmdBuffer p op m
  = Ok a (set_Device d' (set_CmdBuffers (<[p := b']> (CmdBuffers m)) m)).
Proof. intros Hl Hop. unfold on_cmdBuffer. rewrite Hl, Hop. reflexivity. Qed.

Lemma on_cmdBuffer_same {A} p (op : M Frame A) m b a :
  CmdBuffers m !! p = Some b ->
  op (b, Device m) = Ok a (b, Device m) ->
  on_cmdBuffer p op m = Ok a m.
Proof.
  intros Hl Hop. rewrite (on_cmdBuffer_Ok p op m b a b (Device m) Hl Hop).
  rewrite list_insert_id by exact Hl. destruct m; reflexivity.
Qed.

Lemma on_cmdBuffer_Ok_inv {A} p (op : M Frame A) m a m' :
  on_cmdBuffer p op m = Ok a m' ->
  exists b b' d',
    CmdBuffers m !! p = Some b /\
    op (b, Device m) = Ok a (b', d') /\
    m' = set_Device d' (set_CmdBuffers (<[p := b']> (CmdBuffers m)) m).
Proof.
  unfold on_cmdBuffer. destruct (CmdBuffers m !! p) as [b|] eqn:Hl; [|discriminate].
  destruct (op (b, Device m)) as [a' [b' d']|e [b' d']] eqn:Hop; [|discriminate].
  intros H. injection H as <- <-. exists b, b', d'. repeat split. exact Hop.
Qed.

Lemma on_cmdBuffer_this p m b :
  CmdBuffers m !! p = Some b -> on_cmdBuffer p this m = Ok b m.
Proof. intros Hl. apply (on_cmdBuffer_same p this m b b Hl). reflexivity. Qed.

(** ** Begin *)

(** The calls [Begin] makes. *)
Lemma Begin_ready env b d :
  _state b = State_ReadyForBegin ->
  vkResult env (vkBeginCommandBuffer (CommandBufferHandle b)) = true ->
  exists b' d' new,
    Begin env (b, d) = Ok tt (b', d') /\
    _state b' = State_IsInsideBegin /\
    CommandBufferHandle b' = CommandBufferHandle b /\
    calls d' = calls d ++ vkBeginCommandBuffer (CommandBufferHandle b) :: new /\
    forallb (fun c => negb (is_vkAllocateCommandBuffers c)) new = true /\
    forallb (fun c => negb (is_Query_Resume c)) new = true.
Proof.
  intros Hs Hvk.
  unfold Begin, VALIDATE_VULKAN_RESULT, AcquirePoolSet, AcquirePoolSetContainer.
  unfold bind, this, ASSERT, call, update_this, modify, get, ret. cbn [fst snd].
  rewrite Hs. cbn [State_eqb]. rewrite Hvk.
  destruct (VULKAN_USE_DESCRIPTOR_POOL_MANAGER env);
    [destruct (CurrentDescriptorPoolSetContainer b) eqn:Hlease|].
  - destruct (GPU_ALLOW_PROFILE_EVENTS env);
      (eexists _, _, []; split; [reflexivity|]); cbn; repeat split; reflexivity.
  - cbn [fst snd]. rewrite Hlease. cbn [fst snd].
    destruct (GPU_ALLOW_PROFILE_EVENTS env);
      (eexists _, _,
         [DescriptorPoolsManager_AcquirePoolSetContainer
            (AcquirePoolSetContainer_result env (leasedPoolSets d))];
       split; [reflexivity|]); cbn; repeat split;
      try reflexivity; rewrite <- app_assoc; reflexivity.
  - destruct (GPU_ALLOW_PROFILE_EVENTS env);
      (eexists _, _, []; split; [reflexivity|]); cbn; repeat split; reflexivity.
Qed.

(** A [Begin] that returns has put the buffer in the recording state. *)
Lemma Begin_Ok_state env b d b' d' :
  Begin env (b, d) = Ok tt (b', d') -> _state b' = State_IsInsideBegin.
Proof.
  unfold Begin, VALIDATE_VULKAN_RESULT, AcquirePoolSet, AcquirePoolSetContainer.
  unfold bind, this, ASSERT, call, update_this, modify, get, ret, throw. cbn [fst snd].
  destruct (State_eqb (_state b) State_ReadyForBegin); [|discriminate].
  destruct (vkResult env (vkBeginCommandBuffer (CommandBufferHandle b))); [|discriminate].
  destruct (VULKAN_USE_DESCRIPTOR_POOL_MANAGER env);
    [destruct (CurrentDescriptorPoolSetContainer b) eqn:Hlease|];
    cbn [fst snd]; try rewrite Hlease; cbn [fst snd];
    destruct (GPU_ALLOW_PROFILE_EVENTS env); cbn [fst snd];
    intros H; injection H as <- _; reflexivity.
Qed.

(** A reusable buffer is ready after the refresh; the refresh allocates
    nothing and resumes no query. *)
Lemma RefreshFenceStatus_reusable env b d :
  reusable b = true ->
  exists b' d' new,
    RefreshFenceStatus env (b, d) = Ok tt (b', d') /\
    _state b' = State_ReadyForBegin /\
    CommandBufferHandle b' = CommandBufferHandle b /\
    calls d' = calls d ++ new /\
    forallb (fun c => negb (is_vkAllocateCommandBuffers c)) new = true /\
    forallb (fun c => negb (is_Query_Resume c)) new = true.
Proof.
  unfold reusable. intros H. apply orb_prop in H as [H|H];
    apply andb_prop in H as [Hs Hf].
  - apply negb_true_iff in Hf.
    exists b, d, []. rewrite (RefreshFenceStatus_unsignaled env b d Hf).
    apply State_eqb_eq in Hs. rewrite app_nil_r. repeat split. exact Hs.
  - unfold RefreshFenceStatus, ResetFence, ReleasePoolSet.
    unfold bind, this, IsFenceSignaled, call, update_this, modify, ret. cbn [fst snd].
    rewrite Hs, Hf.
    destruct (VULKAN_USE_DESCRIPTOR_POOL_MANAGER env);
      [destruct (CurrentDescriptorPoolSetContainer b) as [c|]|].
    + eexists _, _, [vkResetCommandBuffer (CommandBufferHandle b);
                     FenceManager_ResetFence (fenceHandle (_fence b));
                     DescriptorPoolsManager_ReleasePoolSet c].
      split; [reflexivity|]. cbn. repeat split.
      repeat rewrite <- app_assoc. reflexivity.
    + eexists _, _, [vkResetCommandBuffer (CommandBufferHandle b);
                     FenceManager_ResetFence (fenceHandle (_fence b))].
      split; [reflexivity|]. cbn. repeat split.
      repeat rewrite <- app_assoc. reflexivity.
    + eexists _, _, [vkResetCommandBuffer (CommandBufferHandle b);
                     FenceManager_ResetFence (fenceHandle (_fence b))].
      split; [reflexivity|]. cbn. repeat split.
      repeat rewrite <- app_assoc. reflexivity.
Qed.

(** ** The loops over the queries in progress *)

Lemma set_Device_log_calls_nil m : set_Device (log_calls [] (Device m)) m = m.
Proof. rewrite log_calls_nil. destruct m; reflexivity. Qed.

Lemma Resume_each_run queries p : forall m,
  Resume_each queries p m
  = Ok tt (set_Device (log_calls (map (fun q => Query_Resume q p) queries) (Device m)) m).
Proof.
  induction queries as [|q rest IH]; intros m.
  - cbn [Resume_each map]. rewrite set_Device_log_calls_nil. reflexivity.
  - cbn [Resume_each map]. unfold bind, mcall, modify. rewrite IH.
    unfold set_Device. cbn [Device CmdBuffers ActiveCmdBuffer QueriesInProgress].
    rewrite log_call_log_calls, log_calls_app. reflexivity.
Qed.

Lemma Interrupt_each_run queries p : forall m,
  Interrupt_each queries p m
  = Ok tt (set_Device (log_calls (map (fun q => Query_Interrupt q p) queries) (Device m)) m).
Proof.
  induction queries as [|q rest IH]; intros m.
  - cbn [Interrupt_each map]. rewrite set_Device_log_calls_nil. reflexivity.
  - cbn [Interrupt_each map]. unfold bind, mcall, modify. rewrite IH.
    unfold set_Device. cbn [Device CmdBuffers ActiveCmdBuffer QueriesInProgress].
    rewrite log_call_log_calls, log_calls_app. reflexivity.
Qed.

(** ** The scan of PrepareForNewActiveCommandBuffer *)

Lemma busy_not_ready b : busy b = true -> _state b = State_Submitted.
Proof.
  unfold busy. intros H. apply andb_prop in H as [H _].
  apply State_eqb_eq. exact H.
Qed.

(** The scan passes over a busy buffer without touching anything. *)
Lemma Prepare_scan_step_busy env n i m b :
  CmdBuffers m !! i = Some b ->
  busy b = true ->
  Prepare_scan env (S n) i m = Prepare_scan env n (S i) m.
Proof.
  intros Hl Hb. cbn [Prepare_scan].
  rewrite (bind_Ok _ _ m tt m).
  2:{ apply (on_cmdBuffer_same i _ m b tt Hl). apply RefreshFenceStatus_busy. exact Hb. }
  rewrite (bind_Ok _ _ m b m) by (apply on_cmdBuffer_this; exact Hl).
  unfold GetState. rewrite (busy_not_ready b Hb). cbn [State_eqb].
  unfold bind, ASSERT, ret. reflexivity.
Qed.

(** ... and so over a whole run of busy buffers. *)
Lemma Prepare_scan_busy_run env : forall pre done rest m n,
  CmdBuffers m = done ++ pre ++ rest ->
  forallb busy pre = true ->
  Prepare_scan env (length pre + n) (length done) m
  = Prepare_scan env n (length done + length pre) m.
Proof.
  induction pre as [|a pre IH]; intros done rest m n Hpool Hbusy.
  - cbn [length]. rewrite Nat.add_0_r. reflexivity.
  - cbn [forallb] in Hbusy. apply andb_prop in Hbusy as [Ha Hpre].
    cbn [length Nat.add].
    rewrite (Prepare_scan_step_busy env _ (length done) m a).
    + specialize (IH (done ++ [a]) rest m n).
      rewrite length_app in IH. cbn [length] in IH.
      rewrite Nat.add_1_r in IH. rewrite IH.
      * f_equal. lia.
      * rewrite Hpool, <- app_assoc. reflexivity.
      * exact Hpre.
    + rewrite Hpool. apply list_lookup_middle. reflexivity.
    + exact Ha.
Qed.

(** The scan stops at a reusable buffer: it is refreshed, made the active
    buffer and begun; no buffer is allocated and no query is resumed. *)
Lemma Prepare_scan_step_reusable env n i m b :
  CmdBuffers m !! i = Some b ->
  reusable b = true ->
  (forall c, vkResult env c = true) ->
  exists m' b' new,
    Prepare_scan env (S n) i m = Ok true m' /\
    ActiveCmdBuffer m' = Some i /\
    CmdBuffers m' = <[i := b']> (CmdBuffers m) /\
    QueriesInProgress m' = QueriesInProgress m /\
    _state b' = State_IsInsideBegin /\
    CommandBufferHandle b' = CommandBufferHandle b /\
    calls (Device m') = calls (Device m) ++ new /\
    In (vkBeginCommandBuffer (CommandBufferHandle b)) new /\
    forallb (fun c => negb (is_vkAllocateCommandBuffers c)) new = true /\
    forallb (fun c => negb (is_Query_Resume c)) new = true.
Proof.
  intros Hl Hr Hvk.
  destruct (RefreshFenceStatus_reusable env b (Device m) Hr)
    as (b1 & d1 & new1 & Hrun1 & Hst1 & Hh1 & Hc1 & Ha1 & Hq1).
  destruct (Begin_ready env b1 d1 Hst1 (Hvk _))
    as (b2 & d2 & new2 & Hrun2 & Hst2 & Hh2 & Hc2 & Ha2 & Hq2).
  assert (Hlt : (i < length (CmdBuffers m))%nat) by (eapply lookup_lt_Some; exact Hl).
  set (m1 := set_Device d1 (set_CmdBuffers (<[i := b1]> (CmdBuffers m)) m)).
  assert (Hl1 : CmdBuffers m1 !! i = Some b1).
  { subst m1. cbn. apply list_lookup_insert_eq. exact Hlt. }
  set (m2 := set_ActiveCmdBuffer (Some i) m1).
  exists (set_Device d2 (set_CmdBuffers (<[i := b2]> (CmdBuffers m2)) m2)), b2,
         (new1 ++ vkBeginCommandBuffer (CommandBufferHandle b1) :: new2).
  split.
  - cbn [Prepare_scan].
    rewrite (bind_Ok _ _ m tt m1) by (apply (on_cmdBuffer_Ok i _ m b tt b1 d1 Hl Hrun1)).
    rewrite (bind_Ok _ _ m1 b1 m1) by (apply on_cmdBuffer_this; exact Hl1).
    unfold GetState. rewrite Hst1. cbn [State_eqb].
    unfold bind at 1. unfold modify at 1. fold m2.
    rewrite (bind_Ok _ _ m2 tt (set_Device d2 (set_CmdBuffers (<[i := b2]> (CmdBuffers m2)) m2))).
    + reflexivity.
    + apply (on_cmdBuffer_Ok i _ m2 b1 tt b2 d2); [exact Hl1 | exact Hrun2].
  - cbn. rewrite list_insert_insert_eq.
    repeat split; try assumption.
    + congruence.
    + rewrite Hc2, Hc1, <- app_assoc. reflexivity.
    + apply in_or_app. right. left. rewrite Hh1. reflexivity.
    + rewrite forallb_app. rewrite Ha1. cbn. exact Ha2.
    + rewrite forallb_app. rewrite Hq1. cbn. exact Hq2.
Qed.

(** ** Pool.Create *)

Lemma Pool_Create_run env m :
  (forall c, vkResult env c = true) ->
  exists b d new,
    Pool_Create env m
      = Ok (length (CmdBuffers m)) (set_Device d (set_CmdBuffers (CmdBuffers m ++ [b]) m)) /\
    _state b = State_ReadyForBegin /\
    IsSignaled (_fence b) = false /\
    calls d = calls (Device m) ++ new /\
    In (vkAllocateCommandBuffers (CommandBufferHandle b)) new /\
    forallb (fun c => negb (is_Query_Resume c)) new = true.
Proof.
  intros Hvk.
  unfold Pool_Create, CmdBufferVulkan_new, new_handle.
  unfold bind, get, modify, mcall, ret. rewrite Hvk.
  eexists _, _, [_; _]. split; [reflexivity|]. cbn.
  repeat split; try reflexivity.
  - rewrite <- app_assoc. reflexivity.
  - left. reflexivity.
  - reflexivity.
Qed.

(** ** PrepareForNewActiveCommandBuffer *)

Lemma insert_middle {A} (pre post : list A) (x y : A) :
  <[length pre := y]> (pre ++ x :: post) = pre ++ y :: post.
Proof.
  rewrite insert_app_r_alt by lia. rewrite Nat.sub_diag. reflexivity.
Qed.

(** Reuse: the first reusable buffer after a run of busy ones is taken. *)
Lemma Prepare_reuse env m pre b post :
  CmdBuffers m = pre ++ b :: post ->
  forallb busy pre = true ->
  reusable b = true ->
  (forall c, vkResult env c = true) ->
  exists m' b' new,
    PrepareForNewActiveCommandBuffer env m = Ok tt m' /\
    ActiveCmdBuffer m' = Some (length pre) /\
    CmdBuffers m' = pre ++ b' :: post /\
    QueriesInProgress m' = QueriesInProgress m /\
    _state b' = State_IsInsideBegin /\
    CommandBufferHandle b' = CommandBufferHandle b /\
    calls (Device m') = calls (Device m) ++ new /\
    In (vkBeginCommandBuffer (CommandBufferHandle b)) new /\
    forallb (fun c => negb (is_vkAllocateCommandBuffers c)) new = true /\
    forallb (fun c => negb (is_Query_Resume c)) new = true.
Proof.
  intros Hpool Hbusy Hr Hvk.
  assert (Hl : CmdBuffers m !! length pre = Some b).
  { rewrite Hpool. apply list_lookup_middle. reflexivity. }
  destruct (Prepare_scan_step_reusable env (length post) (length pre) m b Hl Hr Hvk)
    as (m' & b' & new & Hrun & Hact & Hbufs & Hq & Hst & Hh & Hc & Hin & Ha & Hres).
  exists m', b', new.
  split.
  - unfold PrepareForNewActiveCommandBuffer. unfold bind at 1. unfold get.
    assert (Hscan : Prepare_scan env (length (CmdBuffers m)) 0 m = Ok true m').
    { rewrite Hpool at 1. rewrite length_app. cbn [length].
      pose proof (Prepare_scan_busy_run env pre [] (b :: post) m (S (length post))
                    Hpool Hbusy) as H.
      cbn [length Nat.add] in H. rewrite H. exact Hrun. }
    rewrite (bind_Ok _ _ m true m' Hscan). reflexivity.
  - rewrite Hbufs, Hpool, insert_middle. repeat split; assumption.
Qed.

(** Growth: when every buffer is busy a new one is created, made active and
    begun, and then every query in progress is resumed on it. *)
Lemma Prepare_create env m :
  forallb busy (CmdBuffers m) = true ->
  (forall c, vkResult env c = true) ->
  exists m' b' new,
    PrepareForNewActiveCommandBuffer env m = Ok tt m' /\
    ActiveCmdBuffer m' = Some (length (CmdBuffers m)) /\
    CmdBuffers m' = CmdBuffers m ++ [b'] /\
    QueriesInProgress m' = QueriesInProgress m /\
    _state b' = State_IsInsideBegin /\
    calls (Device m')
      = calls (Device m) ++ new
        ++ map (fun q => Query_Resume q (length (CmdBuffers m))) (QueriesInProgress m) /\
    In (vkAllocateCommandBuffers (CommandBufferHandle b')) new /\
    In (vkBeginCommandBuffer (CommandBufferHandle b')) new.
Proof.
  intros Hbusy Hvk.
  destruct (Pool_Create_run env m Hvk) as (b & d & new1 & Hrun1 & Hst1 & _ & Hc1 & Hin1 & _).
  destruct (Begin_ready env b d Hst1 (Hvk _))
    as (b2 & d2 & new2 & Hrun2 & Hst2 & Hh2 & Hc2 & _ & _).
  set (p := length (CmdBuffers m)) in *.
  set (m1 := set_Device d (set_CmdBuffers (CmdBuffers m ++ [b]) m)) in *.
  set (m2 := set_ActiveCmdBuffer (Some p) m1).
  set (m3 := set_Device d2 (set_CmdBuffers (<[p := b2]> (CmdBuffers m2)) m2)).
  eexists _, b2, (new1 ++ vkBeginCommandBuffer (CommandBufferHandle b) :: new2).
  split.
  - unfold PrepareForNewActiveCommandBuffer. unfold bind at 1. unfold get.
    assert (Hscan : Prepare_scan env (length (CmdBuffers m)) 0 m = Ok false m).
    { pose proof (Prepare_scan_busy_run env (CmdBuffers m) [] [] m 0) as H.
      rewrite Nat.add_0_r in H. cbn [length Nat.add] in H. rewrite H.
      - reflexivity.
      - cbn. rewrite app_nil_r. reflexivity.
      - exact Hbusy. }
    rewrite (bind_Ok _ _ m false m Hscan).
    rewrite (bind_Ok _ _ m p m1 Hrun1).
    unfold bind at 1. unfold modify at 1. fold m2.
    rewrite (bind_Ok _ _ m2 tt m3).
    + unfold bind at 1. unfold get. apply Resume_each_run.
    + apply (on_cmdBuffer_Ok p _ m2 b tt b2 d2); [|exact Hrun2].
      cbn. subst p. apply list_lookup_middle. reflexivity.
  - cbn. subst p. rewrite insert_middle.
    repeat split; try assumption.
    + rewrite Hc2, Hc1. repeat rewrite <- app_assoc. reflexivity.
    + apply in_or_app. left. rewrite Hh2. exact Hin1.
    + apply in_or_app. right. left. rewrite Hh2. reflexivity.
Qed.

(** C3: the scan goes through the pool in allocation order.  If a reusable
    buffer (ready, or submitted with a signaled fence) comes after a run of
    buffers that are still executing, it becomes the active buffer and is
    begun at once, and the pool does not grow.  If every buffer is still
    executing, a buffer is created at the end of the pool and begun. *)
Theorem Prepare_reuses_before_it_grows env m :
  (forall c, vkResult env c = true) ->
  (forall pre b post,
     CmdBuffers m = pre ++ b :: post ->
     forallb busy pre = true ->
     reusable b = true ->
     exists m' b' new,
       PrepareForNewActiveCommandBuffer env m = Ok tt m' /\
       ActiveCmdBuffer m' = Some (length pre) /\
       CmdBuffers m' = pre ++ b' :: post /\
       CommandBufferHandle b' = CommandBufferHandle b /\
       _state b' = State_IsInsideBegin /\
       calls (Device m') = calls (Device m) ++ new /\
       In (vkBeginCommandBuffer (CommandBufferHandle b)) new /\
       forallb (fun c => negb (is_vkAllocateCommandBuffers c)) new = true) /\
  (forallb busy (CmdBuffers m) = true ->
     exists m' b' new,
       PrepareForNewActiveCommandBuffer env m = Ok tt m' /\
       ActiveCmdBuffer m' = Some (length (CmdBuffers m)) /\
       CmdBuffers m' = CmdBuffers m ++ [b'] /\
       _state b' = State_IsInsideBegin /\
       calls (Device m') = calls (Device m) ++ new /\
       In (vkAllocateCommandBuffers (CommandBufferHandle b')) new /\
       In (vkBeginCommandBuffer (CommandBufferHandle b')) new).
Proof.
  intros Hvk. split.
  - intros pre b post Hpool Hbusy Hr.
    destruct (Prepare_reuse env m pre b post Hpool Hbusy Hr Hvk)
      as (m' & b' & new & H1 & H2 & H3 & _ & H5 & H6 & H7 & H8 & H9 & _).
    exists m', b', new. repeat split; assumption.
  - intros Hbusy.
    destruct (Prepare_create env m Hbusy Hvk)
      as (m' & b' & new & H1 & H2 & H3 & _ & H5 & H6 & H7 & H8).
    exists m', b',
      (new ++ map (fun q => Query_Resume q (length (CmdBuffers m))) (QueriesInProgress m)).
    repeat split; try assumption.
    + apply in_or_app. left. exact H7.
    + apply in_or_app. left. exact H8.
Qed.

Lemma Prepare_reuses_before_it_grows_witness :
  (forall c, vkResult full_platform c = true) /\
  (exists m',
     PrepareForNewActiveCommandBuffer full_platform (submitted_manager full_platform)
       = Ok tt m' /\
     ActiveCmdBuffer m' = Some 1%nat /\ length (CmdBuffers m') = 2%nat) /\
  (exists m',
     PrepareForNewActiveCommandBuffer full_platform (completed_manager full_platform)
       = Ok tt m' /\
     ActiveCmdBuffer m' = Some 0%nat /\ length (CmdBuffers m') = 1%nat).
Proof.
  assert (Hvk : forall c, vkResult full_platform c = true) by (intros c; reflexivity).
  split; [exact Hvk|]. split.
  - destruct (Prepare_reuses_before_it_grows full_platform
                (submitted_manager full_platform) Hvk) as [_ Hgrow].
    destruct Hgrow as (m' & b' & new & H1 & H2 & H3 & _); [reflexivity|].
    exists m'. split; [exact H1|]. split; [exact H2|].
    rewrite H3, length_app. reflexivity.
  - destruct (Prepare_reuses_before_it_grows full_platform
                (completed_manager full_platform) Hvk) as [Hreuse _].
    destruct (Hreuse [] (set_fence {| fenceHandle := 1%nat; IsSignaled := true |}
                           (set_eventsBegin (-1)
                              (set_CurrentDescriptorPoolSetContainer (Some 1%nat)
                                 (set_state State_Submitted new_cmdBuffer)))) [])
      as (m' & b' & new & H1 & H2 & H3 & _); [reflexivity | reflexivity | reflexivity |].
    exists m'. split; [exact H1|]. split; [exact H2|].
    rewrite H3. reflexivity.
Defined.

(** A scan that returns from inside the loop leaves an active buffer that is
    in the pool and is recording. *)
Lemma Prepare_scan_true_inv env : forall n i m m',
  Prepare_scan env n i m = Ok true m' ->
  exists p b,
    ActiveCmdBuffer m' = Some p /\
    CmdBuffers m' !! p = Some b /\
    _state b = State_IsInsideBegin.
Proof.
  induction n as [|n IH]; intros i m m' H.
  - discriminate H.
  - cbn [Prepare_scan] in H.
    apply bind_Ok_inv in H as ([] & m1 & _ & H).
    apply bind_Ok_inv in H as (cmdBuffer & m2 & _ & H).
    destruct (State_eqb (GetState cmdBuffer) State_ReadyForBegin).
    + apply bind_Ok_inv in H as ([] & m3 & Hm3 & H).
      apply bind_Ok_inv in H as ([] & m4 & Hm4 & H).
      injection H as <-.
      unfold modify in Hm3. injection Hm3 as <-.
      apply on_cmdBuffer_Ok_inv in Hm4 as (b & b' & d' & Hl & Hrun & ->).
      exists i, b'. cbn. repeat split.
      * apply list_lookup_insert_eq. eapply lookup_lt_Some. exact Hl.
      * eapply Begin_Ok_state. exact Hrun.
    + apply bind_Ok_inv in H as ([] & m3 & _ & H).
      eapply IH. exact H.
Qed.

(** C9: whenever the function returns, there is an active buffer, it is one
    of the pool's buffers, and it is in the state [Begin] leaves a buffer
    in. *)
Theorem Prepare_leaves_active_recording env m m' :
  PrepareForNewActiveCommandBuffer env m = Ok tt m' ->
  exists p b,
    ActiveCmdBuffer m' = Some p /\
    CmdBuffers m' !! p = Some b /\
    _state b = State_IsInsideBegin.
Proof.
  unfold PrepareForNewActiveCommandBuffer. intros H.
  apply bind_Ok_inv in H as (m0 & m0' & Hget & H).
  unfold get in Hget. injection Hget as <- <-.
  apply bind_Ok_inv in H as (returned & m1 & Hscan & H).
  destruct returned.
  - injection H as <-. eapply Prepare_scan_true_inv. exact Hscan.
  - apply bind_Ok_inv in H as (created & m2 & _ & H).
    apply bind_Ok_inv in H as ([] & m3 & Hm3 & H).
    apply bind_Ok_inv in H as ([] & m4 & Hm4 & H).
    unfold bind at 1 in H. unfold get in H.
    rewrite Resume_each_run in H. injection H as <-.
    unfold modify in Hm3. injection Hm3 as <-.
    apply on_cmdBuffer_Ok_inv in Hm4 as (b & b' & d' & Hl & Hrun & ->).
    exists created, b'. cbn. repeat split.
    + apply list_lookup_insert_eq. eapply lookup_lt_Some. exact Hl.
    + eapply Begin_Ok_state. exact Hrun.
Qed.

Lemma Prepare_leaves_active_recording_witness :
  exists m',
    PrepareForNewActiveCommandBuffer full_platform new_manager = Ok tt m' /\
    exists p b,
      ActiveCmdBuffer m' = Some p /\
      CmdBuffers m' !! p = Some b /\
      _state b = State_IsInsideBegin.
Proof.
  eexists. split.
  - vm_compute. reflexivity.
  - eapply (Prepare_leaves_active_recording full_platform new_manager).
    vm_compute. reflexivity.
Defined.

(** ** SubmitActiveCmdBuffer *)

Lemma QueueVulkan_Submit_run p sem m b :
  CmdBuffers m !! p = Some b ->
  _state b = State_HasEnded ->
  exists b',
    QueueVulkan_Submit p sem m
    = Ok tt (set_Device (log_call (Queue_Submit p sem) (Device m))
               (set_CmdBuffers (<[p := b']> (CmdBuffers m)) m)) /\
    _state b' = State_Submitted /\
    _eventsBegin b' = _eventsBegin b.
Proof.
  intros Hl Hs. eexists. split.
  - unfold QueueVulkan_Submit.
    rewrite (bind_Ok _ _ m tt m).
    2:{ apply (on_cmdBuffer_same p _ m b tt Hl).
        unfold bind, this, ASSERT, HasEnded. cbn [fst]. rewrite Hs. reflexivity. }
    unfold bind at 1. unfold mcall at 1. unfold modify at 1.
    erewrite on_cmdBuffer_Ok; [| exact Hl | reflexivity].
    reflexivity.
  - split; reflexivity.
Qed.

(** A call that returns has cleared the active buffer. *)
Lemma SubmitActiveCmdBuffer_clears env sem m m' :
  SubmitActiveCmdBuffer env sem m = Ok tt m' -> ActiveCmdBuffer m' = None.
Proof.
  unfold SubmitActiveCmdBuffer. intros H.
  apply bind_Ok_inv in H as (m0 & m1 & Hget & H).
  destruct (ActiveCmdBuffer m0) as [active|]; [|discriminate H].
  apply bind_Ok_inv in H as (b & m2 & _ & H).
  apply bind_Ok_inv in H as ([] & m3 & _ & H).
  unfold modify in H. injection H as <-. reflexivity.
Qed.

(** Nothing is recorded or submitted when the active buffer has not begun. *)
Lemma SubmitActiveCmdBuffer_idle env sem m active b :
  ActiveCmdBuffer m = Some active ->
  CmdBuffers m !! active = Some b ->
  HasBegun b = false ->
  SubmitActiveCmdBuffer env sem m = Ok tt (set_ActiveCmdBuffer None m).
Proof.
  intros Ha Hl Hb. unfold SubmitActiveCmdBuffer.
  unfold bind at 1. unfold get. rewrite Ha.
  rewrite (bind_Ok _ _ m b m) by (apply on_cmdBuffer_this; exact Hl).
  rewrite Hb, andb_false_r. reflexivity.
Qed.

(** The submitting path, call by call. *)
Lemma SubmitActiveCmdBuffer_begun env sem m active b :
  ActiveCmdBuffer m = Some active ->
  CmdBuffers m !! active = Some b ->
  HasBegun b = true ->
  events_wf env b ->
  vkResult env (vkEndCommandBuffer (CommandBufferHandle b)) = true ->
  exists m' b',
    SubmitActiveCmdBuffer env sem m = Ok tt m' /\
    ActiveCmdBuffer m' = None /\
    calls (Device m') = calls (Device m) ++ Submit_calls env m active b sem /\
    CmdBuffers m' = <[active := b']> (CmdBuffers m) /\
    _state b' = State_Submitted /\
    _eventsBegin b'
      = (if GPU_ALLOW_PROFILE_EVENTS env then wrap_eventsBegin env (-1) else _eventsBegin b).
Proof.
  intros Ha Hl Hb Hwf Hvk.
  assert (Hlt : (active < length (CmdBuffers m))%nat) by (eapply lookup_lt_Some; exact Hl).
  (* the buffer once a render pass, if any, has been closed *)
  set (b1 := if IsInsideRenderPass b then set_state State_IsInsideBegin b else b).
  set (c1 := if IsInsideRenderPass b
             then [vkCmdEndRenderPass (CommandBufferHandle b)] else []).
  set (m1 := set_Device (log_calls c1 (Device m))
               (set_CmdBuffers (<[active := b1]> (CmdBuffers m)) m)).
  assert (Hst1 : _state b1 = State_IsInsideBegin).
  { subst b1. unfold HasBegun, IsInsideRenderPass in *.
    destruct (_state b) eqn:Hs; cbn in *; try discriminate; try reflexivity; exact Hs. }
  assert (Hh1 : CommandBufferHandle b1 = CommandBufferHandle b).
  { subst b1. destruct (IsInsideRenderPass b); reflexivity. }
  assert (He1 : _eventsBegin b1 = _eventsBegin b).
  { subst b1. destruct (IsInsideRenderPass b); reflexivity. }
  assert (Hstep1 : (if IsInsideRenderPass b then on_cmdBuffer active EndRenderPass else ret tt) m
                   = Ok tt m1).
  { subst m1 c1 b1. destruct (IsInsideRenderPass b) eqn:Hrp.
    - erewrite on_cmdBuffer_Ok; [reflexivity | exact Hl |].
      unfold EndRenderPass, bind, this, ASSERT, call, update_this, modify. cbn [fst snd].
      rewrite Hrp. reflexivity.
    - unfold ret. rewrite list_insert_id by exact Hl. rewrite log_calls_nil.
      destruct m; reflexivity. }
  set (m2 := set_Device
               (log_calls (map (fun q => Query_Interrupt q active) (QueriesInProgress m))
                  (Device m1)) m1).
  assert (Hl2 : CmdBuffers m2 !! active = Some b1).
  { subst m2 m1. cbn. apply list_lookup_insert_eq. exact Hlt. }
  assert (Hend : exists b3,
             End env (b1, Device m2) = Ok tt (b3, log_calls (End_calls env b1) (Device m2)) /\
             _state b3 = State_HasEnded /\
             _eventsBegin b3 = (if GPU_ALLOW_PROFILE_EVENTS env
                                then wrap_eventsBegin env (-1) else _eventsBegin b)).
  { eexists. split.
    - apply End_run.
      + unfold IsOutsideRenderPass. rewrite Hst1. reflexivity.
      + unfold events_wf in *. rewrite He1. exact Hwf.
      + rewrite Hh1. exact Hvk.
    - split; [reflexivity|]. cbn.
      destruct (GPU_ALLOW_PROFILE_EVENTS env); [reflexivity | exact He1]. }
  destruct Hend as (b3 & Hrun3 & Hst3 & He3).
  set (m3 := set_Device (log_calls (End_calls env b1) (Device m2))
               (set_CmdBuffers (<[active := b3]> (CmdBuffers m2)) m2)).
  assert (Hl3 : CmdBuffers m3 !! active = Some b3).
  { subst m3. cbn. apply list_lookup_insert_eq.
    rewrite length_insert. exact Hlt. }
  destruct (QueueVulkan_Submit_run active sem m3 b3 Hl3 Hst3) as (b4 & Hrun4 & Hst4 & He4).
  eexists _, b4. split.
  - unfold SubmitActiveCmdBuffer.
    unfold bind at 1. unfold get. rewrite Ha.
    rewrite (bind_Ok _ _ m b m) by (apply on_cmdBuffer_this; exact Hl).
    assert (Hcond : negb (IsSubmitted b) && HasBegun b = true).
    { rewrite Hb, andb_true_r. unfold IsSubmitted, HasBegun in *.
      destruct (_state b); cbn in *; try discriminate; reflexivity. }
    rewrite Hcond.
    unfold bind at 1. unfold bind at 1. rewrite Hstep1.
    rewrite (bind_Ok _ _ m1 m1 m1) by reflexivity.
    rewrite (bind_Ok _ _ m1 tt m2) by (apply Interrupt_each_run).
    rewrite (bind_Ok _ _ m2 tt m3) by (apply (on_cmdBuffer_Ok active _ m2 b1 tt _ _ Hl2 Hrun3)).
    rewrite Hrun4. reflexivity.
  - cbn. rewrite !list_insert_insert_eq.
    repeat split; try assumption.
    + unfold Submit_calls, End_calls. rewrite Hh1, He1.
      fold c1. repeat rewrite <- app_assoc. reflexivity.
    + rewrite He4. exact He3.
Qed.

(** C5: with an active buffer [b] at [active].  If [b] has begun recording
    (and so is not submitted), the call closes an open render pass, then
    interrupts every query in progress on the active buffer, then ends the
    buffer, then hands it to the queue with the signal semaphore it was
    given, in this order, and the buffer ends up submitted.  If [b] has not
    begun, nothing is called.  Either way, and whenever the call returns at
    all, the active buffer is none afterwards. *)
Theorem SubmitActiveCmdBuffer_submits_and_clears env signalSemaphore m active b :
  ActiveCmdBuffer m = Some active ->
  CmdBuffers m !! active = Some b ->
  (HasBegun b = true ->
   events_wf env b ->
   vkResult env (vkEndCommandBuffer (CommandBufferHandle b)) = true ->
   exists m' b',
     SubmitActiveCmdBuffer env signalSemaphore m = Ok tt m' /\
     ActiveCmdBuffer m' = None /\
     calls (Device m')
       = calls (Device m)
         ++ (if IsInsideRenderPass b then [vkCmdEndRenderPass (CommandBufferHandle b)] else [])
         ++ map (fun q => Query_Interrupt q active) (QueriesInProgress m)
         ++ End_calls env b
         ++ [Queue_Submit active signalSemaphore] /\
     CmdBuffers m' = <[active := b']> (CmdBuffers m) /\
     _state b' = State_Submitted) /\
  (HasBegun b = false ->
   SubmitActiveCmdBuffer env signalSemaphore m = Ok tt (set_ActiveCmdBuffer None m)) /\
  (forall m', SubmitActiveCmdBuffer env signalSemaphore m = Ok tt m' ->
              ActiveCmdBuffer m' = None).
Proof.
  intros Ha Hl. split; [|split].
  - intros Hb Hwf Hvk.
    destruct (SubmitActiveCmdBuffer_begun env signalSemaphore m active b Ha Hl Hb Hwf Hvk)
      as (m' & b' & H1 & H2 & H3 & H4 & H5 & _).
    exists m', b'. repeat split; assumption.
  - intros Hb. apply (SubmitActiveCmdBuffer_idle env signalSemaphore m active b Ha Hl Hb).
  - intros m'. apply SubmitActiveCmdBuffer_clears.
Qed.

Lemma SubmitActiveCmdBuffer_submits_and_clears_witness :
  (exists m',
     SubmitActiveCmdBuffer full_platform (Some 9%nat) (recording_manager full_platform)
       = Ok tt m' /\
     ActiveCmdBuffer m' = None /\
     calls (Device m')
       = calls (Device (recording_manager full_platform))
         ++ [Query_Interrupt 7%nat 0%nat; vkEndCommandBuffer 0%nat;
             Queue_Submit 0%nat (Some 9%nat)]) /\
  SubmitActiveCmdBuffer full_platform None
    (set_ActiveCmdBuffer (Some 0%nat) (submitted_manager full_platform))
  = Ok tt (submitted_manager full_platform).
Proof.
  split.
  - destruct (SubmitActiveCmdBuffer_submits_and_clears full_platform (Some 9%nat)
                (recording_manager full_platform) 0%nat
                (set_CurrentDescriptorPoolSetContainer (Some 1%nat)
                   (set_state State_IsInsideBegin new_cmdBuffer)))
      as [Hbegun _]; [reflexivity | reflexivity |].
    destruct Hbegun as (m' & b' & H1 & H2 & H3 & _).
    + reflexivity.
    + split; [cbn; lia | left; reflexivity].
    + reflexivity.
    + exists m'. split; [exact H1|]. split; [exact H2|]. exact H3.
  - destruct (SubmitActiveCmdBuffer_submits_and_clears full_platform None
                (set_ActiveCmdBuffer (Some 0%nat) (submitted_manager full_platform)) 0%nat
                (set_eventsBegin (-1)
                   (set_CurrentDescriptorPoolSetContainer (Some 1%nat)
                      (set_state State_Submitted new_cmdBuffer))))
      as (_ & Hidle & _); [reflexivity | reflexivity |].
    rewrite Hidle; reflexivity.
Defined.

(** C1, at the failing input: query 7 is in progress and was interrupted when
    buffer 0 was submitted; the GPU has finished buffer 0.  The next prepare
    call takes buffer 0 again and returns from inside the scan: the calls it
    makes are listed, and no [Resume] is among them, although query 7 is
    still in progress. *)
Theorem Prepare_reuse_resumes_no_query :
  exists m',
    PrepareForNewActiveCommandBuffer full_platform (completed_manager full_platform)
      = Ok tt m' /\
    In (Query_Interrupt 7%nat 0%nat) (calls (Device (completed_manager full_platform))) /\
    QueriesInProgress m' = [7%nat] /\
    ActiveCmdBuffer m' = Some 0%nat /\
    calls (Device m')
      = calls (Device (completed_manager full_platform))
        ++ [vkResetCommandBuffer 0%nat; FenceManager_ResetFence 1%nat;
            DescriptorPoolsManager_ReleasePoolSet 1%nat;
            vkBeginCommandBuffer 0%nat;
            DescriptorPoolsManager_AcquirePoolSetContainer 1%nat] /\
    forall b, ~ In (Query_Resume 7%nat b)
                [vkResetCommandBuffer 0%nat; FenceManager_ResetFence 1%nat;
                 DescriptorPoolsManager_ReleasePoolSet 1%nat;
                 vkBeginCommandBuffer 0%nat;
                 DescriptorPoolsManager_AcquirePoolSetContainer 1%nat].
Proof.
  eexists. split; [vm_compute; reflexivity|].
  split; [vm_compute; tauto|].
  split; [reflexivity|]. split; [reflexivity|]. split; [reflexivity|].
  intros b Hin. cbn in Hin.
  repeat (destruct Hin as [Hin|Hin]; [discriminate Hin|]). exact Hin.
Qed.

(** C7, at the failing input: a new manager creates its first buffer and
    submits it with no debug span open.  Whichever way [_eventsBegin] is
    declared, the buffer handed to the queue does not have the counter at
    zero: the loop of [End] leaves it one below, at -1 for a signed counter
    and at 2^32 - 1 for an unsigned one. *)
Theorem submitted_buffer_eventsBegin_not_zero (signed : bool) :
  exists b,
    CmdBuffers (submitted_manager (platform_with_counter signed)) = [b] /\
    _state b = State_Submitted /\
    In (Queue_Submit 0%nat None)
       (calls (Device (submitted_manager (platform_with_counter signed)))) /\
    _eventsBegin b = (if signed then -1 else 2 ^ 32 - 1) /\
    _eventsBegin b <> 0.
Proof.
  destruct signed; eexists; (split; [vm_compute; reflexivity|]);
    (split; [reflexivity|]); (split; [vm_compute; tauto|]);
    (split; [reflexivity|]); discriminate.
Qed.

(** * Further properties *)

(** ** Wait semaphores *)

Lemma Contains_In x l : Contains x l = true <-> In x l.
Proof.
  unfold Contains. rewrite existsb_exists. split.
  - intros (y & Hy & E). apply Nat.eqb_eq in E. subst y. exact Hy.
  - intros H. exists x. split; [exact H | apply Nat.eqb_refl].
Qed.

Lemma NoDup_snoc (x : nat) l : List.NoDup l -> ~ In x l -> List.NoDup (l ++ [x]).
Proof.
  induction l as [|a l IH]; intros Hnd Hx.
  - cbn. constructor; [intros [] | constructor].
  - inversion Hnd as [|a' l' Ha Hl]; subst. cbn. constructor.
    + intros Hin. apply in_app_or in Hin as [Hin|[Hin|[]]].
      * exact (Ha Hin).
      * apply Hx. left. symmetry. exact Hin.
    + apply IH; [exact Hl|]. intros Hin. apply Hx. right. exact Hin.
Qed.

(** X1: the call returns exactly when the semaphore is not registered yet;
    it then appends the semaphore and its stage flags at the end of the two
    lists and nothing else changes.  Lists of equal length stay of equal
    length and a list without repetition stays without repetition. *)
Theorem AddWaitSemaphore_registers flags sem b d :
  ((exists s, AddWaitSemaphore flags sem (b, d) = Ok tt s)
     <-> ~ In sem (WaitSemaphores b)) /\
  (~ In sem (WaitSemaphores b) ->
   length (WaitSemaphores b) = length (WaitFlags b) ->
   List.NoDup (WaitSemaphores b) ->
   exists b',
     AddWaitSemaphore flags sem (b, d) = Ok tt (b', d) /\
     b' = set_WaitSemaphores (WaitSemaphores b ++ [sem])
            (set_WaitFlags (WaitFlags b ++ [flags]) b) /\
     length (WaitSemaphores b') = length (WaitFlags b') /\
     List.NoDup (WaitSemaphores b')).
Proof.
  split.
  - split.
    + intros (s & Hrun) Hin. apply Contains_In in Hin.
      rewrite (AddWaitSemaphore_duplicate flags sem b d Hin) in Hrun. discriminate Hrun.
    + intros Hin. destruct (Contains sem (WaitSemaphores b)) eqn:Hc.
      * apply Contains_In in Hc. contradiction.
      * eexists. apply AddWaitSemaphore_fresh. exact Hc.
  - intros Hin Hlen Hnd.
    assert (Hc : Contains sem (WaitSemaphores b) = false).
    { destruct (Contains sem (WaitSemaphores b)) eqn:Hc; [|reflexivity].
      apply Contains_In in Hc. contradiction. }
    eexists. split; [apply AddWaitSemaphore_fresh; exact Hc|].
    split; [reflexivity|]. cbn. split.
    + rewrite !length_app. cbn. lia.
    + apply NoDup_snoc; assumption.
Qed.

Lemma AddWaitSemaphore_registers_witness :
  exists b',
    AddWaitSemaphore 2 8%nat (waiting_cmdBuffer, new_device) = Ok tt (b', new_device) /\
    WaitSemaphores b' = [7%nat; 8%nat] /\ WaitFlags b' = [1; 2].
Proof.
  destruct (AddWaitSemaphore_registers 2 8%nat waiting_cmdBuffer new_device) as [_ H].
  destruct H as (b' & Hrun & -> & _).
  - cbn. intros [H|[]]. discriminate H.
  - reflexivity.
  - cbn. constructor; [intros [] | constructor].
  - eexists. split; [exact Hrun|]. split; reflexivity.
Defined.

(** ** Begin and End *)

(** X2: [Begin] refuses a buffer that is not ready, before calling anything;
    and when the driver refuses to begin, the buffer is left as it was, still
    ready and without a new lease. *)
Theorem Begin_refusals env b d :
  (_state b <> State_ReadyForBegin ->
   Begin env (b, d) = Err InvalidStateError (b, d)) /\
  (_state b = State_ReadyForBegin ->
   vkResult env (vkBeginCommandBuffer (CommandBufferHandle b)) = false ->
   Begin env (b, d)
   = Err VulkanResultError
       (b, log_call (vkBeginCommandBuffer (CommandBufferHandle b)) d)).
Proof.
  split.
  - intros Hne.
    assert (Hs : State_eqb (_state b) State_ReadyForBegin = false)
      by (apply State_eqb_neq; exact Hne).
    unfold Begin, bind, this, ASSERT, throw. cbn [fst]. rewrite Hs. reflexivity.
  - intros Hs Hvk.
    unfold Begin, VALIDATE_VULKAN_RESULT, bind, this, ASSERT, call, modify, ret, throw.
    cbn [fst snd]. rewrite Hs. cbn [State_eqb]. rewrite Hvk. reflexivity.
Qed.

Lemma Begin_refusals_witness :
  Begin full_platform (submitted_cmdBuffer false, new_device)
    = Err InvalidStateError (submitted_cmdBuffer false, new_device) /\
  Begin {| GPU_ALLOW_PROFILE_EVENTS := true;
           VULKAN_USE_DESCRIPTOR_POOL_MANAGER := true;
           eventsBegin_signed := true;
           has_vkCmdBeginDebugUtilsLabelEXT := true;
           has_vkCmdEndDebugUtilsLabelEXT := true;
           vkResult := fun _ => false;
           AcquirePoolSetContainer_result := fun _ => 0%nat |}
        (new_cmdBuffer, new_device)
    = Err VulkanResultError (new_cmdBuffer, log_call (vkBeginCommandBuffer 0%nat) new_device).
Proof.
  split.
  - apply (Begin_refusals full_platform (submitted_cmdBuffer false) new_device).
    cbn. discriminate.
  - apply (Begin_refusals _ new_cmdBuffer new_device); reflexivity.
Defined.

(** X3: a [Begin] that goes through puts the buffer in the recording state
    with the debug counter at zero (when debug events are compiled in).  With
    the descriptor pool manager compiled in, the buffer holds a lease
    afterwards: the one it held before, kept without asking the manager
    again, or else one newly put on the manager's list.  Waits, fence and
    fence counters are not touched. *)
Theorem Begin_effects env b d :
  _state b = State_ReadyForBegin ->
  vkResult env (vkBeginCommandBuffer (CommandBufferHandle b)) = true ->
  exists b' d',
    Begin env (b, d) = Ok tt (b', d') /\
    _state b' = State_IsInsideBegin /\
    (GPU_ALLOW_PROFILE_EVENTS env = true -> _eventsBegin b' = 0) /\
    (VULKAN_USE_DESCRIPTOR_POOL_MANAGER env = true ->
     match CurrentDescriptorPoolSetContainer b with
     | Some c =>
         CurrentDescriptorPoolSetContainer b' = Some c /\
         leasedPoolSets d' = leasedPoolSets d /\
         calls d' = calls d ++ [vkBeginCommandBuffer (CommandBufferHandle b)]
     | None =>
         exists c,
           CurrentDescriptorPoolSetContainer b' = Some c /\
           leasedPoolSets d' = c :: leasedPoolSets d /\
           calls d' = calls d ++ [vkBeginCommandBuffer (CommandBufferHandle b);
                                  DescriptorPoolsManager_AcquirePoolSetContainer c]
     end) /\
    (VULKAN_USE_DESCRIPTOR_POOL_MANAGER env = false ->
     CurrentDescriptorPoolSetContainer b' = CurrentDescriptorPoolSetContainer b /\
     leasedPoolSets d' = leasedPoolSets d) /\
    WaitFlags b' = WaitFlags b /\
    WaitSemaphores b' = WaitSemaphores b /\
    SubmittedWaitSemaphores b' = SubmittedWaitSemaphores b /\
    _fence b' = _fence b /\
    FenceSignaledCounter b' = FenceSignaledCounter b /\
    SubmittedFenceCounter b' = SubmittedFenceCounter b.
Proof.
  intros Hs Hvk.
  unfold Begin, VALIDATE_VULKAN_RESULT, AcquirePoolSet, AcquirePoolSetContainer.
  unfold bind, this, ASSERT, call, update_this, modify, get, ret. cbn [fst snd].
  rewrite Hs. cbn [State_eqb]. rewrite Hvk.
  destruct (VULKAN_USE_DESCRIPTOR_POOL_MANAGER env);
    [destruct (CurrentDescriptorPoolSetContainer b) as [c|] eqn:Hlease|].
  - destruct (GPU_ALLOW_PROFILE_EVENTS env);
      (eexists _, _; split; [reflexivity|]); cbn;
      (split; [reflexivity|]); (split; [intros E; first [reflexivity | discriminate E]|]);
      (split; [intros _; repeat split; cbn; try rewrite Hlease; reflexivity|]);
      (split; [intros E; discriminate E|]); repeat split; cbn; try rewrite Hlease; reflexivity.
  - cbn [fst snd]. rewrite Hlease. cbn [fst snd].
    destruct (GPU_ALLOW_PROFILE_EVENTS env);
      (eexists _, _; split; [reflexivity|]); cbn;
      (split; [reflexivity|]); (split; [intros E; first [reflexivity | discriminate E]|]);
      (split; [intros _; eexists; split; [reflexivity|];
               split; [reflexivity|]; rewrite <- app_assoc; reflexivity|]);
      (split; [intros E; discriminate E|]); repeat split; cbn; try rewrite Hlease; reflexivity.
  - destruct (GPU_ALLOW_PROFILE_EVENTS env);
      (eexists _, _; split; [reflexivity|]); cbn;
      (split; [reflexivity|]); (split; [intros E; first [reflexivity | discriminate E]|]);
      (split; [intros E; discriminate E|]);
      (split; [intros _; split; cbn; try rewrite Hlease; reflexivity|]); repeat split; cbn; try rewrite Hlease; reflexivity.
Qed.

Lemma Begin_effects_witness :
  exists b' d',
    Begin full_platform (new_cmdBuffer, new_device) = Ok tt (b', d') /\
    _state b' = State_IsInsideBegin /\
    CurrentDescriptorPoolSetContainer b' = Some 1%nat /\
    leasedPoolSets d' = [1%nat].
Proof.
  destruct (Begin_effects full_platform new_cmdBuffer new_device)
    as (b' & d' & Hrun & Hst & _ & Hlease & _); [reflexivity | reflexivity |].
  exists b', d'. split; [exact Hrun|]. split; [exact Hst|].
  assert (E : (b', d') = state_of (Begin full_platform (new_cmdBuffer, new_device))).
  { rewrite Hrun. reflexivity. }
  vm_compute in E. injection E as -> ->. split; reflexivity.
Defined.

(** X4: ending a buffer that is recording outside a render pass closes as
    many debug spans as are open, then ends the native buffer, and leaves
    the buffer ended; waits, fence, counters of the fence and lease stay. *)
Theorem End_closes_open_spans env b d :
  _state b = State_IsInsideBegin ->
  events_wf env b ->
  vkResult env (vkEndCommandBuffer (CommandBufferHandle b)) = true ->
  exists b' d' closes,
    End env (b, d) = Ok tt (b', d') /\
    _state b' = State_HasEnded /\
    calls d' = calls d ++ closes ++ [vkEndCommandBuffer (CommandBufferHandle b)] /\
    closes = (if GPU_ALLOW_PROFILE_EVENTS env
              then repeat (vkCmdEndDebugUtilsLabelEXT (CommandBufferHandle b))
                     (Z.to_nat (_eventsBegin b))
              else []) /\
    (GPU_ALLOW_PROFILE_EVENTS env = true ->
       Z.of_nat (length closes) = _eventsBegin b) /\
    WaitFlags b' = WaitFlags b /\
    WaitSemaphores b' = WaitSemaphores b /\
    _fence b' = _fence b /\
    FenceSignaledCounter b' = FenceSignaledCounter b /\
    CurrentDescriptorPoolSetContainer b' = CurrentDescriptorPoolSetContainer b.
Proof.
  intros Hs Hwf Hvk.
  assert (Hout : IsOutsideRenderPass b = true).
  { unfold IsOutsideRenderPass. rewrite Hs. reflexivity. }
  rewrite (End_run env b d Hout Hwf Hvk).
  eexists _, _, _. split; [reflexivity|].
  split; [reflexivity|]. split.
  { cbn. unfold End_calls. reflexivity. }
  split; [reflexivity|].
  split.
  { intros E. rewrite E, repeat_length. destruct Hwf as [Hr _]. lia. }
  destruct (GPU_ALLOW_PROFILE_EVENTS env); repeat split; reflexivity.
Qed.

Lemma End_closes_open_spans_witness :
  exists b' d',
    End full_platform (set_eventsBegin 2 (set_state State_IsInsideBegin new_cmdBuffer), new_device)
      = Ok tt (b', d') /\
    _state b' = State_HasEnded /\
    calls d' = [vkCmdEndDebugUtilsLabelEXT 0%nat; vkCmdEndDebugUtilsLabelEXT 0%nat;
                vkEndCommandBuffer 0%nat].
Proof.
  destruct (End_closes_open_spans full_platform
              (set_eventsBegin 2 (set_state State_IsInsideBegin new_cmdBuffer)) new_device)
    as (b' & d' & closes & Hrun & Hst & Hcalls & -> & _).
  - reflexivity.
  - split; [cbn; lia | right; reflexivity].
  - reflexivity.
  - exists b', d'. split; [exact Hrun|]. split; [exact Hst|]. rewrite Hcalls. reflexivity.
Defined.

(** X5: [End] refuses a buffer that is inside a render pass and does nothing
    to it; and when the driver refuses to end the buffer, the open spans have
    been closed already but the buffer is not marked ended. *)
Theorem End_refusals env b d :
  (_state b = State_IsInsideRenderPass ->
   End env (b, d) = Err InvalidStateError (b, d)) /\
  (_state b = State_IsInsideBegin ->
   events_wf env b ->
   vkResult env (vkEndCommandBuffer (CommandBufferHandle b)) = false ->
   exists b' d',
     End env (b, d) = Err VulkanResultError (b', d') /\
     _state b' = State_IsInsideBegin /\
     calls d' = calls d ++ End_calls env b).
Proof.
  split.
  - intros Hs. unfold End, bind, this, ASSERT, IsOutsideRenderPass, throw. cbn [fst].
    rewrite Hs. reflexivity.
  - intros Hs [Hrange Hext] Hvk.
    unfold End, End_calls, VALIDATE_VULKAN_RESULT.
    unfold bind at 1. unfold this at 1. cbn [fst].
    unfold bind at 1. unfold ASSERT at 1. unfold IsOutsideRenderPass. rewrite Hs.
    cbn [State_eqb negb]. unfold ret at 1.
    destruct (GPU_ALLOW_PROFILE_EVENTS env).
    + unfold bind at 1. unfold bind at 1.
      rewrite (End_events_run env (Z.to_nat (_eventsBegin b))).
      * unfold bind, call, modify, update_this, ret, throw. cbn [fst snd].
        rewrite Hvk. eexists _, _. split; [reflexivity|]. cbn.
        split; [exact Hs|]. rewrite <- app_assoc. reflexivity.
      * lia.
      * lia.
      * unfold End_events_fuel. rewrite Z.mod_small; lia.
      * destruct Hext as [Hext|Hext]; [left; rewrite Hext; reflexivity | right; exact Hext].
    + unfold bind, call, modify, update_this, ret, throw. cbn [fst snd].
      rewrite Hvk. eexists _, _. split; [reflexivity|]. cbn.
      split; [exact Hs | reflexivity].
Qed.

Lemma End_refusals_witness :
  End full_platform (set_state State_IsInsideRenderPass new_cmdBuffer, new_device)
  = Err InvalidStateError (set_state State_IsInsideRenderPass new_cmdBuffer, new_device).
Proof.
  apply (End_refusals full_platform (set_state State_IsInsideRenderPass new_cmdBuffer) new_device).
  reflexivity.
Defined.

(** ** Render passes *)

(** X6: opening and then closing a render pass on a recording buffer brings
    the buffer back exactly as it was; the two native calls are made on its
    handle, in this order. *)
Theorem render_pass_round_trip renderPass framebuffer b d :
  _state b = State_IsInsideBegin ->
  (BeginRenderPass renderPass framebuffer ;; EndRenderPass) (b, d)
  = Ok tt (b, log_calls [vkCmdBeginRenderPass (CommandBufferHandle b) renderPass framebuffer;
                         vkCmdEndRenderPass (CommandBufferHandle b)] d).
Proof.
  intros Hs.
  unfold BeginRenderPass, EndRenderPass, bind, this, ASSERT, call, update_this, modify, ret.
  unfold IsOutsideRenderPass, IsInsideRenderPass. cbn.
  rewrite Hs. cbn.
  rewrite log_call_log_calls, log_call_log_calls, log_calls_app.
  destruct b; cbn in *. subst. reflexivity.
Qed.

Lemma render_pass_round_trip_witness :
  (BeginRenderPass 3%nat 4%nat ;; EndRenderPass)
    (set_state State_IsInsideBegin new_cmdBuffer, new_device)
  = Ok tt (set_state State_IsInsideBegin new_cmdBuffer,
           log_calls [vkCmdBeginRenderPass 0%nat 3%nat 4%nat; vkCmdEndRenderPass 0%nat]
             new_device).
Proof.
  apply (render_pass_round_trip 3%nat 4%nat (set_state State_IsInsideBegin new_cmdBuffer)).
  reflexivity.
Defined.

(** X7: render passes do not nest and do not close twice: a second
    [BeginRenderPass] and an [EndRenderPass] outside a render pass are
    refused, with no native call and the buffer untouched. *)
Theorem render_pass_refusals renderPass framebuffer b d :
  (_state b = State_IsInsideRenderPass ->
   BeginRenderPass renderPass framebuffer (b, d) = Err InvalidStateError (b, d)) /\
  (_state b <> State_IsInsideRenderPass ->
   EndRenderPass (b, d) = Err InvalidStateError (b, d)).
Proof.
  split.
  - intros Hs. unfold BeginRenderPass, bind, this, ASSERT, IsOutsideRenderPass, throw.
    cbn [fst]. rewrite Hs. reflexivity.
  - intros Hne.
    assert (Hs : State_eqb (_state b) State_IsInsideRenderPass = false)
      by (apply State_eqb_neq; exact Hne).
    unfold EndRenderPass, bind, this, ASSERT, IsInsideRenderPass, throw.
    cbn [fst]. rewrite Hs. reflexivity.
Qed.

Lemma render_pass_refusals_witness :
  BeginRenderPass 3%nat 4%nat (set_state State_IsInsideRenderPass new_cmdBuffer, new_device)
    = Err InvalidStateError (set_state State_IsInsideRenderPass new_cmdBuffer, new_device) /\
  EndRenderPass (new_cmdBuffer, new_device) = Err InvalidStateError (new_cmdBuffer, new_device).
Proof.
  split.
  - apply (render_pass_refusals 3%nat 4%nat
             (set_state State_IsInsideRenderPass new_cmdBuffer) new_device).
    reflexivity.
  - apply (render_pass_refusals 3%nat 4%nat new_cmdBuffer new_device).
    cbn. discriminate.
Defined.

(** ** Debug labels *)




(** One label operation: it returns, the counter moves by what was logged,
    and stays at or above zero. *)
Lemma event_op_step env o b d :
  is_event_op o = true ->
  0 <= _eventsBegin b < 2 ^ 31 - 1 ->
  exists b' d' new,
    run_op env o (b, d) = Ok tt (b', d') /\
    calls d' = calls d ++ new /\
    _eventsBegin b'
      = _eventsBegin b + Z.of_nat (length (List.filter is_begin_label new))
                       - Z.of_nat (length (List.filter is_end_label new)) /\
    0 <= _eventsBegin b' <= _eventsBegin b + 1 /\
    _state b' = _state b.
Proof.
  intros Ho Hr. destruct o as [| |name|]; try discriminate Ho; cbn [run_op].
  - unfold BeginEvent.
    destruct (has_vkCmdBeginDebugUtilsLabelEXT env); cbn [negb].
    + exists (set_eventsBegin (wrap_eventsBegin env (_eventsBegin b + 1)) b),
             (log_call (vkCmdBeginDebugUtilsLabelEXT (CommandBufferHandle b)
                          (to_ansi 100 name)) d),
             [vkCmdBeginDebugUtilsLabelEXT (CommandBufferHandle b) (to_ansi 100 name)].
      split; [reflexivity|]. cbn.
      rewrite wrap_eventsBegin_small by lia. repeat split; lia.
    + exists b, d, []. rewrite app_nil_r. cbn. repeat split; lia.
  - unfold EndEvent, bind, this, update_this, call, modify, ret. cbn [fst snd].
    destruct (_eventsBegin b =? 0) eqn:Hz; cbn [orb].
    + exists b, d, []. rewrite app_nil_r. cbn. repeat split; lia.
    + apply Z.eqb_neq in Hz.
      destruct (has_vkCmdEndDebugUtilsLabelEXT env); cbn [negb].
      * exists (set_eventsBegin (wrap_eventsBegin env (_eventsBegin b - 1)) b),
               (log_call (vkCmdEndDebugUtilsLabelEXT (CommandBufferHandle b)) d),
               [vkCmdEndDebugUtilsLabelEXT (CommandBufferHandle b)].
        split; [reflexivity|]. cbn.
        rewrite wrap_eventsBegin_small by lia. repeat split; lia.
      * exists b, d, []. rewrite app_nil_r. cbn. repeat split; lia.
Qed.

(** X9: along any script of [BeginEvent] and [EndEvent] calls (short of
    overflowing the counter) every call returns, the counter is the starting
    value plus the spans opened minus the spans closed, and it never goes
    below zero: no span is closed that was not opened. *)
Theorem event_counter_accounts env : forall ops b d,
  forallb is_event_op ops = true ->
  0 <= _eventsBegin b ->
  _eventsBegin b + Z.of_nat (length ops) < 2 ^ 31 ->
  exists b' d' new,
    run_ops env ops (b, d) = Ok tt (b', d') /\
    calls d' = calls d ++ new /\
    _eventsBegin b'
      = _eventsBegin b + Z.of_nat (length (List.filter is_begin_label new))
                       - Z.of_nat (length (List.filter is_end_label new)) /\
    0 <= _eventsBegin b' /\
    _state b' = _state b.
Proof.
  induction ops as [|o ops IH]; intros b d Hops Hlo Hhi.
  - exists b, d, []. rewrite app_nil_r. cbn. repeat split; lia.
  - cbn [forallb] in Hops. apply andb_prop in Hops as [Ho Hops].
    cbn [length] in Hhi.
    destruct (event_op_step env o b d Ho) as (b1 & d1 & new1 & Hrun1 & Hc1 & He1 & Hr1 & Hs1);
      [lia|].
    destruct (IH b1 d1 Hops) as (b2 & d2 & new2 & Hrun2 & Hc2 & He2 & Hr2 & Hs2); [lia|lia|].
    exists b2, d2, (new1 ++ new2).
    split; [cbn [run_ops]; rewrite (bind_Ok _ _ _ tt (b1, d1) Hrun1); exact Hrun2|].
    split; [rewrite Hc2, Hc1, <- app_assoc; reflexivity|].
    split; [|split; [lia | congruence]].
    rewrite !List.filter_app, !length_app. lia.
Qed.

Lemma event_counter_accounts_witness :
  exists b' d',
    run_ops full_platform
      [OpBeginEvent [65]; OpBeginEvent [66]; OpEndEvent; OpEndEvent; OpEndEvent]
      (new_cmdBuffer, new_device) = Ok tt (b', d') /\
    _eventsBegin b' = 0 /\
    calls d' = [vkCmdBeginDebugUtilsLabelEXT 0%nat [65]; vkCmdBeginDebugUtilsLabelEXT 0%nat [66];
                vkCmdEndDebugUtilsLabelEXT 0%nat; vkCmdEndDebugUtilsLabelEXT 0%nat].
Proof.
  destruct (event_counter_accounts full_platform
              [OpBeginEvent [65]; OpBeginEvent [66]; OpEndEvent; OpEndEvent; OpEndEvent]
              new_cmdBuffer new_device)
    as (b' & d' & new & Hrun & _); [reflexivity | cbn; lia | cbn; lia |].
  exists b', d'. split; [exact Hrun|].
  assert (E : (b', d') = state_of (run_ops full_platform
              [OpBeginEvent [65]; OpBeginEvent [66]; OpEndEvent; OpEndEvent; OpEndEvent]
              (new_cmdBuffer, new_device))).
  { rewrite Hrun. reflexivity. }
  vm_compute in E. injection E as -> ->. split; reflexivity.
Defined.

(** ** The fence after a refresh *)

Lemma RefreshFenceStatus_Ok_cases env b d b' d' :
  RefreshFenceStatus env (b, d) = Ok tt (b', d') ->
  (b' = b /\ d' = d /\
   IsSignaled (_fence b) = false) \/
  (_state b = State_Submitted /\ IsSignaled (_fence b) = true /\
   _state b' = State_ReadyForBegin /\ IsSignaled (_fence b') = false /\
   fenceHandle (_fence b') = fenceHandle (_fence b) /\
   CommandBufferHandle b' = CommandBufferHandle b /\
   WaitFlags b' = WaitFlags b /\ WaitSemaphores b' = WaitSemaphores b /\
   _eventsBegin b' = _eventsBegin b).
Proof.
  destruct (IsSignaled (_fence b)) eqn:Hf.
  - destruct (State_eqb (_state b) State_Submitted) eqn:Hs.
    + intros H. right.
      unfold RefreshFenceStatus, ResetFence, ReleasePoolSet in H.
      unfold bind, this, IsFenceSignaled, call, update_this, modify, ret in H.
      cbn [fst snd] in H. rewrite Hs, Hf in H.
      apply State_eqb_eq in Hs.
      destruct (VULKAN_USE_DESCRIPTOR_POOL_MANAGER env);
        [destruct (CurrentDescriptorPoolSetContainer b)|];
        cbn in H; injection H as <- <-; repeat split; assumption.
    + unfold RefreshFenceStatus, bind, this, ASSERT, throw. cbn [fst].
      rewrite Hs, Hf. intros H. discriminate H.
  - rewrite (RefreshFenceStatus_unsignaled env b d Hf).
    intros H. injection H as <- <-. left. repeat split.
Qed.



(** ** What a call on one buffer leaves alone *)

Lemma touches_only_refl a m : touches_only a m m.
Proof.
  unfold touches_only. repeat split.
  destruct (CmdBuffers m !! a) as [b|] eqn:Hl.
  - exists b. symmetry. apply list_insert_id. exact Hl.
  - exists new_cmdBuffer. symmetry. apply list_insert_ge.
    apply lookup_ge_None. exact Hl.
Qed.

Lemma touches_only_trans a m1 m2 m3 :
  touches_only a m1 m2 -> touches_only a m2 m3 -> touches_only a m1 m3.
Proof.
  intros (Ha1 & Hq1 & b1 & Hb1) (Ha2 & Hq2 & b2 & Hb2).
  unfold touches_only. repeat split; [congruence | congruence |].
  exists b2. rewrite Hb2, Hb1. apply list_insert_insert_eq.
Qed.

Lemma touches_only_set_Device a d m : touches_only a m (set_Device d m).
Proof.
  destruct (touches_only_refl a m) as (_ & _ & b & Hb).
  unfold touches_only. cbn. repeat split. exists b. exact Hb.
Qed.

Lemma on_cmdBuffer_touches {A} a (op : M Frame A) m x m' :
  on_cmdBuffer a op m = Ok x m' -> touches_only a m m'.
Proof.
  intros H. apply on_cmdBuffer_Ok_inv in H as (b & b' & d' & _ & _ & ->).
  unfold touches_only. cbn. repeat split. exists b'. reflexivity.
Qed.

Lemma touches_only_other a m m' j :
  touches_only a m m' -> j <> a -> CmdBuffers m' !! j = CmdBuffers m !! j.
Proof.
  intros (_ & _ & b' & ->) Hne. apply list_lookup_insert_ne. congruence.
Qed.

Lemma touches_only_length a m m' :
  touches_only a m m' -> length (CmdBuffers m') = length (CmdBuffers m).
Proof. intros (_ & _ & b' & ->). apply length_insert. Qed.

(** ** Pool.Create *)

Lemma Pool_Create_Ok_inv env m p m' :
  Pool_Create env m = Ok p m' ->
  p = length (CmdBuffers m) /\
  ActiveCmdBuffer m' = ActiveCmdBuffer m /\
  QueriesInProgress m' = QueriesInProgress m /\
  exists b,
    CmdBuffers m' = CmdBuffers m ++ [b] /\
    _state b = State_ReadyForBegin /\
    IsSignaled (_fence b) = false /\
    CommandBufferHandle b = nativeObjects (Device m) /\
    fenceHandle (_fence b) = S (nativeObjects (Device m)) /\
    nativeObjects (Device m') = S (S (nativeObjects (Device m))) /\
    calls (Device m')
      = calls (Device m)
        ++ [vkAllocateCommandBuffers (nativeObjects (Device m));
            FenceManager_AllocateFence (S (nativeObjects (Device m)))].
Proof.
  unfold Pool_Create, CmdBufferVulkan_new, new_handle.
  unfold bind, get, modify, mcall, ret, throw.
  destruct (vkResult env (vkAllocateCommandBuffers (nativeObjects (Device m))));
    [|discriminate].
  intros H. injection H as <- <-. cbn.
  repeat split. eexists. split; [reflexivity|]. cbn.
  repeat split. rewrite <- app_assoc. reflexivity.
Qed.

(** X11: a [Create] that returns has put one buffer at the end of the pool
    and returns the pointer to it; every pointer valid before still points to
    the same buffer.  The new buffer is ready, its fence unsignaled, its
    lists empty and its counters zero; buffer and fence carry two handles the
    device had not handed out. *)
Theorem Pool_Create_appends env m p m' :
  Pool_Create env m = Ok p m' ->
  p = length (CmdBuffers m) /\
  length (CmdBuffers m') = S (length (CmdBuffers m)) /\
  (forall i b, CmdBuffers m !! i = Some b -> CmdBuffers m' !! i = Some b) /\
  ActiveCmdBuffer m' = ActiveCmdBuffer m /\
  QueriesInProgress m' = QueriesInProgress m /\
  exists b,
    CmdBuffers m' !! p = Some b /\
    b = {| CommandBufferHandle := nativeObjects (Device m);
           _state := State_ReadyForBegin;
           WaitFlags := []; WaitSemaphores := []; SubmittedWaitSemaphores := [];
           _fence := {| fenceHandle := S (nativeObjects (Device m)); IsSignaled := false |};
           FenceSignaledCounter := 0;
           SubmittedFenceCounter := 0;
           CurrentDescriptorPoolSetContainer := None;
           _eventsBegin := 0 |} /\
    nativeObjects (Device m') = S (S (nativeObjects (Device m))).
Proof.
  intros H.
  assert (Hinv := Pool_Create_Ok_inv env m p m' H).
  destruct Hinv as (-> & Ha & Hq & b & Hb & _ & _ & _ & _ & Hn & _).
  split; [reflexivity|]. split; [rewrite Hb, length_app; cbn; lia|].
  split; [intros i b0 Hl; rewrite Hb; apply lookup_app_l_Some; exact Hl|].
  split; [exact Ha|]. split; [exact Hq|].
  unfold Pool_Create, CmdBufferVulkan_new, new_handle in H.
  unfold bind, get, modify, mcall, ret, throw in H.
  destruct (vkResult env (vkAllocateCommandBuffers (nativeObjects (Device m))));
    [|discriminate].
  injection H as <-. cbn.
  eexists. split; [apply list_lookup_middle; reflexivity|].
  split; reflexivity.
Qed.

Lemma Pool_Create_appends_witness :
  exists m',
    Pool_Create full_platform (submitted_manager full_platform) = Ok 1%nat m' /\
    length (CmdBuffers m') = 2%nat /\
    CmdBuffers m' !! 0%nat = CmdBuffers (submitted_manager full_platform) !! 0%nat.
Proof.
  eexists. split; [vm_compute; reflexivity|].
  destruct (Pool_Create_appends full_platform (submitted_manager full_platform) 1%nat
              (state_of (Pool_Create full_platform (submitted_manager full_platform))))
    as (_ & Hlen & Hkeep & _); [vm_compute; reflexivity|].
  split; [exact Hlen|]. reflexivity.
Defined.

(** X12: when the driver cannot allocate the native buffer, [Create] fails
    and the pool is as it was; [PrepareForNewActiveCommandBuffer], finding
    every buffer busy, then fails too without an active buffer being set. *)
Theorem Pool_Create_failure env m :
  vkResult env (vkAllocateCommandBuffers (nativeObjects (Device m))) = false ->
  (exists m',
     Pool_Create env m = Err VulkanResultError m' /\
     CmdBuffers m' = CmdBuffers m /\
     ActiveCmdBuffer m' = ActiveCmdBuffer m) /\
  (forallb busy (CmdBuffers m) = true ->
   exists m',
     PrepareForNewActiveCommandBuffer env m = Err VulkanResultError m' /\
     CmdBuffers m' = CmdBuffers m /\
     ActiveCmdBuffer m' = ActiveCmdBuffer m).
Proof.
  intros Hvk.
  assert (Hcreate : exists m',
     Pool_Create env m = Err VulkanResultError m' /\
     CmdBuffers m' = CmdBuffers m /\
     ActiveCmdBuffer m' = ActiveCmdBuffer m).
  { unfold Pool_Create, CmdBufferVulkan_new, new_handle.
    unfold bind, get, modify, mcall, ret, throw. rewrite Hvk.
    eexists. split; [reflexivity|]. split; reflexivity. }
  split; [exact Hcreate|].
  intros Hbusy. destruct Hcreate as (m' & Hrun & Hb & Ha).
  exists m'. split; [|split; assumption].
  unfold PrepareForNewActiveCommandBuffer. unfold bind at 1. unfold get.
  assert (Hscan : Prepare_scan env (length (CmdBuffers m)) 0 m = Ok false m).
  { pose proof (Prepare_scan_busy_run env (CmdBuffers m) [] [] m 0) as H.
    rewrite Nat.add_0_r in H. cbn [length Nat.add] in H. rewrite H.
    - reflexivity.
    - cbn. rewrite app_nil_r. reflexivity.
    - exact Hbusy. }
  rewrite (bind_Ok _ _ m false m Hscan).
  unfold bind at 1. rewrite Hrun. reflexivity.
Qed.

Lemma Pool_Create_failure_witness :
  exists m',
    PrepareForNewActiveCommandBuffer
      {| GPU_ALLOW_PROFILE_EVENTS := true;
         VULKAN_USE_DESCRIPTOR_POOL_MANAGER := true;
         eventsBegin_signed := true;
         has_vkCmdBeginDebugUtilsLabelEXT := true;
         has_vkCmdEndDebugUtilsLabelEXT := true;
         vkResult := fun _ => false;
         AcquirePoolSetContainer_result := fun _ => 0%nat |}
      new_manager = Err VulkanResultError m' /\
    CmdBuffers m' = [] /\ ActiveCmdBuffer m' = None.
Proof.
  destruct (Pool_Create_failure
              {| GPU_ALLOW_PROFILE_EVENTS := true;
                 VULKAN_USE_DESCRIPTOR_POOL_MANAGER := true;
                 eventsBegin_signed := true;
                 has_vkCmdBeginDebugUtilsLabelEXT := true;
                 has_vkCmdEndDebugUtilsLabelEXT := true;
                 vkResult := fun _ => false;
                 AcquirePoolSetContainer_result := fun _ => 0%nat |}
              new_manager) as [_ H]; [reflexivity|].
  destruct H as (m' & Hrun & Hb & Ha); [reflexivity|].
  exists m'. split; [exact Hrun|]. split; [exact Hb | exact Ha].
Defined.

(** ** Pool.RefreshFenceStatus *)

Lemma Pool_RefreshFenceStatus_from_inv env skip : forall n i m m',
  Pool_RefreshFenceStatus_from env n i skip m = Ok tt m' ->
  ActiveCmdBuffer m' = ActiveCmdBuffer m /\
  QueriesInProgress m' = QueriesInProgress m /\
  length (CmdBuffers m') = length (CmdBuffers m) /\
  forall j b, CmdBuffers m !! j = Some b ->
    exists b', CmdBuffers m' !! j = Some b' /\
      (b' = b \/
       (skip <> Some j /\ (i <= j < i + n)%nat /\
        _state b = State_Submitted /\ IsSignaled (_fence b) = true /\
        _state b' = State_ReadyForBegin)) /\
      (skip <> Some j -> (i <= j < i + n)%nat -> IsSignaled (_fence b') = false).
Proof.
  induction n as [|n IH]; intros i m m' H.
  - cbn in H. injection H as <-. repeat split.
    intros j b Hl. exists b. split; [exact Hl|]. split; [left; reflexivity | lia].
  - cbn [Pool_RefreshFenceStatus_from] in H.
    apply bind_Ok_inv in H as ([] & m1 & Hstep & H).
    apply IH in H as (Ha & Hq & Hlen & Hbufs).
    destruct (match skip with Some s => Nat.eqb i s | None => false end) eqn:Hskip.
    + (* the skipped buffer *)
      injection Hstep as <-.
      assert (Hsk : skip = Some i).
      { destruct skip as [s|]; [|discriminate]. apply Nat.eqb_eq in Hskip.
        subst s. reflexivity. }
      repeat split; try assumption.
      intros j b Hl. destruct (Hbufs j b Hl) as (b' & Hl' & Hrel & Hq').
      exists b'. split; [exact Hl'|]. split.
      * destruct Hrel as [->|(Hns & Hr & Hrest)]; [left; reflexivity|].
        right. split; [exact Hns|]. split; [lia | exact Hrest].
      * intros Hns Hr. apply Hq'; [exact Hns|].
        assert (j <> i) by (intros ->; apply Hns; exact Hsk). lia.
    + assert (Hnsk : skip <> Some i).
      { destruct skip as [s|]; [|discriminate].
        apply Nat.eqb_neq in Hskip. intros E. injection E as E. auto. }
      assert (Ht := on_cmdBuffer_touches _ _ _ _ _ Hstep).
      apply on_cmdBuffer_Ok_inv in Hstep as (b0 & b1 & d1 & Hl0 & Hrun & ->).
      cbn in Ha, Hq, Hlen, Hbufs.
      rewrite length_insert in Hlen.
      repeat split; try assumption.
      intros j b Hl. destruct (Nat.eq_dec j i) as [->|Hne].
      * assert (b = b0) by congruence. subst b0.
        assert (Hl1 : <[i := b1]> (CmdBuffers m) !! i = Some b1).
        { apply list_lookup_insert_eq. eapply lookup_lt_Some. exact Hl. }
        destruct (Hbufs i b1 Hl1) as (b' & Hl' & Hrel & _).
        assert (b' = b1) by (destruct Hrel as [E|(_ & Hr & _)]; [exact E | lia]).
        subst b'. exists b1. split; [exact Hl'|].
        apply RefreshFenceStatus_Ok_cases in Hrun
          as [(-> & _ & Hf) | (Hs & Hf & Hs' & Hf' & _)].
        -- split; [left; reflexivity | intros _ _; exact Hf].
        -- split; [|intros _ _; exact Hf'].
           right. split; [exact Hnsk|]. split; [lia|]. repeat split; assumption.
      * assert (Hl1 : <[i := b1]> (CmdBuffers m) !! j = Some b).
        { rewrite list_lookup_insert_ne by congruence. exact Hl. }
        destruct (Hbufs j b Hl1) as (b' & Hl' & Hrel & Hq').
        exists b'. split; [exact Hl'|]. split.
        -- destruct Hrel as [->|(Hns & Hr & Hrest)]; [left; reflexivity|].
           right. split; [exact Hns|]. split; [lia | exact Hrest].
        -- intros Hns Hr. apply Hq'; [exact Hns | lia].
Qed.

(** X13: a pool refresh that returns keeps the size of the pool, the active
    pointer and the queries; the skipped buffer is untouched; every other
    buffer is either unchanged or went from submitted-and-signaled to ready,
    and has an unsignaled fence afterwards. *)
Theorem Pool_RefreshFenceStatus_effect env skip m m' :
  Pool_RefreshFenceStatus env skip m = Ok tt m' ->
  length (CmdBuffers m') = length (CmdBuffers m) /\
  ActiveCmdBuffer m' = ActiveCmdBuffer m /\
  QueriesInProgress m' = QueriesInProgress m /\
  (forall s, skip = Some s -> CmdBuffers m' !! s = CmdBuffers m !! s) /\
  (forall j b, CmdBuffers m !! j = Some b -> skip <> Some j ->
     exists b', CmdBuffers m' !! j = Some b' /\
       IsSignaled (_fence b') = false /\
       (b' = b \/
        (_state b = State_Submitted /\ IsSignaled (_fence b) = true /\
         _state b' = State_ReadyForBegin))).
Proof.
  unfold Pool_RefreshFenceStatus. intros H.
  unfold bind at 1 in H. unfold get in H.
  apply Pool_RefreshFenceStatus_from_inv in H as (Ha & Hq & Hlen & Hbufs).
  split; [exact Hlen|]. split; [exact Ha|]. split; [exact Hq|]. split.
  - intros s ->. destruct (CmdBuffers m !! s) as [b|] eqn:Hl.
    + destruct (Hbufs s b Hl) as (b' & Hl' & [->|(Hns & _)] & _);
        [exact Hl' | contradiction].
    + apply lookup_ge_None. rewrite Hlen. apply lookup_ge_None. exact Hl.
  - intros j b Hl Hns. destruct (Hbufs j b Hl) as (b' & Hl' & Hrel & Hq').
    exists b'. split; [exact Hl'|]. split.
    + apply Hq'; [exact Hns|]. apply lookup_lt_Some in Hl. lia.
    + destruct Hrel as [->|(_ & _ & Hrest)]; [left; reflexivity | right; exact Hrest].
Qed.

Lemma Pool_RefreshFenceStatus_effect_witness :
  exists m',
    Pool_RefreshFenceStatus full_platform None (completed_manager full_platform) = Ok tt m' /\
    length (CmdBuffers m') = 1%nat /\
    exists b', CmdBuffers m' !! 0%nat = Some b' /\ _state b' = State_ReadyForBegin.
Proof.
  eexists. split; [vm_compute; reflexivity|].
  destruct (Pool_RefreshFenceStatus_effect full_platform None (completed_manager full_platform)
              (state_of (Pool_RefreshFenceStatus full_platform None
                           (completed_manager full_platform))))
    as (Hlen & _); [vm_compute; reflexivity|].
  split; [exact Hlen|]. eexists. split; reflexivity.
Defined.

(** ** More on PrepareForNewActiveCommandBuffer *)

Lemma set_Device_same m :
  set_Device (Device m) (set_CmdBuffers (CmdBuffers m) m) = m.
Proof. destruct m; reflexivity. Qed.

(** What a scan that returns has done, with no assumption on the pool. *)
Lemma Prepare_scan_inv env : forall n i m r m',
  Prepare_scan env n i m = Ok r m' ->
  QueriesInProgress m' = QueriesInProgress m /\
  (r = false ->
   m' = m /\
   forall j, (i <= j < i + n)%nat ->
     exists bj, CmdBuffers m !! j = Some bj /\ busy bj = true) /\
  (r = true ->
   exists k b b',
     (i <= k < i + n)%nat /\
     CmdBuffers m !! k = Some b /\
     reusable b = true /\
     CmdBuffers m' = <[k := b']> (CmdBuffers m) /\
     ActiveCmdBuffer m' = Some k /\
     _state b' = State_IsInsideBegin /\
     forall j, (i <= j < k)%nat ->
       exists bj, CmdBuffers m !! j = Some bj /\ busy bj = true).
Proof.
  induction n as [|n IH]; intros i m r m' H.
  - cbn in H. injection H as <- <-. split; [reflexivity|]. split.
    + intros _. split; [reflexivity|]. intros j Hj. lia.
    + intros E. discriminate E.
  - cbn [Prepare_scan] in H.
    apply bind_Ok_inv in H as ([] & m1 & Hstep & H).
    apply on_cmdBuffer_Ok_inv in Hstep as (b0 & b1 & d1 & Hl0 & Hrun & ->).
    assert (Hlt : (i < length (CmdBuffers m))%nat) by (eapply lookup_lt_Some; exact Hl0).
    set (m1 := set_Device d1 (set_CmdBuffers (<[i := b1]> (CmdBuffers m)) m)) in *.
    assert (Hl1 : CmdBuffers m1 !! i = Some b1).
    { subst m1. cbn. apply list_lookup_insert_eq. exact Hlt. }
    apply bind_Ok_inv in H as (cmdBuffer & m2 & Hthis & H).
    change (on_cmdBuffer i this m1 = Ok cmdBuffer m2) in Hthis.
    rewrite (on_cmdBuffer_this i m1 b1 Hl1) in Hthis. injection Hthis as <- <-.
    unfold GetState in H.
    destruct (State_eqb (_state b1) State_ReadyForBegin) eqn:Hready.
    + apply bind_Ok_inv in H as ([] & m3 & Hm3 & H).
      apply bind_Ok_inv in H as ([] & m4 & Hm4 & H).
      injection H as <- <-.
      unfold modify in Hm3. injection Hm3 as <-.
      apply on_cmdBuffer_Ok_inv in Hm4 as (b2 & b3 & d3 & Hl2 & Hrun2 & ->).
      assert (Hb2 : b2 = b1).
      { assert (E : Some b2 = Some b1)
          by (etransitivity; [symmetry; exact Hl2 | exact Hl1]).
        injection E as ->. reflexivity. }
      subst b2.
      split; [reflexivity|]. split; [intros E; discriminate E|].
      intros _. exists i, b0, b3.
      split; [lia|]. split; [exact Hl0|]. split.
      { apply State_eqb_eq in Hready. unfold reusable.
        apply RefreshFenceStatus_Ok_cases in Hrun
          as [(-> & _ & Hf) | (Hs & Hf & _)].
        - rewrite Hready, Hf. reflexivity.
        - rewrite Hs, Hf. reflexivity. }
      split; [cbn; apply list_insert_insert_eq|].
      split; [reflexivity|].
      split; [eapply Begin_Ok_state; exact Hrun2|].
      intros j Hj. lia.
    + apply bind_Ok_inv in H as ([] & m3 & Hassert & H).
      unfold ASSERT in Hassert.
      destruct (State_eqb (_state b1) State_Submitted) eqn:Hsub; [|discriminate Hassert].
      injection Hassert as <-.
      assert (Hsame : b1 = b0 /\ d1 = Device m /\ IsSignaled (_fence b0) = false).
      { apply RefreshFenceStatus_Ok_cases in Hrun
          as [(-> & -> & Hf) | (_ & _ & Hs' & _)].
        - repeat split. exact Hf.
        - rewrite Hs' in Hready. discriminate Hready. }
      destruct Hsame as (-> & -> & Hf).
      assert (Hm1 : m1 = m).
      { subst m1. rewrite list_insert_id by exact Hl0. apply set_Device_same. }
      rewrite Hm1 in H. clear Hl1. clear m1 Hm1.
      assert (Hbusy : busy b0 = true).
      { unfold busy. rewrite Hsub, Hf. reflexivity. }
      apply IH in H as (Hq & Hfalse & Htrue).
      split; [exact Hq|]. split.
      * intros E. destruct (Hfalse E) as (-> & Hall). split; [reflexivity|].
        intros j Hj. destruct (Nat.eq_dec j i) as [->|Hne].
        -- exists b0. split; assumption.
        -- apply Hall. lia.
      * intros E. destruct (Htrue E) as (k & b & b' & Hk & Hlk & Hr & Hb & Ha & Hs & Hall).
        exists k, b, b'. split; [lia|]. repeat split; try assumption.
        intros j Hj. destruct (Nat.eq_dec j i) as [->|Hne].
        -- exists b0. split; assumption.
        -- apply Hall. lia.
Qed.

(** What a call that returns has done, with no assumption on the pool. *)
Lemma Prepare_Ok_inv env m m' :
  PrepareForNewActiveCommandBuffer env m = Ok tt m' ->
  QueriesInProgress m' = QueriesInProgress m /\
  ((exists k b b',
      CmdBuffers m !! k = Some b /\
      reusable b = true /\
      (forall j, (j < k)%nat -> exists bj, CmdBuffers m !! j = Some bj /\ busy bj = true) /\
      CmdBuffers m' = <[k := b']> (CmdBuffers m) /\
      ActiveCmdBuffer m' = Some k /\
      _state b' = State_IsInsideBegin)
   \/
   (exists b',
      (forall j bj, CmdBuffers m !! j = Some bj -> busy bj = true) /\
      CmdBuffers m' = CmdBuffers m ++ [b'] /\
      ActiveCmdBuffer m' = Some (length (CmdBuffers m)) /\
      _state b' = State_IsInsideBegin)).
Proof.
  unfold PrepareForNewActiveCommandBuffer. intros H.
  unfold bind at 1 in H. unfold get in H.
  apply bind_Ok_inv in H as (returned & m1 & Hscan & H).
  apply Prepare_scan_inv in Hscan as (Hq & Hfalse & Htrue).
  destruct returned.
  - injection H as <-. split; [exact Hq|]. left.
    destruct (Htrue eq_refl) as (k & b & b' & Hk & Hl & Hr & Hb & Ha & Hs & Hall).
    exists k, b, b'. repeat split; try assumption.
    intros j Hj. apply Hall. lia.
  - destruct (Hfalse eq_refl) as (-> & Hall).
    apply bind_Ok_inv in H as (created & m2 & Hcreate & H).
    apply Pool_Create_Ok_inv in Hcreate as (-> & Ha2 & Hq2 & b & Hb & Hs & _).
    apply bind_Ok_inv in H as ([] & m3 & Hm3 & H).
    apply bind_Ok_inv in H as ([] & m4 & Hm4 & H).
    unfold bind at 1 in H. unfold get in H.
    rewrite Resume_each_run in H. injection H as <-.
    unfold modify in Hm3. injection Hm3 as <-.
    apply on_cmdBuffer_Ok_inv in Hm4 as (b2 & b3 & d3 & Hl2 & Hrun2 & ->).
    cbn in Hl2 |- *. rewrite Hb in Hl2 |- *.
    split; [exact Hq2|]. right. exists b3.
    split.
    { intros j bj Hl. destruct (Hall j) as (bj' & Hl' & Hbusy).
      - apply lookup_lt_Some in Hl. lia.
      - congruence. }
    split; [apply insert_middle|]. split; [reflexivity|].
    eapply Begin_Ok_state. exact Hrun2.
Qed.

(** X14: whenever the function returns it has done one of two things.
    Either it took an existing buffer, the first reusable one, every buffer
    before it being busy: then only that buffer changed and the pool has the
    same size.  Or every buffer was busy and exactly one buffer was added at
    the end.  No buffer is ever removed or moved, the queries in progress are
    kept, and the pool grows only when nothing can be reused. *)
Theorem Prepare_changes_one_buffer env m m' :
  PrepareForNewActiveCommandBuffer env m = Ok tt m' ->
  QueriesInProgress m' = QueriesInProgress m /\
  ((exists k b b',
      CmdBuffers m !! k = Some b /\
      reusable b = true /\
      (forall j, (j < k)%nat -> exists bj, CmdBuffers m !! j = Some bj /\ busy bj = true) /\
      CmdBuffers m' = <[k := b']> (CmdBuffers m) /\
      ActiveCmdBuffer m' = Some k /\
      _state b' = State_IsInsideBegin)
   \/
   (exists b',
      (forall j bj, CmdBuffers m !! j = Some bj -> busy bj = true) /\
      CmdBuffers m' = CmdBuffers m ++ [b'] /\
      ActiveCmdBuffer m' = Some (length (CmdBuffers m)) /\
      _state b' = State_IsInsideBegin)).
Proof. apply Prepare_Ok_inv. Qed.

Lemma Prepare_changes_one_buffer_witness :
  exists m',
    PrepareForNewActiveCommandBuffer full_platform (completed_manager full_platform)
      = Ok tt m' /\
    QueriesInProgress m' = [7%nat] /\
    length (CmdBuffers m') = 1%nat.
Proof.
  eexists. split; [vm_compute; reflexivity|].
  destruct (Prepare_changes_one_buffer full_platform (completed_manager full_platform)
              (state_of (PrepareForNewActiveCommandBuffer full_platform
                           (completed_manager full_platform))))
    as (Hq & _); [vm_compute; reflexivity|].
  split; [exact Hq | reflexivity].
Defined.



(** X16: when a buffer is reused, no query is resumed and nothing is
    allocated, whatever queries are in progress: the calls made are those of
    the refresh and of [Begin] only. *)
Theorem Prepare_reuse_makes_no_Resume env m pre b post :
  CmdBuffers m = pre ++ b :: post ->
  forallb busy pre = true ->
  reusable b = true ->
  (forall c, vkResult env c = true) ->
  exists m' new,
    PrepareForNewActiveCommandBuffer env m = Ok tt m' /\
    ActiveCmdBuffer m' = Some (length pre) /\
    QueriesInProgress m' = QueriesInProgress m /\
    calls (Device m') = calls (Device m) ++ new /\
    (forall q p, ~ In (Query_Resume q p) new) /\
    (forall h, ~ In (vkAllocateCommandBuffers h) new).
Proof.
  intros Hpool Hbusy Hr Hvk.
  destruct (Prepare_reuse env m pre b post Hpool Hbusy Hr Hvk)
    as (m' & b' & new & H1 & H2 & _ & H4 & _ & _ & H7 & _ & H9 & H10).
  exists m', new. repeat split; try assumption.
  - intros q p Hin. rewrite forallb_forall in H10.
    specialize (H10 _ Hin). discriminate H10.
  - intros h Hin. rewrite forallb_forall in H9.
    specialize (H9 _ Hin). discriminate H9.
Qed.

Lemma Prepare_reuse_makes_no_Resume_witness :
  exists m' new,
    PrepareForNewActiveCommandBuffer full_platform (completed_manager full_platform)
      = Ok tt m' /\
    QueriesInProgress m' = [7%nat] /\
    calls (Device m') = calls (Device (completed_manager full_platform)) ++ new /\
    forall q p, ~ In (Query_Resume q p) new.
Proof.
  destruct (Prepare_reuse_makes_no_Resume full_platform (completed_manager full_platform) []
              (set_fence {| fenceHandle := 1%nat; IsSignaled := true |}
                 (set_eventsBegin (-1)
                    (set_CurrentDescriptorPoolSetContainer (Some 1%nat)
                       (set_state State_Submitted new_cmdBuffer)))) [])
    as (m' & new & Hrun & _ & Hq & Hc & Hno & _);
    [reflexivity | reflexivity | reflexivity | intros c; reflexivity |].
  exists m', new. split; [exact Hrun|]. split; [exact Hq|]. split; [exact Hc | exact Hno].
Defined.

(** X17: the scan refuses a pool in which the first buffer that is not busy
    is being recorded or has ended without being submitted: the call fails on
    the assertion of the scan and changes nothing.  In particular it cannot be
    called a second time while the buffer it handed out is still being
    recorded at the front of the pool. *)
Theorem Prepare_refuses_unsubmitted env m pre b post :
  CmdBuffers m = pre ++ b :: post ->
  forallb busy pre = true ->
  IsSignaled (_fence b) = false ->
  _state b <> State_ReadyForBegin ->
  _state b <> State_Submitted ->
  PrepareForNewActiveCommandBuffer env m = Err InvalidStateError m.
Proof.
  intros Hpool Hbusy Hf Hnr Hns.
  assert (Hl : CmdBuffers m !! length pre = Some b).
  { rewrite Hpool. apply list_lookup_middle. reflexivity. }
  assert (Hscan : Prepare_scan env (length (CmdBuffers m)) 0 m = Err InvalidStateError m).
  { rewrite Hpool at 1. rewrite length_app. cbn [length].
    pose proof (Prepare_scan_busy_run env pre [] (b :: post) m (S (length post))
                  Hpool Hbusy) as H.
    cbn [length Nat.add] in H. rewrite H.
    cbn [Prepare_scan].
    rewrite (bind_Ok _ _ m tt m).
    2:{ apply (on_cmdBuffer_same _ _ m b tt Hl). apply RefreshFenceStatus_unsignaled. exact Hf. }
    rewrite (bind_Ok _ _ m b m) by (apply on_cmdBuffer_this; exact Hl).
    unfold GetState.
    apply State_eqb_neq in Hnr. apply State_eqb_neq in Hns.
    rewrite Hnr. unfold bind, ASSERT, throw. rewrite Hns. reflexivity. }
  unfold PrepareForNewActiveCommandBuffer. unfold bind at 1. unfold get.
  unfold bind at 1. rewrite Hscan. reflexivity.
Qed.

Lemma Prepare_refuses_unsubmitted_witness :
  PrepareForNewActiveCommandBuffer full_platform (recording_manager full_platform)
  = Err InvalidStateError (recording_manager full_platform).
Proof.
  apply (Prepare_refuses_unsubmitted full_platform (recording_manager full_platform) []
           (set_CurrentDescriptorPoolSetContainer (Some 1%nat)
              (set_state State_IsInsideBegin new_cmdBuffer)) []).
  - reflexivity.
  - reflexivity.
  - reflexivity.
  - cbn. discriminate.
  - cbn. discriminate.
Defined.

(** ** More on SubmitActiveCmdBuffer *)

Lemma HasBegun_not_submitted b : HasBegun b = true -> IsSubmitted b = false.
Proof.
  unfold HasBegun, IsSubmitted. destruct (_state b); cbn; intros H;
    first [reflexivity | discriminate H].
Qed.

Lemma QueueVulkan_Submit_inv p sem m m' :
  QueueVulkan_Submit p sem m = Ok tt m' ->
  touches_only p m m' /\
  exists b', CmdBuffers m' !! p = Some b' /\ _state b' = State_Submitted.
Proof.
  unfold QueueVulkan_Submit. intros H.
  apply bind_Ok_inv in H as ([] & m1 & H1 & H).
  apply bind_Ok_inv in H as ([] & m2 & H2 & H).
  unfold mcall, modify in H2. injection H2 as <-.
  assert (Ht1 := on_cmdBuffer_touches _ _ _ _ _ H1).
  assert (Ht3 := on_cmdBuffer_touches _ _ _ _ _ H).
  split.
  - eapply touches_only_trans; [exact Ht1|].
    eapply touches_only_trans; [apply touches_only_set_Device | exact Ht3].
  - apply on_cmdBuffer_Ok_inv in H as (b & b' & d' & Hl & Hrun & ->).
    unfold update_this, modify in Hrun. cbn in Hrun. injection Hrun as <- _.
    eexists. split.
    + cbn. apply list_lookup_insert_eq. eapply lookup_lt_Some. exact Hl.
    + reflexivity.
Qed.

(** What the call does to the manager, with no assumption on its state. *)
Lemma SubmitActiveCmdBuffer_inv env signalSemaphore m :
  (ActiveCmdBuffer m = None ->
   SubmitActiveCmdBuffer env signalSemaphore m = Err InvalidStateError m) /\
  (forall m',
     SubmitActiveCmdBuffer env signalSemaphore m = Ok tt m' ->
     exists a b,
       ActiveCmdBuffer m = Some a /\
       CmdBuffers m !! a = Some b /\
       ActiveCmdBuffer m' = None /\
       QueriesInProgress m' = QueriesInProgress m /\
       length (CmdBuffers m') = length (CmdBuffers m) /\
       (forall j, j <> a -> CmdBuffers m' !! j = CmdBuffers m !! j) /\
       (HasBegun b = true ->
        exists b', CmdBuffers m' !! a = Some b' /\ _state b' = State_Submitted) /\
       (HasBegun b = false ->
        CmdBuffers m' = CmdBuffers m /\ Device m' = Device m)).
Proof.
  split.
  - intros Ha. unfold SubmitActiveCmdBuffer. unfold bind at 1. unfold get.
    rewrite Ha. reflexivity.
  - intros m' H. unfold SubmitActiveCmdBuffer in H.
    unfold bind at 1 in H. unfold get in H.
    destruct (ActiveCmdBuffer m) as [a|] eqn:Ha; [|discriminate H].
    apply bind_Ok_inv in H as (b & m0 & Hthis & H).
    assert (Hl : CmdBuffers m !! a = Some b /\ m0 = m).
    { apply on_cmdBuffer_Ok_inv in Hthis as (b0 & b' & d' & Hl & Hop & ->).
      unfold this in Hop. cbn in Hop. injection Hop as <- <- <-.
      split; [exact Hl|]. rewrite list_insert_id by exact Hl. apply set_Device_same. }
    destruct Hl as [Hl ->].
    exists a, b. split; [reflexivity|]. split; [exact Hl|].
    apply bind_Ok_inv in H as ([] & m4 & Hbody & H).
    unfold modify in H. injection H as <-. cbn.
    destruct (negb (IsSubmitted b) && HasBegun b) eqn:Hcond.
    + apply andb_prop in Hcond as [_ Hb].
      apply bind_Ok_inv in Hbody as ([] & m1 & H1 & Hbody).
      apply bind_Ok_inv in Hbody as (m1' & m1'' & Hget & Hbody).
      unfold get in Hget. injection Hget as <- <-.
      apply bind_Ok_inv in Hbody as ([] & m2 & H2 & Hbody).
      apply bind_Ok_inv in Hbody as ([] & m3 & H3 & H4).
      assert (Ht1 : touches_only a m m1).
      { destruct (IsInsideRenderPass b).
        - eapply on_cmdBuffer_touches. exact H1.
        - injection H1 as <-. apply touches_only_refl. }
      assert (Ht2 : touches_only a m1 m2).
      { rewrite Interrupt_each_run in H2. injection H2 as <-.
        apply touches_only_set_Device. }
      assert (Ht3 := on_cmdBuffer_touches _ _ _ _ _ H3).
      apply QueueVulkan_Submit_inv in H4 as (Ht4 & b' & Hl' & Hs').
      assert (Ht : touches_only a m m4).
      { eapply touches_only_trans; [exact Ht1|].
        eapply touches_only_trans; [exact Ht2|].
        eapply touches_only_trans; [exact Ht3 | exact Ht4]. }
      split; [reflexivity|].
      split; [destruct Ht as (_ & Hq & _); exact Hq|].
      split; [apply (touches_only_length a); exact Ht|].
      split; [intros j Hj; apply (touches_only_other a); assumption|].
      split.
      * intros _. exists b'. split; assumption.
      * intros E. rewrite E in Hb. discriminate Hb.
    + injection Hbody as <-.
      split; [reflexivity|]. split; [reflexivity|]. split; [reflexivity|].
      split; [reflexivity|]. split.
      * intros Hb. rewrite Hb, andb_true_r in Hcond.
        rewrite (HasBegun_not_submitted b Hb) in Hcond. discriminate Hcond.
      * intros _. split; reflexivity.
Qed.

(** X18: without an active buffer the call fails and changes nothing.  When
    it returns, there was an active buffer and there is none afterwards; the
    queries in progress, the size of the pool and every buffer other than the
    active one are as before.  The active buffer ends up submitted if it had
    begun, and is left untouched (with no call made) if it had not. *)
Theorem SubmitActiveCmdBuffer_touches_active_only env signalSemaphore m :
  (ActiveCmdBuffer m = None ->
   SubmitActiveCmdBuffer env signalSemaphore m = Err InvalidStateError m) /\
  (forall m',
     SubmitActiveCmdBuffer env signalSemaphore m = Ok tt m' ->
     exists a b,
       ActiveCmdBuffer m = Some a /\
       CmdBuffers m !! a = Some b /\
       ActiveCmdBuffer m' = None /\
       QueriesInProgress m' = QueriesInProgress m /\
       length (CmdBuffers m') = length (CmdBuffers m) /\
       (forall j, j <> a -> CmdBuffers m' !! j = CmdBuffers m !! j) /\
       (HasBegun b = true ->
        exists b', CmdBuffers m' !! a = Some b' /\ _state b' = State_Submitted) /\
       (HasBegun b = false ->
        CmdBuffers m' = CmdBuffers m /\ Device m' = Device m)).
Proof. apply SubmitActiveCmdBuffer_inv. Qed.

Lemma SubmitActiveCmdBuffer_touches_active_only_witness :
  SubmitActiveCmdBuffer full_platform None (submitted_manager full_platform)
    = Err InvalidStateError (submitted_manager full_platform) /\
  exists m',
    SubmitActiveCmdBuffer full_platform None (recording_manager full_platform) = Ok tt m' /\
    ActiveCmdBuffer m' = None /\
    QueriesInProgress m' = [7%nat].
Proof.
  split.
  - apply (SubmitActiveCmdBuffer_touches_active_only full_platform None
             (submitted_manager full_platform)).
    reflexivity.
  - eexists. split; [vm_compute; reflexivity|].
    destruct (SubmitActiveCmdBuffer_touches_active_only full_platform None
                (recording_manager full_platform)) as [_ H].
    destruct (H (state_of (SubmitActiveCmdBuffer full_platform None
                             (recording_manager full_platform))))
      as (a & b & _ & _ & Hnone & Hq & _); [vm_compute; reflexivity|].
    split; [exact Hnone | exact Hq].
Defined.

(** ** The states a manager can reach *)

Lemma lookup_same (l : list CmdBufferVulkan) i x y :
  l !! i = Some x -> l !! i = Some y -> x = y.
Proof. intros H1 H2. rewrite H1 in H2. injection H2 as ->. reflexivity. Qed.


Lemma Submitted_idle b : _state b = State_Submitted -> idle b = true.
Proof.
  unfold idle, busy, reusable. intros ->. cbn.
  destruct (IsSignaled (_fence b)); reflexivity.
Qed.

Lemma Ready_quiet_idle b :
  _state b = State_ReadyForBegin -> IsSignaled (_fence b) = false -> idle b = true.
Proof. unfold idle, busy, reusable. intros -> ->. reflexivity. Qed.

Lemma InsideBegin_recording b : _state b = State_IsInsideBegin -> HasBegun b = true.
Proof. unfold HasBegun. intros ->. reflexivity. Qed.

(** Replacing one buffer by a buffer of the same kind keeps the shape. *)
Lemma consistent_update m p b b' d' :
  consistent m ->
  CmdBuffers m !! p = Some b ->
  (ActiveCmdBuffer m <> Some p -> idle b' = true) ->
  (ActiveCmdBuffer m = Some p -> HasBegun b' = true) ->
  consistent (set_Device d' (set_CmdBuffers (<[p := b']> (CmdBuffers m)) m)).
Proof.
  intros [Hidle Hact] Hl Hi Ha.
  assert (Hlt : (p < length (CmdBuffers m))%nat) by (eapply lookup_lt_Some; exact Hl).
  constructor; cbn.
  - intros i bi Hli Hne. destruct (Nat.eq_dec i p) as [->|Hip].
    + rewrite list_lookup_insert_eq in Hli by exact Hlt. injection Hli as <-.
      apply Hi. exact Hne.
    + rewrite list_lookup_insert_ne in Hli by (intros E; apply Hip; symmetry; exact E).
      eapply Hidle; eassumption.
  - intros a Haa. destruct (Nat.eq_dec a p) as [->|Hap].
    + exists b'. split; [apply list_lookup_insert_eq; exact Hlt | apply Ha; exact Haa].
    + rewrite list_lookup_insert_ne by (intros E; apply Hap; symmetry; exact E).
      apply Hact. exact Haa.
Qed.

Lemma record_op_keeps_recording env o b d b' d' :
  HasBegun b = true ->
  record_op env o (b, d) = Ok tt (b', d') ->
  HasBegun b' = true.
Proof.
  intros Hb. destruct o; cbn [record_op].
  - unfold BeginRenderPass, bind, this, ASSERT, call, update_this, modify, ret, throw.
    cbn [fst snd]. destruct (IsOutsideRenderPass b); [|discriminate].
    intros H. injection H as <- _. reflexivity.
  - unfold EndRenderPass, bind, this, ASSERT, call, update_this, modify, ret, throw.
    cbn [fst snd]. destruct (IsInsideRenderPass b); [|discriminate].
    intros H. injection H as <- _. reflexivity.
  - unfold BeginEvent, bind, this, call, update_this, modify, ret.
    destruct (has_vkCmdBeginDebugUtilsLabelEXT env); cbn;
      intros H; injection H as <- _; exact Hb.
  - unfold EndEvent, bind, this, call, update_this, modify, ret. cbn [fst snd].
    destruct ((_eventsBegin b =? 0) || negb (has_vkCmdEndDebugUtilsLabelEXT env)); cbn;
      intros H; injection H as <- _; exact Hb.
  - unfold AddWaitSemaphore, bind, this, ASSERT, update_this, modify, ret, throw.
    cbn [fst snd]. cbn [WaitSemaphores set_WaitFlags].
    destruct (negb (Contains waitSemaphore (WaitSemaphores b))); [|discriminate].
    intros H. injection H as <- _. exact Hb.
Qed.

Lemma WaitForCmdBuffer_Ok_inv env p inTime m m' :
  WaitForCmdBuffer env p inTime m = Ok tt m' ->
  ActiveCmdBuffer m' = ActiveCmdBuffer m /\
  QueriesInProgress m' = QueriesInProgress m /\
  exists b b',
    CmdBuffers m !! p = Some b /\
    _state b = State_Submitted /\
    CmdBuffers m' = <[p := b']> (CmdBuffers m) /\
    _state b' = State_ReadyForBegin /\
    IsSignaled (_fence b') = false.
Proof.
  unfold WaitForCmdBuffer. intros H.
  apply bind_Ok_inv in H as (b & m0 & Hthis & H).
  assert (Hl : CmdBuffers m !! p = Some b /\ m0 = m).
  { apply on_cmdBuffer_Ok_inv in Hthis as (b0 & b' & d' & Hl & Hop & ->).
    unfold this in Hop. cbn in Hop. injection Hop as <- <- <-.
    split; [exact Hl|]. rewrite list_insert_id by exact Hl. apply set_Device_same. }
  destruct Hl as [Hl ->].
  apply bind_Ok_inv in H as ([] & m1 & Hassert & H).
  unfold ASSERT in Hassert.
  destruct (IsSubmitted b) eqn:Hsub; [|discriminate Hassert].
  injection Hassert as <-.
  apply State_eqb_eq in Hsub.
  cbv zeta in H.
  apply bind_Ok_inv in H as ([] & m2 & Hsig & H).
  apply bind_Ok_inv in H as ([] & m3 & Hassert & H).
  unfold ASSERT in Hassert.
  destruct (IsSignaled (_fence b) || inTime); [|discriminate Hassert].
  injection Hassert as <-.
  unfold modify in Hsig. injection Hsig as <-.
  apply on_cmdBuffer_Ok_inv in H as (b1 & b' & d' & Hl1 & Hrun & ->).
  assert (Hlt : (p < length (CmdBuffers m))%nat) by (eapply lookup_lt_Some; exact Hl).
  unfold fence_signaled in *. rewrite Hl in *. cbn in Hl1 |- *.
  rewrite list_lookup_insert_eq in Hl1 by exact Hlt. injection Hl1 as <-.
  split; [reflexivity|]. split; [reflexivity|].
  exists b, b'. split; [first [exact Hl | reflexivity]|]. split; [exact Hsub|].
  split; [apply list_insert_insert_eq|].
  apply RefreshFenceStatus_Ok_cases in Hrun
    as [(_ & _ & Hf) | (_ & _ & Hs' & Hf' & _)].
  - cbn in Hf. discriminate Hf.
  - split; assumption.
Qed.

Lemma step_consistent env m m' : consistent m -> step env m m' -> consistent m'.
Proof.
  intros Hc Hstep. destruct Hstep.
  - (* Prepare *)
    destruct Hc as [Hidle _].
    apply Prepare_Ok_inv in H0 as (_ & [Hreuse | Hgrow]).
    + destruct Hreuse as (k & b & b' & Hl & _ & _ & Hb & Ha & Hs).
      assert (Hlt : (k < length (CmdBuffers m))%nat) by (eapply lookup_lt_Some; exact Hl).
      constructor.
      * intros i bi Hli Hne. rewrite Hb in Hli.
        assert (Hik : i <> k) by (intros ->; apply Hne; exact Ha).
        rewrite list_lookup_insert_ne in Hli by (intros E; apply Hik; symmetry; exact E).
        apply (Hidle i bi Hli). rewrite H. discriminate.
      * intros a Haa. rewrite Ha in Haa. injection Haa as <-.
        exists b'. split; [rewrite Hb; apply list_lookup_insert_eq; exact Hlt|].
        apply InsideBegin_recording. exact Hs.
    + destruct Hgrow as (b' & _ & Hb & Ha & Hs).
      constructor.
      * intros i bi Hli Hne. rewrite Hb in Hli.
        assert (Hlen : (i < length (CmdBuffers m))%nat).
        { apply lookup_lt_Some in Hli. rewrite length_app in Hli. cbn in Hli.
          assert (i <> length (CmdBuffers m)) by (intros ->; apply Hne; exact Ha). lia. }
        rewrite lookup_app_l in Hli by exact Hlen.
        apply (Hidle i bi Hli). rewrite H. discriminate.
      * intros a Haa. rewrite Ha in Haa. injection Haa as <-.
        exists b'. split; [rewrite Hb; apply list_lookup_middle; reflexivity|].
        apply InsideBegin_recording. exact Hs.
  - (* Submit *)
    destruct (SubmitActiveCmdBuffer_inv env signalSemaphore m) as [_ Hinv].
    destruct (Hinv m' H) as (a & b & Ha & Hl & Hnone & _ & _ & Hother & Hbegun & _).
    destruct Hc as [Hidle Hact].
    destruct (Hact a Ha) as (b0 & Hl0 & Hb0).
    assert (b0 = b) by (eapply lookup_same; eassumption). subst b0.
    destruct (Hbegun Hb0) as (b' & Hl' & Hs').
    constructor.
    + intros i bi Hli _. destruct (Nat.eq_dec i a) as [->|Hne].
      * assert (bi = b') by (eapply lookup_same; eassumption). subst bi. apply Submitted_idle. exact Hs'.
      * rewrite (Hother i Hne) in Hli. apply (Hidle i bi Hli).
        rewrite Ha. intros E. injection E as E. apply Hne. symmetry. exact E.
    + intros a' Haa. rewrite Hnone in Haa. discriminate Haa.
  - (* recording into the active buffer *)
    apply on_cmdBuffer_Ok_inv in H0 as (b & b' & d' & Hl & Hrun & ->).
    apply (consistent_update m a b b' d' Hc Hl).
    + intros Hne. contradiction.
    + intros _. destruct Hc as [_ Hact].
      destruct (Hact a H) as (b0 & Hl0 & Hb0).
      assert (b0 = b) by (eapply lookup_same; eassumption). subst b0.
      eapply record_op_keeps_recording; eassumption.
  - (* the GPU completes a buffer *)
    unfold fence_signaled. rewrite H.
    pose proof (consistent_update m p b
                  (set_fence {| fenceHandle := fenceHandle (_fence b); IsSignaled := true |} b)
                  (Device m) Hc H) as Hupd.
    assert (E : set_Device (Device m)
                  (set_CmdBuffers
                     (<[p := set_fence {| fenceHandle := fenceHandle (_fence b);
                                          IsSignaled := true |} b]> (CmdBuffers m)) m)
                = set_CmdBuffers
                    (<[p := set_fence {| fenceHandle := fenceHandle (_fence b);
                                         IsSignaled := true |} b]> (CmdBuffers m)) m)
      by (destruct m; reflexivity).
    rewrite <- E. apply Hupd.
    + intros _. apply Submitted_idle. exact H0.
    + intros Ha. destruct Hc as [_ Hact].
      destruct (Hact p Ha) as (b0 & Hl0 & Hb0).
      assert (b0 = b) by (eapply lookup_same; eassumption). subst b0.
      unfold HasBegun in Hb0. rewrite H0 in Hb0. discriminate Hb0.
  - (* waiting for a buffer *)
    apply WaitForCmdBuffer_Ok_inv in H as (Ha & _ & b & b' & Hl & Hs & Hb & Hs' & Hf').
    destruct Hc as [Hidle Hact].
    assert (Hlt : (p < length (CmdBuffers m))%nat) by (eapply lookup_lt_Some; exact Hl).
    assert (Hnp : ActiveCmdBuffer m <> Some p).
    { intros Hap. destruct (Hact p Hap) as (b0 & Hl0 & Hb0).
      assert (b0 = b) by (eapply lookup_same; eassumption). subst b0.
      unfold HasBegun in Hb0. rewrite Hs in Hb0. discriminate Hb0. }
    constructor; rewrite Ha, Hb.
    + intros i bi Hli Hne. destruct (Nat.eq_dec i p) as [->|Hip].
      * rewrite list_lookup_insert_eq in Hli by exact Hlt. injection Hli as <-.
        apply Ready_quiet_idle; assumption.
      * rewrite list_lookup_insert_ne in Hli by (intros E; apply Hip; symmetry; exact E).
        eapply Hidle; eassumption.
    + intros a Haa.
      assert (Hap : a <> p) by (intros ->; apply Hnp; exact Haa).
      rewrite list_lookup_insert_ne by (intros E; apply Hap; symmetry; exact E).
      apply Hact. exact Haa.
  - (* refreshing the pool *)
    unfold Pool_RefreshFenceStatus in H. unfold bind at 1 in H. unfold get in H.
    apply Pool_RefreshFenceStatus_from_inv in H as (Ha & _ & Hlen & Hbufs).
    destruct Hc as [Hidle Hact].
    assert (Hback : forall j b', CmdBuffers m' !! j = Some b' ->
              exists b, CmdBuffers m !! j = Some b /\
                (b' = b \/ (_state b = State_Submitted /\ idle b' = true))).
    { intros j b' Hl'.
      destruct (CmdBuffers m !! j) as [b|] eqn:Hl.
      - destruct (Hbufs j b Hl) as (b'' & Hl'' & Hrel & Hq).
        assert (b'' = b') by (eapply lookup_same; eassumption). subst b''.
        exists b. split; [reflexivity|].
        destruct Hrel as [->|(Hns & Hr & Hs & _ & Hs')]; [left; reflexivity|].
        right. split; [exact Hs|]. apply Ready_quiet_idle; [exact Hs'|].
        apply Hq; assumption.
      - apply lookup_ge_None in Hl. apply lookup_lt_Some in Hl'. lia. }
    constructor; rewrite Ha.
    + intros i bi Hli Hne.
      destruct (Hback i bi Hli) as (b & Hl & [->|(_ & Hi)]).
      * eapply Hidle; eassumption.
      * exact Hi.
    + intros a Haa. destruct (Hact a Haa) as (b & Hl & Hb).
      destruct (Hbufs a b Hl) as (b' & Hl' & Hrel & _).
      exists b'. split; [exact Hl'|].
      destruct Hrel as [->|(_ & _ & Hs & _)]; [exact Hb|].
      unfold HasBegun in Hb. rewrite Hs in Hb. discriminate Hb.
  - (* a query starts *)
    unfold OnQueryBegin, modify in H. injection H as <-.
    destruct Hc as [Hidle Hact]. constructor; cbn; assumption.
Qed.

Lemma reachable_shape env m : reachable env m -> consistent m.
Proof.
  induction 1 as [|m m' _ IH Hstep].
  - constructor; cbn.
    + intros i b Hl. rewrite lookup_nil in Hl. discriminate Hl.
    + intros a Ha. discriminate Ha.
  - eapply step_consistent; eassumption.
Qed.

(** X19: every state a manager can reach has the shape [consistent]: the
    active buffer, if there is one, is in the pool and is being recorded
    (inside begin or inside a render pass), and every other buffer is either
    ready with an unsignaled fence or submitted. *)
Theorem reachable_consistent env m : reachable env m -> consistent m.
Proof. apply reachable_shape. Qed.

Lemma reachable_recording env :
  (forall c, vkResult env c = true) -> reachable env (recording_manager env).
Proof.
  intros Hvk.
  assert (Hq : reachable env (state_of (OnQueryBegin 7%nat new_manager))).
  { eapply reachable_step; [apply reachable_new|]. apply (step_OnQueryBegin env 7%nat). reflexivity. }
  destruct (Prepare_create env (state_of (OnQueryBegin 7%nat new_manager)))
    as (m' & b' & new & Hrun & _); [reflexivity | exact Hvk |].
  assert (E : recording_manager env = m').
  { unfold recording_manager, bind. cbn [OnQueryBegin modify].
    unfold OnQueryBegin, modify, state_of in Hrun. rewrite Hrun. reflexivity. }
  rewrite E. eapply reachable_step; [exact Hq|].
  apply step_Prepare; [reflexivity | exact Hrun].
Qed.

Lemma reachable_consistent_witness :
  reachable full_platform (recording_manager full_platform) /\
  consistent (recording_manager full_platform).
Proof.
  assert (H : reachable full_platform (recording_manager full_platform)).
  { apply reachable_recording. intros c. reflexivity. }
  split; [exact H|].
  apply (reachable_consistent full_platform (recording_manager full_platform) H).
Defined.



(** A pool of idle buffers is a run of busy buffers followed, if at all, by a
    reusable one. *)
Lemma idle_split : forall l : list CmdBufferVulkan,
  (forall i b, l !! i = Some b -> idle b = true) ->
  forallb busy l = true \/
  exists pre b post, l = pre ++ b :: post /\ forallb busy pre = true /\ reusable b = true.
Proof.
  induction l as [|a l IH]; intros Hidle.
  - left. reflexivity.
  - destruct (busy a) eqn:Ha.
    + destruct IH as [Hall | (pre & b & post & -> & Hpre & Hb)].
      * intros i b Hl. apply (Hidle (S i) b). exact Hl.
      * left. cbn. rewrite Ha. exact Hall.
      * right. exists (a :: pre), b, post. cbn. rewrite Ha. repeat split; assumption.
    + right. exists [], a, l. repeat split.
      pose proof (Hidle 0%nat a eq_refl) as Hi. unfold idle in Hi.
      rewrite Ha in Hi. exact Hi.
Qed.

(** ... and the reusable one comes no later than any given reusable buffer. *)
Lemma idle_split_at : forall (l : list CmdBufferVulkan) a b,
  (forall i bi, l !! i = Some bi -> idle bi = true) ->
  l !! a = Some b ->
  reusable b = true ->
  exists pre b0 post,
    l = pre ++ b0 :: post /\ forallb busy pre = true /\ reusable b0 = true /\
    (length pre <= a)%nat.
Proof.
  induction l as [|x l IH]; intros a b Hidle Hl Hb.
  - rewrite lookup_nil in Hl. discriminate Hl.
  - destruct (busy x) eqn:Hx.
    + destruct a as [|a].
      * cbn in Hl. injection Hl as <-. unfold busy, reusable in *.
        destruct (_state x); destruct (IsSignaled (_fence x)); cbn in *; discriminate.
      * destruct (IH a b) as (pre & b0 & post & -> & Hpre & Hb0 & Hlen).
        -- intros i bi Hli. apply (Hidle (S i) bi). exact Hli.
        -- exact Hl.
        -- exact Hb.
        -- exists (x :: pre), b0, post. cbn. rewrite Hx.
           repeat split; try assumption. lia.
    + exists [], x, l. repeat split; [|cbn; lia].
      pose proof (Hidle 0%nat x eq_refl) as Hi. unfold idle in Hi.
      rewrite Hx in Hi. exact Hi.
Qed.

(** X21: in a reachable state with no active buffer, and with a driver that
    answers, [PrepareForNewActiveCommandBuffer] always returns: none of its
    assertions (nor those of the refresh and of [Begin]) can fire. *)
Theorem reachable_Prepare_returns env m :
  reachable env m ->
  ActiveCmdBuffer m = None ->
  (forall c, vkResult env c = true) ->
  exists m', PrepareForNewActiveCommandBuffer env m = Ok tt m'.
Proof.
  intros Hr Ha Hvk.
  assert (Hc : consistent m) by (eapply reachable_shape; exact Hr).
  destruct Hc as [Hidle _].
  destruct (idle_split (CmdBuffers m)) as [Hall | (pre & b & post & Hpool & Hpre & Hb)].
  - intros i b Hl. apply (Hidle i b Hl). rewrite Ha. discriminate.
  - destruct (Prepare_create env m Hall Hvk) as (m' & _ & _ & Hrun & _).
    exists m'. exact Hrun.
  - destruct (Prepare_reuse env m pre b post Hpool Hpre Hb Hvk) as (m' & _ & _ & Hrun & _).
    exists m'. exact Hrun.
Qed.

Lemma reachable_submitted :
  reachable full_platform (submitted_manager full_platform).
Proof.
  eapply reachable_step.
  - apply reachable_recording. intros c. reflexivity.
  - apply (step_Submit full_platform None). vm_compute. reflexivity.
Qed.

Lemma reachable_Prepare_returns_witness :
  exists m',
    PrepareForNewActiveCommandBuffer full_platform (submitted_manager full_platform)
      = Ok tt m'.
Proof.
  apply (reachable_Prepare_returns full_platform (submitted_manager full_platform)).
  - exact reachable_submitted.
  - reflexivity.
  - intros c. reflexivity.
Defined.

(** X22: once the GPU has completed the buffer that was just submitted, the
    next [PrepareForNewActiveCommandBuffer] reuses a buffer at or before it
    in the pool: in steady state the pool does not grow. *)
Theorem completed_buffer_is_reused env signalSemaphore m m1 a :
  reachable env m ->
  ActiveCmdBuffer m = Some a ->
  SubmitActiveCmdBuffer env signalSemaphore m = Ok tt m1 ->
  (forall c, vkResult env c = true) ->
  exists m2 k,
    PrepareForNewActiveCommandBuffer env (fence_signaled a m1) = Ok tt m2 /\
    ActiveCmdBuffer m2 = Some k /\
    (k <= a)%nat /\
    length (CmdBuffers m2) = length (CmdBuffers m).
Proof.
  intros Hr Ha Hsub Hvk.
  assert (Hc : consistent m) by (eapply reachable_shape; exact Hr).
  assert (Hc1 : consistent m1).
  { eapply step_consistent; [exact Hc|]. eapply step_Submit. exact Hsub. }
  destruct (SubmitActiveCmdBuffer_inv env signalSemaphore m) as [_ Hinv].
  destruct (Hinv m1 Hsub) as (a' & b & Ha' & Hl & Hnone & _ & Hlen & _ & Hbegun & _).
  rewrite Ha in Ha'. injection Ha' as <-.
  destruct Hc as [_ Hact]. destruct (Hact a Ha) as (b0 & Hl0 & Hb0).
  assert (b0 = b) by (eapply lookup_same; eassumption). subst b0.
  destruct (Hbegun Hb0) as (b1 & Hl1 & Hs1).
  set (b1s := set_fence {| fenceHandle := fenceHandle (_fence b1); IsSignaled := true |} b1).
  assert (Hc2 : consistent (fence_signaled a m1)).
  { eapply step_consistent; [exact Hc1|]. eapply (step_fence env a b1); eassumption. }
  assert (Hfs : fence_signaled a m1 = set_CmdBuffers (<[a := b1s]> (CmdBuffers m1)) m1).
  { unfold fence_signaled. rewrite Hl1. reflexivity. }
  assert (Hlt : (a < length (CmdBuffers m1))%nat) by (eapply lookup_lt_Some; exact Hl1).
  assert (Hla : CmdBuffers (fence_signaled a m1) !! a = Some b1s).
  { rewrite Hfs. cbn. apply list_lookup_insert_eq. exact Hlt. }
  assert (Hnone2 : ActiveCmdBuffer (fence_signaled a m1) = None).
  { rewrite Hfs. cbn. exact Hnone. }
  destruct Hc2 as [Hidle2 _].
  destruct (idle_split_at (CmdBuffers (fence_signaled a m1)) a b1s)
    as (pre & bk & post & Hpool & Hpre & Hbk & Hk).
  - intros i bi Hli. apply (Hidle2 i bi Hli). rewrite Hnone2. discriminate.
  - exact Hla.
  - unfold reusable, b1s. cbn. rewrite Hs1. reflexivity.
  - destruct (Prepare_reuse env (fence_signaled a m1) pre bk post Hpool Hpre Hbk Hvk)
      as (m2 & bk' & new & Hrun & Ha2 & Hb2 & _).
    exists m2, (length pre). split; [exact Hrun|]. split; [exact Ha2|].
    split; [exact Hk|].
    rewrite Hb2. rewrite <- Hlen.
    assert (Hl2 : length (CmdBuffers (fence_signaled a m1)) = length (CmdBuffers m1)).
    { rewrite Hfs. cbn. apply length_insert. }
    rewrite <- Hl2, Hpool, !length_app. reflexivity.
Qed.

Lemma completed_buffer_is_reused_witness :
  exists m2 k,
    PrepareForNewActiveCommandBuffer full_platform (completed_manager full_platform)
      = Ok tt m2 /\
    ActiveCmdBuffer m2 = Some k /\
    (k <= 0)%nat /\
    length (CmdBuffers m2) = 1%nat.
Proof.
  apply (completed_buffer_is_reused full_platform None (recording_manager full_platform)
           (submitted_manager full_platform) 0%nat).
  - apply reachable_recording. intros c. reflexivity.
  - reflexivity.
  - vm_compute. reflexivity.
  - intros c. reflexivity.
Defined.

(** ** WaitForCmdBuffer *)

(** X23: waiting for a buffer that is not submitted is refused and changes
    nothing.  Waiting for a submitted buffer whose fence does not get
    signaled in time fails with a timeout and changes nothing.  When the
    fence is, or gets, signaled the call returns with the buffer ready for
    reuse, its fence reset; no other buffer, nor the active pointer, nor the
    queries change. *)
Theorem WaitForCmdBuffer_outcomes env p inTime m b :
  CmdBuffers m !! p = Some b ->
  (_state b <> State_Submitted ->
   WaitForCmdBuffer env p inTime m = Err InvalidStateError m) /\
  (_state b = State_Submitted ->
   IsSignaled (_fence b) = false -> inTime = false ->
   WaitForCmdBuffer env p inTime m = Err TimeoutError m) /\
  (_state b = State_Submitted ->
   IsSignaled (_fence b) || inTime = true ->
   exists m' b',
     WaitForCmdBuffer env p inTime m = Ok tt m' /\
     CmdBuffers m' = <[p := b']> (CmdBuffers m) /\
     _state b' = State_ReadyForBegin /\
     IsSignaled (_fence b') = false /\
     CommandBufferHandle b' = CommandBufferHandle b /\
     ActiveCmdBuffer m' = ActiveCmdBuffer m /\
     QueriesInProgress m' = QueriesInProgress m).
Proof.
  intros Hl.
  assert (Hthis := on_cmdBuffer_this p m b Hl).
  split; [|split].
  - intros Hne.
    assert (Hs : IsSubmitted b = false) by (apply State_eqb_neq; exact Hne).
    unfold WaitForCmdBuffer. rewrite (bind_Ok _ _ m b m Hthis).
    unfold bind, ASSERT, throw. rewrite Hs. reflexivity.
  - intros Hs Hf ->.
    assert (Hsub : IsSubmitted b = true) by (apply State_eqb_eq; exact Hs).
    unfold WaitForCmdBuffer. rewrite (bind_Ok _ _ m b m Hthis).
    unfold bind, ASSERT, throw, ret. rewrite Hsub, Hf. reflexivity.
  - intros Hs Hok.
    assert (Hsub : IsSubmitted b = true) by (apply State_eqb_eq; exact Hs).
    assert (Hlt : (p < length (CmdBuffers m))%nat) by (eapply lookup_lt_Some; exact Hl).
    set (bs := set_fence {| fenceHandle := fenceHandle (_fence b); IsSignaled := true |} b).
    destruct (RefreshFenceStatus_reusable env bs (Device m))
      as (b' & d' & new & Hrun & Hs' & Hh' & _).
    { unfold reusable, bs. cbn. rewrite Hs. reflexivity. }
    assert (Hf' : IsSignaled (_fence b') = false).
    { apply RefreshFenceStatus_Ok_cases in Hrun
        as [(_ & _ & Hf) | (_ & _ & _ & Hf & _)]; [discriminate Hf | exact Hf]. }
    eexists _, b'. split.
    + unfold WaitForCmdBuffer. rewrite (bind_Ok _ _ m b m Hthis).
      unfold bind at 1. unfold ASSERT at 1. rewrite Hsub. unfold ret at 1.
      cbv zeta. rewrite Hok.
      unfold bind at 1. unfold modify at 1.
      unfold bind at 1. unfold ASSERT at 1. unfold ret at 1.
      apply on_cmdBuffer_Ok with (b := bs).
      * unfold fence_signaled. rewrite Hl. cbn. apply list_lookup_insert_eq. exact Hlt.
      * unfold fence_signaled. rewrite Hl. cbn. exact Hrun.
    + unfold fence_signaled. rewrite Hl. cbn.
      split; [apply list_insert_insert_eq|].
      repeat split; assumption.
Qed.

Lemma WaitForCmdBuffer_outcomes_witness :
  WaitForCmdBuffer full_platform 0%nat true (recording_manager full_platform)
    = Err InvalidStateError (recording_manager full_platform) /\
  WaitForCmdBuffer full_platform 0%nat false (submitted_manager full_platform)
    = Err TimeoutError (submitted_manager full_platform) /\
  exists m' b',
    WaitForCmdBuffer full_platform 0%nat true (submitted_manager full_platform) = Ok tt m' /\
    CmdBuffers m' !! 0%nat = Some b' /\
    _state b' = State_ReadyForBegin.
Proof.
  split; [|split].
  - apply (WaitForCmdBuffer_outcomes full_platform 0%nat true (recording_manager full_platform)
             (set_CurrentDescriptorPoolSetContainer (Some 1%nat)
                (set_state State_IsInsideBegin new_cmdBuffer))).
    + reflexivity.
    + cbn. discriminate.
  - apply (WaitForCmdBuffer_outcomes full_platform 0%nat false (submitted_manager full_platform)
             (set_eventsBegin (-1)
                (set_CurrentDescriptorPoolSetContainer (Some 1%nat)
                   (set_state State_Submitted new_cmdBuffer)))); reflexivity.
  - destruct (WaitForCmdBuffer_outcomes full_platform 0%nat true
                (submitted_manager full_platform)
                (set_eventsBegin (-1)
                   (set_CurrentDescriptorPoolSetContainer (Some 1%nat)
                      (set_state State_Submitted new_cmdBuffer))))
      as (_ & _ & H); [reflexivity|].
    destruct H as (m' & b' & Hrun & Hb & Hs & _); [reflexivity | reflexivity |].
    exists m', b'. split; [exact Hrun|]. split; [rewrite Hb; reflexivity | exact Hs].
Defined.

(** ** Tearing the pool down *)

Lemma Pool_delete_each_free l :
  List.filter is_free (Pool_delete_each l)
  = map (fun b => Teardown_vkFreeCommandBuffers (CommandBufferHandle b)) l.
Proof.
  induction l as [|b l IH]; [reflexivity|].
  cbn [Pool_delete_each]. rewrite List.filter_app, IH.
  unfold CmdBufferVulkan_delete.
  destruct (State_eqb (_state b) State_Submitted); reflexivity.
Qed.

Lemma Pool_delete_each_wait l :
  List.filter is_wait (Pool_delete_each l)
  = map (fun b => FenceManager_WaitAndReleaseFence (fenceHandle (_fence b)) 60000000)
      (List.filter (fun b => State_eqb (_state b) State_Submitted) l).
Proof.
  induction l as [|b l IH]; [reflexivity|].
  cbn [Pool_delete_each List.filter]. rewrite List.filter_app, IH.
  unfold CmdBufferVulkan_delete.
  destruct (State_eqb (_state b) State_Submitted); reflexivity.
Qed.

Lemma Pool_delete_each_release l :
  List.filter is_release (Pool_delete_each l)
  = map (fun b => FenceManager_ReleaseFence (fenceHandle (_fence b)))
      (List.filter (fun b => negb (State_eqb (_state b) State_Submitted)) l).
Proof.
  induction l as [|b l IH]; [reflexivity|].
  cbn [Pool_delete_each List.filter]. rewrite List.filter_app, IH.
  unfold CmdBufferVulkan_delete.
  destruct (State_eqb (_state b) State_Submitted); reflexivity.
Qed.

Lemma Pool_delete_each_length l :
  length (Pool_delete_each l) = (2 * length l)%nat.
Proof.
  induction l as [|b l IH]; [reflexivity|].
  cbn [Pool_delete_each]. rewrite length_app, IH.
  unfold CmdBufferVulkan_delete.
  destruct (State_eqb (_state b) State_Submitted); cbn; lia.
Qed.

(** X24: destroying the pool frees the native handle of every buffer, once
    each and in allocation order; it waits, for 60 ms, on the fence of exactly
    the submitted buffers and releases the fence of the others without
    waiting; each buffer costs two calls and the native pool is destroyed
    last. *)
Theorem Pool_delete_frees_every_buffer m :
  List.filter is_free (Pool_delete m)
    = map (fun b => Teardown_vkFreeCommandBuffers (CommandBufferHandle b)) (CmdBuffers m) /\
  List.filter is_wait (Pool_delete m)
    = map (fun b => FenceManager_WaitAndReleaseFence (fenceHandle (_fence b)) 60000000)
        (List.filter (fun b => State_eqb (_state b) State_Submitted) (CmdBuffers m)) /\
  List.filter is_release (Pool_delete m)
    = map (fun b => FenceManager_ReleaseFence (fenceHandle (_fence b)))
        (List.filter (fun b => negb (State_eqb (_state b) State_Submitted)) (CmdBuffers m)) /\
  length (Pool_delete m) = (2 * length (CmdBuffers m) + 1)%nat /\
  last (Pool_delete m) = Some Teardown_vkDestroyCommandPool.
Proof.
  unfold Pool_delete. repeat split.
  - rewrite List.filter_app, Pool_delete_each_free. cbn. apply app_nil_r.
  - rewrite List.filter_app, Pool_delete_each_wait. cbn. apply app_nil_r.
  - rewrite List.filter_app, Pool_delete_each_release. cbn. apply app_nil_r.
  - rewrite length_app, Pool_delete_each_length. cbn. lia.
  - apply last_snoc.
Qed.
